(** * Weather API: provider normalisation layer and request cache

    A shallow embedding of the Go sources of the weather service:

    - [providers] : the National Weather Service adapter ([NWSProvider]) and
      the US Census geocoding adapter ([CensusProvider]);
    - [models]    : the canonical [Forecast] and [Place] records;
    - [repo]      : the [RequestCache] wrapper over a [KVStore].

    Conventions of the embedding.

    - Go [string] is [string] (a sequence of bytes).  The functions of the Go
      [strings] package are written out for ASCII: white space is the six
      ASCII space characters, case mapping touches the 26 ASCII letters.
      They agree with Go on every string whose bytes are all below 0x80.
    - Go [int] is the 64-bit signed integer: a [Z] in [[-2^63, 2^63)], with
      the wrap-around of the arithmetic written out ([wrap]).
    - Go [float64] is the primitive binary64 [float]: the same IEEE 754
      operations, rounded to nearest even.
    - Go [error] is the inductive [error]; a function returning [(T, error)]
      returns a [result T].
    - Code that reads the clock or talks to the network runs in the monad
      [M], a state-and-error monad over the [World] of a [Runtime]; the
      functions of Go's standard library that are not part of the
      repository ([time], [net/http], [net/url], [encoding/json]) are the
      operations of that [Runtime]. *)

From Stdlib Require Import ZArith String Ascii List Bool Floats Lia.
From Stdlib Require Import DecimalString.
From stdpp Require Import gmap strings list.

Set Warnings "-inexact-float".
Set Default Proof Using "Type".

Local Open Scope Z_scope.

(* ===================================================================== *)
(** * The Go runtime and standard library                                 *)
(* ===================================================================== *)

(** ** Errors and results *)

(** [errorString] is what [errors.New] and [fmt.Errorf] without [%w] build;
    [wrapError] is what [fmt.Errorf] builds for a format with [%w]: the
    formatted message and the wrapped error; [NumError] is [strconv]'s. *)
Inductive error : Type :=
| errorString (s : string)
| wrapError (msg : string) (err : error)
| NumError (Func Num : string) (Err : error).

Inductive result (A : Type) : Type :=
| Ok (a : A)
| Err (e : error).

Arguments Ok {A} a.
Arguments Err {A} e.

Definition is_Ok {A} (r : result A) : bool :=
  match r with Ok _ => true | Err _ => false end.

Module strings.

(** The ASCII space characters of [unicode.IsSpace]:
    ['\t'], ['\n'], ['\v'], ['\f'], ['\r'] and [' ']. *)
Definition isSpace (c : ascii) : bool :=
  let n := N_of_ascii c in
  ((9 <=? n)%N && (n <=? 13)%N) || (n =? 32)%N.

Definition isUpper (c : ascii) : bool :=
  let n := N_of_ascii c in (65 <=? n)%N && (n <=? 90)%N.

Definition isLower (c : ascii) : bool :=
  let n := N_of_ascii c in (97 <=? n)%N && (n <=? 122)%N.

Definition toUpperChar (c : ascii) : ascii :=
  if isLower c then ascii_of_N (N_of_ascii c - 32) else c.

Definition toLowerChar (c : ascii) : ascii :=
  if isUpper c then ascii_of_N (N_of_ascii c + 32) else c.

Fixpoint mapChars (f : ascii -> ascii) (s : string) : string :=
  match s with
  | EmptyString => EmptyString
  | String c s' => String (f c) (mapChars f s')
  end.

Definition ToUpper : string -> string := mapChars toUpperChar.
Definition ToLower : string -> string := mapChars toLowerChar.

Fixpoint TrimLeftSpace (s : string) : string :=
  match s with
  | EmptyString => EmptyString
  | String c s' => if isSpace c then TrimLeftSpace s' else s
  end.

Fixpoint TrimRightSpace (s : string) : string :=
  match s with
  | EmptyString => EmptyString
  | String c s' =>
      match TrimRightSpace s' with
      | EmptyString => if isSpace c then EmptyString else String c EmptyString
      | t => String c t
      end
  end.

(** [strings.TrimSpace]: leading and trailing white space removed. *)
Definition TrimSpace (s : string) : string :=
  TrimRightSpace (TrimLeftSpace s).

(** [strings.Fields]: the maximal runs of non-space characters, in order.
    [word] is the field being scanned ([None] between fields, Go's
    [fieldStart < 0]). *)
Fixpoint fieldsFrom (word : option string) (s : string) : list string :=
  match s with
  | EmptyString =>
      match word with Some w => [w] | None => [] end
  | String c s' =>
      if isSpace c then
        match word with
        | Some w => w :: fieldsFrom None s'
        | None => fieldsFrom None s'
        end
      else
        match word with
        | Some w => fieldsFrom (Some (w +:+ String c EmptyString)) s'
        | None => fieldsFrom (Some (String c EmptyString)) s'
        end
  end.

Definition Fields (s : string) : list string := fieldsFrom None s.

(** [strings.Join]. *)
Fixpoint Join (elems : list string) (sep : string) : string :=
  match elems with
  | [] => EmptyString
  | [e] => e
  | e :: rest => e +:+ sep +:+ Join rest sep
  end.

(** [strings.Contains]. *)
Definition Contains (s substr : string) : bool :=
  match index 0 substr s with Some _ => true | None => false end.

End strings.

(** ** Machine integers *)

Definition intSize : Z := 64.
Definition minInt : Z := - 2 ^ 63.
Definition maxInt : Z := 2 ^ 63 - 1.

(** The value an [int] computation keeps of the mathematical result [z]:
    [z] modulo [2^64], read as a signed number. *)
Definition wrap (z : Z) : Z := (z + 2 ^ 63) mod 2 ^ 64 - 2 ^ 63.

Definition is_int (z : Z) : Prop := minInt <= z <= maxInt.

(** [float64(z)] for an integer [z]: the nearest binary64, ties to even. *)
Definition float64_of_int (z : Z) : float :=
  SF2Prim (binary_normalize prec emax z 0 false).

Module strconv.

Definition ErrSyntax : error := errorString "invalid syntax".
Definition ErrRange : error := errorString "value out of range".

Definition digitVal (c : ascii) : option Z :=
  let n := Z.of_N (N_of_ascii c) in
  if (48 <=? n) && (n <=? 57) then Some (n - 48) else None.

Fixpoint digits (s : string) (acc : Z) : option Z :=
  match s with
  | EmptyString => Some acc
  | String c s' =>
      match digitVal c with
      | Some d => digits s' (acc * 10 + d)
      | None => None
      end
  end.

(** [strconv.Atoi]: an optional sign, then one or more decimal digits; the
    value has to fit an [int]. *)
Definition Atoi (s : string) : result Z :=
  match s with
  | EmptyString => Err (NumError "Atoi" s ErrSyntax)
  | String c rest =>
      let neg := Ascii.eqb c "-" in
      let body := if neg || Ascii.eqb c "+" then rest else s in
      match body with
      | EmptyString => Err (NumError "Atoi" s ErrSyntax)
      | _ =>
          match digits body 0 with
          | None => Err (NumError "Atoi" s ErrSyntax)
          | Some n =>
              let v := if neg then - n else n in
              if (minInt <=? v) && (v <=? maxInt) then Ok v
              else Err (NumError "Atoi" s ErrRange)
          end
      end
  end.

End strconv.

(** [err.Error()].  The operand of a [NumError] is shown between quotes;
    the escapes of [strconv.Quote] are not written out. *)
Fixpoint Error (e : error) : string :=
  match e with
  | errorString s => s
  | wrapError msg _ => msg
  | NumError f n err =>
      let q := String (ascii_of_nat 34) EmptyString in
      "strconv." +:+ f +:+ ": parsing " +:+ q +:+ n +:+ q +:+ ": " +:+ Error err
  end.

(** [errors.Unwrap]. *)
Definition Unwrap (e : error) : option error :=
  match e with
  | errorString _ => None
  | wrapError _ err => Some err
  | NumError _ _ err => Some err
  end.

(** [fmt.Errorf(prefix + ": %w", err)]. *)
Definition Errorf_w (prefix : string) (err : error) : error :=
  wrapError (prefix +:+ ": " +:+ Error err) err.

(** [%d] of [fmt]: the decimal digits of an integer. *)
Definition fmt_d (z : Z) : string :=
  NilZero.string_of_int (Z.to_int z).

(** [%f] of [fmt] (and [%.6f], its default precision): the decimal
    expansion of a binary64 rounded to six places, ties to even. *)
Definition roundHalfEven (a b : Z) : Z :=
  let q := a / b in
  let r := a mod b in
  if 2 * r <? b then q
  else if 2 * r >? b then q + 1
  else if Z.even q then q else q + 1.

Fixpoint zeros (n : nat) : string :=
  match n with
  | O => EmptyString
  | S n' => "0" +:+ zeros n'
  end.

Definition padLeft (width : nat) (s : string) : string :=
  zeros (width - String.length s) +:+ s.

Definition fmt_f (x : float) : string :=
  match Prim2SF x with
  | S754_nan => "NaN"
  | S754_infinity s => if s then "-Inf" else "+Inf"
  | S754_zero s => (if s then "-" else "") +:+ "0.000000"
  | S754_finite s m e =>
      let scaled := Z.pos m * 10 ^ 6 in
      let n :=
        if 0 <=? e then scaled * 2 ^ e else roundHalfEven scaled (2 ^ (- e)) in
      (if s then "-" else "") +:+ fmt_d (n / 10 ^ 6) +:+ "." +:+
      padLeft 6 (fmt_d (n mod 10 ^ 6))
  end.

(** [time.Duration]: a number of nanoseconds. *)
Definition Duration : Type := Z.

(** ** Wire formats of the two upstream services

    The structs the JSON responses are decoded into.  A field keeps its Go
    name, prefixed by an abbreviation of its struct where two structs share
    it. *)

(** *** National Weather Service *)

Record NWSPointProperties : Type := {
  GridID : string;
  GridX : Z;
  GridY : Z;
  Forecast_URL : string;          (* Forecast *)
  ForecastHourly : string;
  ObservationStations : string;
}.

Record NWSPointResponse : Type := {
  point_Properties : NWSPointProperties;
}.

Record NWSForecastPeriod : Type := {
  Number : Z;
  Name : string;
  StartTime : string;
  EndTime : string;
  IsDaytime : bool;
  period_Temperature : Z;
  TemperatureUnit : string;
  period_WindSpeed : string;
  period_WindDirection : string;
  Icon : string;
  ShortForecast : string;
  DetailedForecast : string;
}.

Record NWSForecastProperties : Type := {
  Periods : list NWSForecastPeriod;
}.

Record NWSForecastResponse : Type := {
  forecast_Properties : NWSForecastProperties;
}.

(** [Value] is a [*float64]: [None] is the nil pointer of an absent or
    null reading. *)
Record NWSQuantitativeValue : Type := {
  Value : option float;
  UnitCode : string;
  QualityControl : string;
}.

Record NWSObservationProperties : Type := {
  Timestamp : string;
  obs_Temperature : NWSQuantitativeValue;
  Dewpoint : NWSQuantitativeValue;
  obs_WindDirection : NWSQuantitativeValue;
  obs_WindSpeed : NWSQuantitativeValue;
  BarometricPressure : NWSQuantitativeValue;
  RelativeHumidity : NWSQuantitativeValue;
  obs_Visibility : NWSQuantitativeValue;
  TextDescription : string;
}.

Record NWSObservationResponse : Type := {
  obs_Properties : NWSObservationProperties;
}.

(** The anonymous struct [stationsResp] of [GetCurrentWeather]. *)
Record StationProperties : Type := {
  StationIdentifier : string;
}.

Record StationFeature : Type := {
  station_Properties : StationProperties;
}.

Record StationsResponse : Type := {
  Features : list StationFeature;
}.

(** *** US Census geocoder *)

Record CensusCoordinates : Type := {
  X : float;
  Y : float;
}.

Record CensusTigerLine : Type := {
  Side : string;
  TigerLineId : string;
}.

Record CensusAddressComponents : Type := {
  Zip : string;
  StreetName : string;
  PreType : string;
  City : string;
  PreDirection : string;
  SuffixDirection : string;
  FromAddress : string;
  State : string;
  SuffixType : string;
  ToAddress : string;
  SuffixQualifier : string;
  PreQualifier : string;
}.

Record CensusAddressMatch : Type := {
  MatchedAddress : string;
  Coordinates : CensusCoordinates;
  TigerLine : CensusTigerLine;
  AddressComponents : CensusAddressComponents;
}.

Record CensusInputAddress : Type := {
  input_Address : string;
}.

Record CensusInput : Type := {
  Address : CensusInputAddress;
}.

Record CensusResult : Type := {
  Input : CensusInput;
  AddressMatches : list CensusAddressMatch;
}.

Record CensusGeocodeResponse : Type := {
  geocode_Result : CensusResult;
}.

Record CensusReverseMatch : Type := {
  rev_MatchedAddress : string;
  rev_AddressComponents : CensusAddressComponents;
  rev_TigerLine : CensusTigerLine;
  rev_Coordinates : CensusCoordinates;
}.

Record CensusLocation : Type := {
  loc_X : float;
  loc_Y : float;
}.

Record CensusReverseInput : Type := {
  Location : CensusLocation;
}.

Record CensusReverseResult : Type := {
  rev_Input : CensusReverseInput;
  rev_AddressMatches : list CensusReverseMatch;
}.

Record CensusReverseGeocodeResponse : Type := {
  reverse_Result : CensusReverseResult;
}.

(** ** HTTP messages *)

(** An [http.Request] as the adapters build it: method, URL and header.
    [Header.Set] replaces the values of a key. *)
Record Request : Type := {
  Method : string;
  URL : string;
  Header : gmap string (list string);
}.

Definition Header_Set (req : Request) (key value : string) : Request :=
  {| Method := Method req; URL := URL req;
     Header := <[key := [value]]> (Header req) |}.

Record Response : Type := {
  StatusCode : Z;
  Body : list Byte.byte;
}.

Definition StatusOK : Z := 200.

(** ** The runtime

    What the adapters use of the world outside the repository.  [World] is
    the state that calls can read and change (the wall clock, the network,
    the servers behind it).  A decoder is a function of the bytes it is
    given; a clock reading or an HTTP exchange is a step of the world. *)
Class Runtime : Type := {
  World : Type;
  time_Time : Type;
  context_Context : Type;
  (** [time.Time{}], [t.IsZero()], [time.Now()], [time.Parse(time.RFC3339, s)] *)
  time_Zero : time_Time;
  time_IsZero : time_Time -> bool;
  time_Now : World -> time_Time * World;
  time_Parse_RFC3339 : string -> result time_Time;
  (** [http.NewRequestWithContext(ctx, method, url, nil)] and
      [client.Do(req)] *)
  http_NewRequestWithContext :
    context_Context -> string -> string -> result Request;
  http_Do : context_Context -> Request -> World -> result Response * World;
  (** [json.NewDecoder(body).Decode(&raw)] and [json.Unmarshal(raw, &v)] at
      each type [v] is decoded at *)
  json_Decode_RawMessage : list Byte.byte -> result (list Byte.byte);
  json_Unmarshal_Point : list Byte.byte -> result NWSPointResponse;
  json_Unmarshal_Stations : list Byte.byte -> result StationsResponse;
  json_Unmarshal_Observation : list Byte.byte -> result NWSObservationResponse;
  json_Unmarshal_Forecast : list Byte.byte -> result NWSForecastResponse;
  json_Unmarshal_Geocode : list Byte.byte -> result CensusGeocodeResponse;
  json_Unmarshal_Reverse :
    list Byte.byte -> result CensusReverseGeocodeResponse;
  (** [url.Values.Encode] *)
  url_Values_Encode : list (string * list string) -> string;
}.

(** ** The monad of effectful code *)

Definition M {RT : Runtime} (A : Type) : Type := World -> result A * World.

Definition ret {RT : Runtime} {A} (a : A) : M A := fun w => (Ok a, w).

Definition fail {RT : Runtime} {A} (e : error) : M A := fun w => (Err e, w).

Definition bind {RT : Runtime} {A B} (m : M A) (k : A -> M B) : M B :=
  fun w =>
    match m w with
    | (Ok a, w') => k a w'
    | (Err e, w') => (Err e, w')
    end.

(** A pure call that may fail. *)
Definition lift {RT : Runtime} {A} (r : result A) : M A := fun w => (r, w).

(** A call that cannot fail. *)
Definition step {RT : Runtime} {A} (f : World -> A * World) : M A :=
  fun w => let (a, w') := f w in (Ok a, w').

(** [x, err := m; if err != nil { return nil, fmt.Errorf(prefix + ": %w", err) }] *)
Definition wrapping {RT : Runtime} {A} (prefix : string) (m : M A) : M A :=
  fun w =>
    match m w with
    | (Ok a, w') => (Ok a, w')
    | (Err e, w') => (Err (Errorf_w prefix e), w')
    end.

(** A run-time panic ends the call; it is told apart from an [error]
    return by its [errorString]. *)
Definition panic {RT : Runtime} {A} (msg : string) : M A :=
  fail (errorString ("panic: " +:+ msg)).

Declare Scope go_scope.
Delimit Scope go_scope with go.

Notation "x <- m ;; k" := (bind m (fun x => k))
  (at level 100, m at next level, right associativity) : go_scope.

Local Open Scope go_scope.

(* ===================================================================== *)
(** * Package models                                                      *)
(* ===================================================================== *)

Section models.
Context {RT : Runtime}.

(** [models.Forecast]. *)
Record Forecast : Type := {
  ID : Z;
  CityID : Z;
  SourceProvider : string;
  ForecastTime : time_Time;
  ValidTime : time_Time;
  Temperature : float;
  FeelsLike : float;
  Humidity : float;
  Pressure : float;
  WindSpeed : float;
  WindDirection : float;
  Visibility : float;
  CloudCover : float;
  Precipitation : float;
  WeatherCode : string;
  Description : string;
  UVIndex : float;
  CreatedAt : time_Time;
  UpdatedAt : time_Time;
}.

(** Assignments to one field of a [Forecast]. *)
Definition set_Temperature (f : Forecast) (v : float) : Forecast :=
  {| ID := ID f; CityID := CityID f; SourceProvider := SourceProvider f;
     ForecastTime := ForecastTime f; ValidTime := ValidTime f;
     Temperature := v; FeelsLike := FeelsLike f; Humidity := Humidity f;
     Pressure := Pressure f; WindSpeed := WindSpeed f;
     WindDirection := WindDirection f; Visibility := Visibility f;
     CloudCover := CloudCover f; Precipitation := Precipitation f;
     WeatherCode := WeatherCode f; Description := Description f;
     UVIndex := UVIndex f; CreatedAt := CreatedAt f; UpdatedAt := UpdatedAt f |}.

Definition set_Humidity (f : Forecast) (v : float) : Forecast :=
  {| ID := ID f; CityID := CityID f; SourceProvider := SourceProvider f;
     ForecastTime := ForecastTime f; ValidTime := ValidTime f;
     Temperature := Temperature f; FeelsLike := FeelsLike f; Humidity := v;
     Pressure := Pressure f; WindSpeed := WindSpeed f;
     WindDirection := WindDirection f; Visibility := Visibility f;
     CloudCover := CloudCover f; Precipitation := Precipitation f;
     WeatherCode := WeatherCode f; Description := Description f;
     UVIndex := UVIndex f; CreatedAt := CreatedAt f; UpdatedAt := UpdatedAt f |}.

Definition set_Pressure (f : Forecast) (v : float) : Forecast :=
  {| ID := ID f; CityID := CityID f; SourceProvider := SourceProvider f;
     ForecastTime := ForecastTime f; ValidTime := ValidTime f;
     Temperature := Temperature f; FeelsLike := FeelsLike f;
     Humidity := Humidity f; Pressure := v; WindSpeed := WindSpeed f;
     WindDirection := WindDirection f; Visibility := Visibility f;
     CloudCover := CloudCover f; Precipitation := Precipitation f;
     WeatherCode := WeatherCode f; Description := Description f;
     UVIndex := UVIndex f; CreatedAt := CreatedAt f; UpdatedAt := UpdatedAt f |}.

Definition set_WindSpeed (f : Forecast) (v : float) : Forecast :=
  {| ID := ID f; CityID := CityID f; SourceProvider := SourceProvider f;
     ForecastTime := ForecastTime f; ValidTime := ValidTime f;
     Temperature := Temperature f; FeelsLike := FeelsLike f;
     Humidity := Humidity f; Pressure := Pressure f; WindSpeed := v;
     WindDirection := WindDirection f; Visibility := Visibility f;
     CloudCover := CloudCover f; Precipitation := Precipitation f;
     WeatherCode := WeatherCode f; Description := Description f;
     UVIndex := UVIndex f; CreatedAt := CreatedAt f; UpdatedAt := UpdatedAt f |}.

Definition set_WindDirection (f : Forecast) (v : float) : Forecast :=
  {| ID := ID f; CityID := CityID f; SourceProvider := SourceProvider f;
     ForecastTime := ForecastTime f; ValidTime := ValidTime f;
     Temperature := Temperature f; FeelsLike := FeelsLike f;
     Humidity := Humidity f; Pressure := Pressure f; WindSpeed := WindSpeed f;
     WindDirection := v; Visibility := Visibility f;
     CloudCover := CloudCover f; Precipitation := Precipitation f;
     WeatherCode := WeatherCode f; Description := Description f;
     UVIndex := UVIndex f; CreatedAt := CreatedAt f; UpdatedAt := UpdatedAt f |}.

Definition set_Visibility (f : Forecast) (v : float) : Forecast :=
  {| ID := ID f; CityID := CityID f; SourceProvider := SourceProvider f;
     ForecastTime := ForecastTime f; ValidTime := ValidTime f;
     Temperature := Temperature f; FeelsLike := FeelsLike f;
     Humidity := Humidity f; Pressure := Pressure f; WindSpeed := WindSpeed f;
     WindDirection := WindDirection f; Visibility := v;
     CloudCover := CloudCover f; Precipitation := Precipitation f;
     WeatherCode := WeatherCode f; Description := Description f;
     UVIndex := UVIndex f; CreatedAt := CreatedAt f; UpdatedAt := UpdatedAt f |}.

(** [Forecast.Validate]: [None] is the nil error. *)
Definition Forecast_Validate (f : Forecast) : option error :=
  if CityID f <=? 0 then
    Some (errorString "city_id must be positive")
  else if String.eqb (SourceProvider f) "" then
    Some (errorString "source_provider is required")
  else if time_IsZero (ForecastTime f) then
    Some (errorString "forecast_time is required")
  else if time_IsZero (ValidTime f) then
    Some (errorString "valid_time is required")
  else if (Temperature f <? -273.15)%float then
    Some (errorString "temperature cannot be below absolute zero")
  else if (Humidity f <? 0)%float || (100 <? Humidity f)%float then
    Some (errorString "humidity must be between 0 and 100")
  else if (Pressure f <? 0)%float then
    Some (errorString "pressure cannot be negative")
  else if (WindSpeed f <? 0)%float then
    Some (errorString "wind_speed cannot be negative")
  else if (WindDirection f <? 0)%float || (360 <=? WindDirection f)%float then
    Some (errorString "wind_direction must be between 0 and 359 degrees")
  else if (CloudCover f <? 0)%float || (100 <? CloudCover f)%float then
    Some (errorString "cloud_cover must be between 0 and 100")
  else if (Precipitation f <? 0)%float then
    Some (errorString "precipitation cannot be negative")
  else if (UVIndex f <? 0)%float then
    Some (errorString "uv_index cannot be negative")
  else None.

(** [models.Place]. *)
Record Place : Type := {
  place_ID : Z;
  DisplayName : string;
  AddressLine1 : string;
  AddressLine2 : string;
  place_City : string;
  Region : string;
  PostalCode : string;
  Country : string;
  CountryCode : string;
  Latitude : float;
  Longitude : float;
  PlaceType : string;
  Confidence : float;
  Source : string;
  SourcePlaceID : string;
  BoundingBox : string;
  place_CreatedAt : time_Time;
  place_UpdatedAt : time_Time;
}.

End models.

(* ===================================================================== *)
(** * Package providers: the National Weather Service adapter             *)
(* ===================================================================== *)

Section nws.
Context {RT : Runtime}.

(** [NWSProvider].  Its [HTTPClient] is the [http_Do] of the runtime. *)
Record NWSProvider : Type := {
  nws_BaseURL : string;
  UserAgent : string;
}.

Definition NewNWSProvider : NWSProvider :=
  {| nws_BaseURL := "https://api.weather.gov";
     UserAgent := "weather-api/1.0 (contact@example.com)" |}.

Definition nws_GetName (n : NWSProvider) : string := "NWS".

Definition nws_makeRequest (n : NWSProvider) (ctx : context_Context)
    (url : string) : M (list Byte.byte) :=
  req <- wrapping "failed to create request"
           (lift (http_NewRequestWithContext ctx "GET" url)) ;;
  let req := Header_Set req "User-Agent" (UserAgent n) in
  let req := Header_Set req "Accept" "application/json" in
  resp <- wrapping "HTTP request failed" (http_Do ctx req) ;;
  if negb (StatusCode resp =? StatusOK) then
    fail (errorString
            ("API request failed with status " +:+ fmt_d (StatusCode resp)))
  else
    wrapping "failed to decode response"
      (lift (json_Decode_RawMessage (Body resp))).

Definition getGridPoint (n : NWSProvider) (ctx : context_Context)
    (lat lon : float) : M NWSPointResponse :=
  let url := nws_BaseURL n +:+ "/points/" +:+ fmt_f lat +:+ "," +:+ fmt_f lon in
  data <- nws_makeRequest n ctx url ;;
  wrapping "failed to parse point response" (lift (json_Unmarshal_Point data)).

(** The map literal of [parseWindDirection]. *)
Definition directions : gmap string float :=
  list_to_map
    [ ("N", 0); ("NNE", 22.5); ("NE", 45); ("ENE", 67.5);
      ("E", 90); ("ESE", 112.5); ("SE", 135); ("SSE", 157.5);
      ("S", 180); ("SSW", 202.5); ("SW", 225); ("WSW", 247.5);
      ("W", 270); ("WNW", 292.5); ("NW", 315); ("NNW", 337.5) ]%float.

Definition parseWindDirection (n : NWSProvider) (direction : string) : float :=
  match directions !! strings.ToUpper direction with
  | Some deg => deg
  | None => 0%float (* Default to North if unknown *)
  end.

Definition periodToForecast (n : NWSProvider) (period : NWSForecastPeriod)
    (lat lon : float) : M Forecast :=
  startTime <- wrapping "failed to parse start time"
                 (lift (time_Parse_RFC3339 (StartTime period))) ;;
  _ <- wrapping "failed to parse end time"
         (lift (time_Parse_RFC3339 (EndTime period))) ;;
  forecastTime <- step time_Now ;;
  createdAt <- step time_Now ;;
  updatedAt <- step time_Now ;;
  let forecast :=
    {| ID := 0; CityID := 0;
       SourceProvider := nws_GetName n;
       ForecastTime := forecastTime;
       ValidTime := startTime;
       Temperature := 0; FeelsLike := 0; Humidity := 0; Pressure := 0;
       WindSpeed := 0; WindDirection := 0; Visibility := 0; CloudCover := 0;
       Precipitation := 0; WeatherCode := "";
       Description := DetailedForecast period;
       UVIndex := 0;
       CreatedAt := createdAt;
       UpdatedAt := updatedAt |} in
  (* Convert temperature *)
  let forecast :=
    if String.eqb (TemperatureUnit period) "F" then
      set_Temperature forecast
        ((float64_of_int (period_Temperature period) - 32) * 5 / 9)%float
    else
      set_Temperature forecast (float64_of_int (period_Temperature period)) in
  (* Parse wind speed (format like "5 mph" or "5 to 10 mph") *)
  let forecast :=
    if negb (String.eqb (period_WindSpeed period) "") then
      match strings.Fields (period_WindSpeed period) with
      | first :: _ :: _ => (* len(windParts) >= 2, first is windParts[0] *)
          match strconv.Atoi first with
          | Ok speed =>
              set_WindSpeed forecast (float64_of_int speed * 0.44704)%float
          | Err _ => forecast
          end
      | _ => forecast
      end
    else forecast in
  (* Parse wind direction *)
  let forecast :=
    set_WindDirection forecast
      (parseWindDirection n (period_WindDirection period)) in
  ret forecast.

Definition observationToForecast (n : NWSProvider)
    (obs : NWSObservationResponse) (lat lon : float) : M Forecast :=
  let p := obs_Properties obs in
  timestamp <-
    (if negb (String.eqb (Timestamp p) "") then
       wrapping "failed to parse timestamp"
         (lift (time_Parse_RFC3339 (Timestamp p)))
     else step time_Now) ;;
  createdAt <- step time_Now ;;
  updatedAt <- step time_Now ;;
  let forecast :=
    {| ID := 0; CityID := 0;
       SourceProvider := nws_GetName n;
       ForecastTime := timestamp;
       ValidTime := timestamp;
       Temperature := 0; FeelsLike := 0; Humidity := 0; Pressure := 0;
       WindSpeed := 0; WindDirection := 0; Visibility := 0; CloudCover := 0;
       Precipitation := 0; WeatherCode := "";
       Description := TextDescription p;
       UVIndex := 0;
       CreatedAt := createdAt;
       UpdatedAt := updatedAt |} in
  let forecast :=
    match Value (obs_Temperature p) with
    | Some v => set_Temperature forecast v
    | None => forecast
    end in
  let forecast :=
    match Value (RelativeHumidity p) with
    | Some v => set_Humidity forecast v
    | None => forecast
    end in
  let forecast :=
    match Value (BarometricPressure p) with
    | Some v => set_Pressure forecast (v / 100)%float (* Pa to hPa *)
    | None => forecast
    end in
  let forecast :=
    match Value (obs_WindSpeed p) with
    | Some v => set_WindSpeed forecast v
    | None => forecast
    end in
  let forecast :=
    match Value (obs_WindDirection p) with
    | Some v => set_WindDirection forecast v
    | None => forecast
    end in
  let forecast :=
    match Value (obs_Visibility p) with
    | Some v => set_Visibility forecast (v / 1000)%float (* m to km *)
    | None => forecast
    end in
  ret forecast.

Definition GetCurrentWeather (n : NWSProvider) (ctx : context_Context)
    (lat lon : float) : M Forecast :=
  point <- wrapping "failed to get grid point" (getGridPoint n ctx lat lon) ;;
  let pp := point_Properties point in
  let stationsURL :=
    nws_BaseURL n +:+ "/gridpoints/" +:+ GridID pp +:+ "/" +:+
    fmt_d (GridX pp) +:+ "," +:+ fmt_d (GridY pp) +:+ "/stations" in
  stations <- wrapping "failed to get observation stations"
                (nws_makeRequest n ctx stationsURL) ;;
  stationsResp <- wrapping "failed to parse stations response"
                    (lift (json_Unmarshal_Stations stations)) ;;
  match Features stationsResp with
  | [] => fail (errorString "no observation stations found")
  | first :: _ =>
      let stationID := StationIdentifier (station_Properties first) in
      let obsURL :=
        nws_BaseURL n +:+ "/stations/" +:+ stationID +:+
        "/observations/latest" in
      obsData <- wrapping "failed to get current observation"
                   (nws_makeRequest n ctx obsURL) ;;
      obsResp <- wrapping "failed to parse observation response"
                   (lift (json_Unmarshal_Observation obsData)) ;;
      observationToForecast n obsResp lat lon
  end.

(** The loop of [GetForecast]:
    [for i := 0; i < maxPeriods; i++ { ... }], entered with [remaining]
    iterations to go and index [i].  A period that does not convert is
    skipped ([continue]). *)
Fixpoint forPeriods (n : NWSProvider) (lat lon : float)
    (periods : list NWSForecastPeriod) (remaining : nat) (i : nat)
    (forecasts : list Forecast) : M (list Forecast) :=
  match remaining with
  | O => ret forecasts
  | S remaining' =>
      match periods !! i with
      | None => panic "runtime error: index out of range"
      | Some period =>
          fun w =>
            match periodToForecast n period lat lon w with
            | (Err _, w') =>
                forPeriods n lat lon periods remaining' (S i) forecasts w'
            | (Ok forecast, w') =>
                forPeriods n lat lon periods remaining' (S i)
                  (forecasts ++ [forecast]) w'
            end
      end
  end.

Definition GetForecast (n : NWSProvider) (ctx : context_Context)
    (lat lon : float) (days : Z) : M (list Forecast) :=
  point <- wrapping "failed to get grid point" (getGridPoint n ctx lat lon) ;;
  forecastData <- wrapping "failed to get forecast"
                    (nws_makeRequest n ctx
                       (Forecast_URL (point_Properties point))) ;;
  forecastResp <- wrapping "failed to parse forecast response"
                    (lift (json_Unmarshal_Forecast forecastData)) ;;
  let periods := Periods (forecast_Properties forecastResp) in
  let maxPeriods := wrap (days * 2) in (* NWS gives day/night periods *)
  let maxPeriods :=
    if maxPeriods >? Z.of_nat (length periods)
    then Z.of_nat (length periods) else maxPeriods in
  forPeriods n lat lon periods (Z.to_nat maxPeriods) 0 [].

End nws.

(* ===================================================================== *)
(** * Package providers: the US Census geocoding adapter                  *)
(* ===================================================================== *)

Section census.
Context {RT : Runtime}.

(** [CensusProvider].  Its [HTTPClient] is the [http_Do] of the runtime. *)
Record CensusProvider : Type := {
  census_BaseURL : string;
}.

Definition NewCensusProvider : CensusProvider :=
  {| census_BaseURL := "https://geocoding.geo.census.gov/geocoder" |}.

Definition census_GetName (c : CensusProvider) : string := "Census".

Definition census_makeRequest (c : CensusProvider) (ctx : context_Context)
    (requestURL : string) : M (list Byte.byte) :=
  req <- wrapping "failed to create request"
           (lift (http_NewRequestWithContext ctx "GET" requestURL)) ;;
  let req := Header_Set req "User-Agent" "weather-api/1.0" in
  let req := Header_Set req "Accept" "application/json" in
  resp <- wrapping "HTTP request failed" (http_Do ctx req) ;;
  if negb (StatusCode resp =? StatusOK) then
    fail (errorString
            ("API request failed with status " +:+ fmt_d (StatusCode resp)))
  else
    wrapping "failed to decode response"
      (lift (json_Decode_RawMessage (Body resp))).

Definition nonEmpty (s : string) : bool := negb (String.eqb s "").

(** [parts = append(parts, s)] under the guard [s != ""]. *)
Definition appendIf (cond : bool) (parts : list string) (s : string)
    : list string :=
  if cond then parts ++ [s] else parts.

Definition buildAddressLine1 (c : CensusProvider)
    (components : CensusAddressComponents) : string :=
  let parts : list string := [] in
  (* Add house number range if available *)
  let parts :=
    if nonEmpty (FromAddress components) then
      if nonEmpty (ToAddress components)
         && negb (String.eqb (ToAddress components) (FromAddress components))
      then parts ++ [FromAddress components +:+ "-" +:+ ToAddress components]
      else parts ++ [FromAddress components]
    else parts in
  let parts :=
    appendIf (nonEmpty (PreDirection components)) parts
      (PreDirection components) in
  let parts :=
    appendIf (nonEmpty (PreType components)) parts (PreType components) in
  let parts :=
    appendIf (nonEmpty (StreetName components)) parts
      (StreetName components) in
  let parts :=
    appendIf (nonEmpty (SuffixType components)) parts
      (SuffixType components) in
  let parts :=
    appendIf (nonEmpty (SuffixDirection components)) parts
      (SuffixDirection components) in
  let parts :=
    appendIf (nonEmpty (PreQualifier components)) parts
      (PreQualifier components) in
  let parts :=
    appendIf (nonEmpty (SuffixQualifier components)) parts
      (SuffixQualifier components) in
  strings.Join parts " ".

(** The inner loop of [calculateConfidence] for one [originalWord]: the
    first equal [matchedWord] counts one and ends the loop ([break]). *)
Fixpoint matchWord (originalWord : string) (matchedWords : list string)
    (commonWords : Z) : Z :=
  match matchedWords with
  | [] => commonWords
  | matchedWord :: rest =>
      if String.eqb originalWord matchedWord then wrap (commonWords + 1)
      else matchWord originalWord rest commonWords
  end.

(** The outer loop, over [originalWords]. *)
Fixpoint countCommon (originalWords matchedWords : list string)
    (commonWords : Z) : Z :=
  match originalWords with
  | [] => commonWords
  | originalWord :: rest =>
      countCommon rest matchedWords
        (matchWord originalWord matchedWords commonWords)
  end.

Definition calculateConfidence (c : CensusProvider)
    (original matched : string) : float :=
  let original := strings.ToLower (strings.TrimSpace original) in
  let matched := strings.ToLower (strings.TrimSpace matched) in
  if String.eqb original matched then 1.0%float
  else
    let originalWords := strings.Fields original in
    let matchedWords := strings.Fields matched in
    let commonWords := countCommon originalWords matchedWords 0 in
    if Z.of_nat (length originalWords) =? 0 then 0.5%float
    else
      let similarity :=
        (float64_of_int commonWords
         / float64_of_int (Z.of_nat (length originalWords)))%float in
      if (similarity <? 0.1)%float then 0.1%float
      else if (0.95 <? similarity)%float then 0.95%float
      else similarity.

Definition addressMatchToPlace (c : CensusProvider)
    (m : CensusAddressMatch) (originalAddress : string) : M Place :=
  let line1 := buildAddressLine1 c (AddressComponents m) in
  let confidence := calculateConfidence c originalAddress (MatchedAddress m) in
  createdAt <- step time_Now ;;
  updatedAt <- step time_Now ;;
  ret {| place_ID := 0;
         DisplayName := MatchedAddress m;
         AddressLine1 := line1;
         AddressLine2 := "";
         place_City := City (AddressComponents m);
         Region := State (AddressComponents m);
         PostalCode := Zip (AddressComponents m);
         Country := "United States";
         CountryCode := "US";
         Latitude := Y (Coordinates m);
         Longitude := X (Coordinates m);
         PlaceType := "address";
         Confidence := confidence;
         Source := census_GetName c;
         SourcePlaceID := TigerLineId (TigerLine m);
         BoundingBox := "";
         place_CreatedAt := createdAt;
         place_UpdatedAt := updatedAt |}.

Definition reverseMatchToPlace (c : CensusProvider)
    (m : CensusReverseMatch) (lat lon : float) : M Place :=
  let line1 := buildAddressLine1 c (rev_AddressComponents m) in
  createdAt <- step time_Now ;;
  updatedAt <- step time_Now ;;
  ret {| place_ID := 0;
         DisplayName := rev_MatchedAddress m;
         AddressLine1 := line1;
         AddressLine2 := "";
         place_City := City (rev_AddressComponents m);
         Region := State (rev_AddressComponents m);
         PostalCode := Zip (rev_AddressComponents m);
         Country := "United States";
         CountryCode := "US";
         Latitude := lat;
         Longitude := lon;
         PlaceType := "address";
         Confidence := 0.9%float; (* High confidence for reverse geocoding *)
         Source := census_GetName c;
         SourcePlaceID := TigerLineId (rev_TigerLine m);
         BoundingBox := "";
         place_CreatedAt := createdAt;
         place_UpdatedAt := updatedAt |}.

(** The loop of [GeocodeAddress] over [response.Result.AddressMatches]; a
    match that does not convert is skipped ([continue]). *)
Fixpoint forMatches (c : CensusProvider) (address : string)
    (matches : list CensusAddressMatch) (places : list Place)
    : M (list Place) :=
  match matches with
  | [] => ret places
  | m :: rest =>
      fun w =>
        match addressMatchToPlace c m address w with
        | (Err _, w') => forMatches c address rest places w'
        | (Ok place, w') => forMatches c address rest (places ++ [place]) w'
        end
  end.

Definition GeocodeAddress (c : CensusProvider) (ctx : context_Context)
    (address : string) : M (list Place) :=
  let params :=
    [ ("address", [address]); ("format", ["json"]);
      ("benchmark", ["2020"]); ("vintage", ["Current_Current"]) ] in
  let requestURL :=
    census_BaseURL c +:+ "/locations/onelineaddress?" +:+
    url_Values_Encode params in
  data <- wrapping "geocoding request failed"
            (census_makeRequest c ctx requestURL) ;;
  response <- wrapping "failed to parse geocoding response"
                (lift (json_Unmarshal_Geocode data)) ;;
  places <- forMatches c address
              (AddressMatches (geocode_Result response)) [] ;;
  if Z.of_nat (length places) =? 0 then
    fail (errorString
            ("no geocoding results found for address: " +:+ address))
  else ret places.

Definition ReverseGeocode (c : CensusProvider) (ctx : context_Context)
    (lat lon : float) : M Place :=
  let params :=
    [ ("x", [fmt_f lon]); ("y", [fmt_f lat]); ("format", ["json"]);
      ("benchmark", ["2020"]); ("vintage", ["Current_Current"]) ] in
  let requestURL :=
    census_BaseURL c +:+ "/locations/reversegeocoding?" +:+
    url_Values_Encode params in
  data <- wrapping "reverse geocoding request failed"
            (census_makeRequest c ctx requestURL) ;;
  response <- wrapping "failed to parse reverse geocoding response"
                (lift (json_Unmarshal_Reverse data)) ;;
  match rev_AddressMatches (reverse_Result response) with
  | [] =>
      fail (errorString
              ("no reverse geocoding results found for coordinates: " +:+
               fmt_f lat +:+ ", " +:+ fmt_f lon))
  | m :: _ => (* Use the first (best) match *)
      reverseMatchToPlace c m lat lon
  end.

End census.

(* ===================================================================== *)
(** * Package repo: the request cache                                     *)
(* ===================================================================== *)

Section repo.
Context {RT : Runtime}.

(** A method call on an interface value: a step of the world that returns
    the Go results as they are, a value next to an error ([None] is nil). *)
Definition Call (A : Type) : Type := World -> A * World.

(** The interface [KVStore]: the method set of the underlying store. *)
Record KVStore : Type := {
  kv_Get : context_Context -> string -> Call (list Byte.byte * option error);
  kv_Set : context_Context -> string -> list Byte.byte -> Duration ->
           Call (option error);
  kv_Delete : context_Context -> string -> Call (option error);
  kv_Exists : context_Context -> string -> Call (bool * option error);
  kv_SetNX : context_Context -> string -> list Byte.byte -> Duration ->
             Call (bool * option error);
  kv_GetTTL : context_Context -> string -> Call (Duration * option error);
  kv_Clear : context_Context -> Call (option error);
  kv_Close : Call (option error);
}.

(** The interface [Cache]. *)
Record Cache : Type := {
  cache_Get : context_Context -> string ->
              Call (list Byte.byte * option error);
  cache_Set : context_Context -> string -> list Byte.byte -> Duration ->
              Call (option error);
  cache_Delete : context_Context -> string -> Call (option error);
  cache_Exists : context_Context -> string -> Call (bool * option error);
  cache_SetNX : context_Context -> string -> list Byte.byte -> Duration ->
                Call (bool * option error);
  cache_GetTTL : context_Context -> string -> Call (Duration * option error);
  cache_Clear : context_Context -> Call (option error);
  cache_Close : Call (option error);
}.

Record RequestCache : Type := {
  store : KVStore;
  prefix : string;
}.

Definition prefixKey (c : RequestCache) (key : string) : string :=
  if String.eqb (prefix c) "" then key
  else prefix c +:+ ":" +:+ key.

Definition RequestCache_Get (c : RequestCache) (ctx : context_Context)
    (key : string) : Call (list Byte.byte * option error) :=
  kv_Get (store c) ctx (prefixKey c key).

Definition RequestCache_Set (c : RequestCache) (ctx : context_Context)
    (key : string) (value : list Byte.byte) (ttl : Duration)
    : Call (option error) :=
  kv_Set (store c) ctx (prefixKey c key) value ttl.

Definition RequestCache_Delete (c : RequestCache) (ctx : context_Context)
    (key : string) : Call (option error) :=
  kv_Delete (store c) ctx (prefixKey c key).

Definition RequestCache_Exists (c : RequestCache) (ctx : context_Context)
    (key : string) : Call (bool * option error) :=
  kv_Exists (store c) ctx (prefixKey c key).

Definition RequestCache_SetNX (c : RequestCache) (ctx : context_Context)
    (key : string) (value : list Byte.byte) (ttl : Duration)
    : Call (bool * option error) :=
  kv_SetNX (store c) ctx (prefixKey c key) value ttl.

Definition RequestCache_GetTTL (c : RequestCache) (ctx : context_Context)
    (key : string) : Call (Duration * option error) :=
  kv_GetTTL (store c) ctx (prefixKey c key).

Definition RequestCache_Clear (c : RequestCache) (ctx : context_Context)
    : Call (option error) :=
  kv_Clear (store c) ctx.

Definition RequestCache_Close (c : RequestCache) : Call (option error) :=
  kv_Close (store c).

(** [NewRequestCache]: the [RequestCache] seen through the interface
    [Cache]. *)
Definition NewRequestCache (st : KVStore) (pfx : string) : Cache :=
  let c := {| store := st; prefix := pfx |} in
  {| cache_Get := RequestCache_Get c;
     cache_Set := RequestCache_Set c;
     cache_Delete := RequestCache_Delete c;
     cache_Exists := RequestCache_Exists c;
     cache_SetNX := RequestCache_SetNX c;
     cache_GetTTL := RequestCache_GetTTL c;
     cache_Clear := RequestCache_Clear c;
     cache_Close := RequestCache_Close c |}.

End repo.

(* ===================================================================== *)
(** * Test doubles                                                        *)
(* ===================================================================== *)

(** A runtime in the manner of the repository's tests: an [httptest] server
    that answers by the path of the request, a clock that advances at each
    reading, and the [MockKVStore] of [cache_test.go].  It is used to run
    the adapters on concrete inputs. *)

Record FixtureWorld : Type := {
  fw_clock : Z;                           (* nanoseconds *)
  fw_data : gmap string (list Byte.byte); (* MockKVStore.data *)
  fw_ttls : gmap string Z;                (* MockKVStore.ttls *)
  fw_shouldError : bool;
  fw_errorMsg : string;
}.

Definition fw_tick (w : FixtureWorld) : FixtureWorld :=
  {| fw_clock := fw_clock w + 1; fw_data := fw_data w; fw_ttls := fw_ttls w;
     fw_shouldError := fw_shouldError w; fw_errorMsg := fw_errorMsg w |}.

Definition fw_store (w : FixtureWorld) (data : gmap string (list Byte.byte))
    (ttls : gmap string Z) : FixtureWorld :=
  {| fw_clock := fw_clock w; fw_data := data; fw_ttls := ttls;
     fw_shouldError := fw_shouldError w; fw_errorMsg := fw_errorMsg w |}.

Definition newWorld : FixtureWorld :=
  {| fw_clock := 1700000000000000000; fw_data := ∅; fw_ttls := ∅;
     fw_shouldError := false; fw_errorMsg := "" |}.

(** What the server holds: the answer of each route (the first route whose
    path fragment occurs in the URL is served), and for each body the value
    it decodes to at each type. *)
Record Fixture : Type := {
  fx_routes : list (string * result Response);
  fx_points : gmap string NWSPointResponse;
  fx_stations : gmap string StationsResponse;
  fx_observations : gmap string NWSObservationResponse;
  fx_forecasts : gmap string NWSForecastResponse;
  fx_geocodes : gmap string CensusGeocodeResponse;
  fx_reverses : gmap string CensusReverseGeocodeResponse;
}.

Definition body (s : string) : list Byte.byte := list_byte_of_string s.

Definition respond (s : string) : result Response :=
  Ok {| StatusCode := 200; Body := body s |}.

Fixpoint serve (routes : list (string * result Response)) (url : string)
    : result Response :=
  match routes with
  | [] => Ok {| StatusCode := 404; Body := body "404 page not found" |}
  | (fragment, answer) :: rest =>
      if strings.Contains url fragment then answer else serve rest url
  end.

Definition decodeWith {A} (table : gmap string A) (raw : list Byte.byte)
    : result A :=
  match table !! string_of_list_byte raw with
  | Some v => Ok v
  | None => Err (errorString "json: cannot unmarshal")
  end.

(** The fixed-width layouts of RFC 3339 that the fixtures use,
    [2006-01-02T15:04:05Z] and [2006-01-02T15:04:05-07:00]; in [layout] a
    [d] stands for a digit. *)
Fixpoint hasLayout (layout s : string) : bool :=
  match layout, s with
  | EmptyString, EmptyString => true
  | String l layout', String c s' =>
      (if Ascii.eqb l "d" then
         match strconv.digitVal c with Some _ => true | None => false end
       else Ascii.eqb l c) && hasLayout layout' s'
  | _, _ => false
  end.

Fixpoint digitsOnly (s : string) : string :=
  match s with
  | EmptyString => EmptyString
  | String c s' =>
      match strconv.digitVal c with
      | Some _ => String c (digitsOnly s')
      | None => digitsOnly s'
      end
  end.

(** The instant read is the number written by the digits of the date and
    the time of day. *)
Definition fixtureParse (s : string) : result Z :=
  if hasLayout "dddd-dd-ddTdd:dd:ddZ" s
     || hasLayout "dddd-dd-ddTdd:dd:dd-dd:dd" s
     || hasLayout "dddd-dd-ddTdd:dd:dd+dd:dd" s
  then
    match strconv.digits (digitsOnly (substring 0 19 s)) 0 with
    | Some t => Ok t
    | None => Err (errorString "parsing time: out of range")
    end
  else Err (errorString "parsing time: cannot parse as RFC3339").

Fixpoint encodePairs (params : list (string * list string)) : string :=
  match params with
  | [] => EmptyString
  | (k, vs) :: rest =>
      k +:+ "=" +:+ strings.Join vs "," +:+
      match rest with [] => EmptyString | _ => "&" +:+ encodePairs rest end
  end.

Definition fixtureRuntime (fx : Fixture) : Runtime :=
  {| World := FixtureWorld;
     time_Time := Z;
     context_Context := unit;
     time_Zero := 0;
     time_IsZero := fun t => t =? 0;
     time_Now := fun w => (fw_clock w, fw_tick w);
     time_Parse_RFC3339 := fixtureParse;
     http_NewRequestWithContext := fun _ method url =>
       Ok {| Method := method; URL := url; Header := ∅ |};
     http_Do := fun _ req w => (serve (fx_routes fx) (URL req), w);
     json_Decode_RawMessage := fun b =>
       match b with
       | [] => Err (errorString "EOF")
       | _ => Ok b
       end;
     json_Unmarshal_Point := decodeWith (fx_points fx);
     json_Unmarshal_Stations := decodeWith (fx_stations fx);
     json_Unmarshal_Observation := decodeWith (fx_observations fx);
     json_Unmarshal_Forecast := decodeWith (fx_forecasts fx);
     json_Unmarshal_Geocode := decodeWith (fx_geocodes fx);
     json_Unmarshal_Reverse := decodeWith (fx_reverses fx);
     url_Values_Encode := encodePairs |}.

(** [MockKVStore] of [cache_test.go], its fields held in the world. *)
Section mock.
Variable fx : Fixture.

Definition errors_New (msg : string) : error := errorString msg.

(** [expiry, exists := m.ttls[key]; exists && time.Now().After(expiry)],
    with the deletion of the expired key that follows it. *)
Definition expire (key : string) (w : FixtureWorld) : bool * FixtureWorld :=
  match fw_ttls w !! key with
  | Some expiry =>
      let now := fw_clock w in
      let w := fw_tick w in
      if expiry <? now
      then (true, fw_store w (delete key (fw_data w)) (delete key (fw_ttls w)))
      else (false, w)
  | None => (false, w)
  end.

Definition mock_Get (ctx : unit) (key : string)
    : FixtureWorld -> (list Byte.byte * option error) * FixtureWorld :=
  fun w =>
    if fw_shouldError w then (([], Some (errors_New (fw_errorMsg w))), w)
    else
      let (expired, w) := expire key w in
      if expired then (([], Some (errors_New "key not found")), w)
      else
        match fw_data w !! key with
        | None => (([], Some (errors_New "key not found")), w)
        | Some value => ((value, None), w)
        end.

(** [m.data[key] = value; if ttl > 0 { m.ttls[key] = time.Now().Add(ttl) }] *)
Definition put (key : string) (value : list Byte.byte) (ttl : Duration)
    (w : FixtureWorld) : FixtureWorld :=
  let data := <[key := value]> (fw_data w) in
  if ttl >? 0 then
    let now := fw_clock w in
    fw_store (fw_tick w) data (<[key := wrap (now + ttl)]> (fw_ttls w))
  else fw_store w data (fw_ttls w).

Definition mock_Set (ctx : unit) (key : string) (value : list Byte.byte)
    (ttl : Duration) : FixtureWorld -> option error * FixtureWorld :=
  fun w =>
    if fw_shouldError w then (Some (errors_New (fw_errorMsg w)), w)
    else (None, put key value ttl w).

Definition mock_Delete (ctx : unit) (key : string)
    : FixtureWorld -> option error * FixtureWorld :=
  fun w =>
    if fw_shouldError w then (Some (errors_New (fw_errorMsg w)), w)
    else (None, fw_store w (delete key (fw_data w)) (delete key (fw_ttls w))).

Definition mock_Exists (ctx : unit) (key : string)
    : FixtureWorld -> (bool * option error) * FixtureWorld :=
  fun w =>
    if fw_shouldError w then ((false, Some (errors_New (fw_errorMsg w))), w)
    else
      let (expired, w) := expire key w in
      if expired then ((false, None), w)
      else
        match fw_data w !! key with
        | None => ((false, None), w)
        | Some _ => ((true, None), w)
        end.

Definition mock_SetNX (ctx : unit) (key : string) (value : list Byte.byte)
    (ttl : Duration) : FixtureWorld -> (bool * option error) * FixtureWorld :=
  fun w =>
    if fw_shouldError w then ((false, Some (errors_New (fw_errorMsg w))), w)
    else
      let (_, w) := expire key w in
      match fw_data w !! key with
      | Some _ => ((false, None), w)
      | None => ((true, None), put key value ttl w)
      end.

Definition mock_GetTTL (ctx : unit) (key : string)
    : FixtureWorld -> (Duration * option error) * FixtureWorld :=
  fun w =>
    if fw_shouldError w then ((0, Some (errors_New (fw_errorMsg w))), w)
    else
      match fw_ttls w !! key with
      | None => ((-1, None), w)
      | Some expiry =>
          let remaining := wrap (expiry - fw_clock w) in
          let w := fw_tick w in
          if remaining <=? 0 then
            ((-1, None),
             fw_store w (delete key (fw_data w)) (delete key (fw_ttls w)))
          else ((remaining, None), w)
      end.

Definition mock_Clear (ctx : unit)
    : FixtureWorld -> option error * FixtureWorld :=
  fun w =>
    if fw_shouldError w then (Some (errors_New (fw_errorMsg w)), w)
    else (None, fw_store w ∅ ∅).

Definition mock_Close : FixtureWorld -> option error * FixtureWorld :=
  fun w =>
    if fw_shouldError w then (Some (errors_New (fw_errorMsg w)), w)
    else (None, w).

Definition MockKVStore : @KVStore (fixtureRuntime fx) :=
  @Build_KVStore (fixtureRuntime fx)
    mock_Get mock_Set mock_Delete mock_Exists mock_SetNX mock_GetTTL
    mock_Clear mock_Close.

(** [SetError]. *)
Definition SetError (shouldError : bool) (errorMsg : string)
    (w : FixtureWorld) : FixtureWorld :=
  {| fw_clock := fw_clock w; fw_data := fw_data w; fw_ttls := fw_ttls w;
     fw_shouldError := shouldError; fw_errorMsg := errorMsg |}.

End mock.

(** ** Fixtures of the provider tests *)

Definition testNWS : NWSProvider :=
  {| nws_BaseURL := "http://127.0.0.1:8080";
     UserAgent := "weather-api/1.0 (contact@example.com)" |}.

Definition testCensus : CensusProvider :=
  {| census_BaseURL := "http://127.0.0.1:8080" |}.

Definition testPoint : NWSPointResponse :=
  {| point_Properties :=
       {| GridID := "TOP"; GridX := 31; GridY := 80;
          Forecast_URL := "http://127.0.0.1:8080/gridpoints/TOP/31,80/forecast";
          ForecastHourly := "";
          ObservationStations := "/gridpoints/TOP/31,80/stations" |} |}.

Definition testStations : StationsResponse :=
  {| Features :=
       [ {| station_Properties := {| StationIdentifier := "KTOP" |} |} ] |}.

Definition reading (v : option float) : NWSQuantitativeValue :=
  {| Value := v; UnitCode := ""; QualityControl := "" |}.

(** The observation of [TestNWSProvider_GetCurrentWeather_MockServer],
    its wind direction left open. *)
Definition testObservation (windDir : option float) : NWSObservationResponse :=
  {| obs_Properties :=
       {| Timestamp := "2024-01-15T12:00:00-05:00";
          obs_Temperature := reading (Some 20.5%float);
          Dewpoint := reading None;
          obs_WindDirection := reading windDir;
          obs_WindSpeed := reading (Some 5.2%float);
          BarometricPressure := reading (Some 101325%float);
          RelativeHumidity := reading (Some 65%float);
          obs_Visibility := reading (Some 16000%float);
          TextDescription := "Clear skies" |} |}.

(** An observation with no reading at all. *)
Definition emptyObservation : NWSObservationResponse :=
  {| obs_Properties :=
       {| Timestamp := "";
          obs_Temperature := reading None;
          Dewpoint := reading None;
          obs_WindDirection := reading None;
          obs_WindSpeed := reading None;
          BarometricPressure := reading None;
          RelativeHumidity := reading None;
          obs_Visibility := reading None;
          TextDescription := "" |} |}.

(** The two periods of [TestNWSProvider_GetForecast_MockServer]. *)
Definition today : NWSForecastPeriod :=
  {| Number := 1; Name := "Today";
     StartTime := "2024-01-15T06:00:00-05:00";
     EndTime := "2024-01-15T18:00:00-05:00";
     IsDaytime := true;
     period_Temperature := 75; TemperatureUnit := "F";
     period_WindSpeed := "10 mph"; period_WindDirection := "SW";
     Icon := ""; ShortForecast := "Sunny";
     DetailedForecast := "Sunny skies with light winds" |}.

Definition tonight : NWSForecastPeriod :=
  {| Number := 2; Name := "Tonight";
     StartTime := "2024-01-15T18:00:00-05:00";
     EndTime := "2024-01-16T06:00:00-05:00";
     IsDaytime := false;
     period_Temperature := 60; TemperatureUnit := "F";
     period_WindSpeed := "5 mph"; period_WindDirection := "W";
     Icon := ""; ShortForecast := "Clear";
     DetailedForecast := "Clear skies overnight" |}.

(** A period whose end time is not a timestamp. *)
Definition undated : NWSForecastPeriod :=
  {| Number := 3; Name := "Later";
     StartTime := "2024-01-16T06:00:00-05:00";
     EndTime := "tomorrow";
     IsDaytime := true;
     period_Temperature := 70; TemperatureUnit := "F";
     period_WindSpeed := "5 mph"; period_WindDirection := "N";
     Icon := ""; ShortForecast := ""; DetailedForecast := "" |}.


(** The weather server: the routes of the test handlers. *)
Definition weatherServer (obs : NWSObservationResponse)
    (periods : list NWSForecastPeriod) : Fixture :=
  {| fx_routes :=
       [ ("/points/", respond "point");
         ("/observations/latest", respond "observation");
         ("/stations", respond "stations");
         ("/forecast", respond "forecast") ];
     fx_points := {[ "point" := testPoint ]};
     fx_stations := {[ "stations" := testStations ]};
     fx_observations := {[ "observation" := obs ]};
     fx_forecasts :=
       {[ "forecast" :=
            {| forecast_Properties := {| Periods := periods |} |} ]};
     fx_geocodes := ∅;
     fx_reverses := ∅ |}.

Definition components (from to street suffix : string)
    : CensusAddressComponents :=
  {| Zip := ""; StreetName := street; PreType := ""; City := "";
     PreDirection := ""; SuffixDirection := ""; FromAddress := from;
     State := ""; SuffixType := suffix; ToAddress := to;
     SuffixQualifier := ""; PreQualifier := "" |}.

Definition mainStreet : CensusAddressMatch :=
  {| MatchedAddress := "123 Main St, Anytown, ST, 12345";
     Coordinates := {| X := (-76.6413)%float; Y := 39.0458%float |};
     TigerLine := {| Side := ""; TigerLineId := "12345678" |};
     AddressComponents :=
       {| Zip := "12345"; StreetName := "Main"; PreType := "";
          City := "Anytown"; PreDirection := ""; SuffixDirection := "";
          FromAddress := "123"; State := "ST"; SuffixType := "St";
          ToAddress := ""; SuffixQualifier := ""; PreQualifier := "" |} |}.

Definition oakAvenue : CensusReverseMatch :=
  {| rev_MatchedAddress := "456 Oak Ave, Somewhere, ST, 54321";
     rev_AddressComponents :=
       {| Zip := "54321"; StreetName := "Oak"; PreType := "";
          City := "Somewhere"; PreDirection := ""; SuffixDirection := "";
          FromAddress := "456"; State := "ST"; SuffixType := "Ave";
          ToAddress := ""; SuffixQualifier := ""; PreQualifier := "" |};
     rev_TigerLine := {| Side := ""; TigerLineId := "87654321" |};
     rev_Coordinates := {| X := (-76.6413)%float; Y := 39.0458%float |} |}.

Definition pineStreet : CensusReverseMatch :=
  {| rev_MatchedAddress := "456 Pine St, Elsewhere, ST, 11111";
     rev_AddressComponents := components "456" "" "Pine" "St";
     rev_TigerLine := {| Side := ""; TigerLineId := "11111111" |};
     rev_Coordinates := {| X := 0%float; Y := 0%float |} |}.

(** The geocoding server. *)
Definition censusServer (matches : list CensusAddressMatch)
    (reverse : list CensusReverseMatch) : Fixture :=
  {| fx_routes :=
       [ ("/locations/onelineaddress", respond "geocode");
         ("/locations/reversegeocoding", respond "reverse") ];
     fx_points := ∅; fx_stations := ∅; fx_observations := ∅;
     fx_forecasts := ∅;
     fx_geocodes :=
       {[ "geocode" :=
            {| geocode_Result :=
                 {| Input := {| Address := {| input_Address := "" |} |};
                    AddressMatches := matches |} |} ]};
     fx_reverses :=
       {[ "reverse" :=
            {| reverse_Result :=
                 {| rev_Input :=
                      {| Location := {| loc_X := 0%float; loc_Y := 0%float |} |};
                    rev_AddressMatches := reverse |} |} ]} |}.

(** A server that answers every request with status 500, and one whose
    bodies do not decode. *)
Definition brokenServer : Fixture :=
  {| fx_routes :=
       [ ("/", Ok {| StatusCode := 500; Body := body "Internal Server Error" |}) ];
     fx_points := ∅; fx_stations := ∅; fx_observations := ∅;
     fx_forecasts := ∅; fx_geocodes := ∅; fx_reverses := ∅ |}.

Definition garbledServer : Fixture :=
  {| fx_routes := [ ("/", respond "invalid json") ];
     fx_points := ∅; fx_stations := ∅; fx_observations := ∅;
     fx_forecasts := ∅; fx_geocodes := ∅; fx_reverses := ∅ |}.

(** The servers of the runs below. *)
Definition twoPeriods : Fixture :=
  weatherServer emptyObservation [today; tonight].

Definition threePeriods : Fixture :=
  weatherServer emptyObservation [today; undated; tonight].

Definition northWind : Fixture :=
  weatherServer (testObservation (Some 360%float)) [today; tonight].


Definition oneMatch : Fixture := censusServer [mainStreet] [oakAvenue; pineStreet].

Definition noMatch : Fixture := censusServer [] [].

(** The result of a run from the initial world. *)
Definition run (fx : Fixture) {A} (m : @M (fixtureRuntime fx) A) : result A :=
  fst (m newWorld).

(** What a successful result shows through [g]. *)
Definition resultOf {A B} (g : A -> B) (r : result A) : option B :=
  match r with
  | Ok a => Some (g a)
  | Err _ => None
  end.

Arguments GetForecast {RT} & n ctx lat lon days.
Arguments GetCurrentWeather {RT} & n ctx lat lon.
Arguments GeocodeAddress {RT} & c ctx address.
Arguments ReverseGeocode {RT} & c ctx lat lon.
Arguments periodToForecast {RT} & n period lat lon.
Arguments observationToForecast {RT} & n obs lat lon.

(* ===================================================================== *)
(** * Vocabulary of the specification                                     *)
(* ===================================================================== *)

Section vocabulary.
Context {RT : Runtime}.

(** Both timestamps of the period parse as RFC 3339. *)
Definition parsable (period : NWSForecastPeriod) : bool :=
  is_Ok (time_Parse_RFC3339 (StartTime period))
  && is_Ok (time_Parse_RFC3339 (EndTime period)).

(** [forecast] is the conversion of [period] at some reading of the
    clock. *)
Definition convertedFrom (n : NWSProvider) (lat lon : float)
    (period : NWSForecastPeriod) (forecast : Forecast) : Prop :=
  exists w w', periodToForecast n period lat lon w = (Ok forecast, w').

(** The wind speed that [periodToForecast] stores. *)
Definition windSpeedOf (s : string) : float :=
  match strings.Fields s with
  | first :: _ :: _ =>
      match strconv.Atoi first with
      | Ok speed => (float64_of_int speed * 0.44704)%float
      | Err _ => 0%float
      end
  | _ => 0%float
  end.

(** The number of iterations of the loop of [GetForecast]. *)
Definition maxPeriodsOf (days : Z) (periods : list NWSForecastPeriod) : Z :=
  let maxPeriods := wrap (days * 2) in
  if maxPeriods >? Z.of_nat (length periods)
  then Z.of_nat (length periods) else maxPeriods.

(** The stage that failed, for a failed [GetForecast]. *)
Inductive forecastFailure (n : NWSProvider) (ctx : context_Context)
    (lat lon : float) (w : World) (e : error) (w' : World) : Prop :=
| gridPointFailed e0 :
    getGridPoint n ctx lat lon w = (Err e0, w') ->
    e = Errorf_w "failed to get grid point" e0 ->
    forecastFailure n ctx lat lon w e w'
| forecastFetchFailed point w1 e0 :
    getGridPoint n ctx lat lon w = (Ok point, w1) ->
    nws_makeRequest n ctx (Forecast_URL (point_Properties point)) w1
    = (Err e0, w') ->
    e = Errorf_w "failed to get forecast" e0 ->
    forecastFailure n ctx lat lon w e w'
| forecastDecodeFailed point w1 data e0 :
    getGridPoint n ctx lat lon w = (Ok point, w1) ->
    nws_makeRequest n ctx (Forecast_URL (point_Properties point)) w1
    = (Ok data, w') ->
    json_Unmarshal_Forecast data = Err e0 ->
    e = Errorf_w "failed to parse forecast response" e0 ->
    forecastFailure n ctx lat lon w e w'.

(** The sixteen points of the compass, clockwise from north. *)
Definition compassPoints : list string :=
  [ "N"; "NNE"; "NE"; "ENE"; "E"; "ESE"; "SE"; "SSE";
    "S"; "SSW"; "SW"; "WSW"; "W"; "WNW"; "NW"; "NNW" ].

(** The [i]-th point is [i] steps of 22.5 degrees from north. *)
Definition compassDegrees (i : nat) : float :=
  (float64_of_int (Z.of_nat i) * 22.5)%float.


(** The zero value of the [Forecast] for an absent reading, the reading
    through [f] for a present one. *)
Definition reading_or_zero (f : float -> float) (v : NWSQuantitativeValue)
    : float :=
  match Value v with
  | Some x => f x
  | None => 0%float
  end.

(** The invariant of a [Forecast]: temperature at or above absolute zero,
    humidity and cloud cover within [[0, 100]], wind direction within
    [[0, 360)]. *)
Definition data_invariant (f : Forecast) : bool :=
  (-273.15 <=? Temperature f)%float
  && ((0 <=? Humidity f)%float && (Humidity f <=? 100)%float)
  && ((0 <=? CloudCover f)%float && (CloudCover f <=? 100)%float)
  && ((0 <=? WindDirection f)%float && (WindDirection f <? 360)%float).

(** The house-number range as specified: ["from-to"] when the to-address is
    non-empty and differs from the from-address, else ["from"]. *)
Definition houseNumberRange (from to : string) : string :=
  if nonEmpty to && negb (String.eqb to from) then from +:+ "-" +:+ to
  else from.

(** The address line as specified: the non-empty ones of the
    eight components, joined by spaces. *)
Definition specifiedAddressLine (c : CensusAddressComponents) : string :=
  strings.Join
    (List.filter nonEmpty
       [ houseNumberRange (FromAddress c) (ToAddress c);
         PreDirection c; PreType c; StreetName c; SuffixType c;
         SuffixDirection c; PreQualifier c; SuffixQualifier c ])
    " ".

(** The same, with a house-number range only for a non-empty
    from-address. *)
Definition addressLine (c : CensusAddressComponents) : string :=
  strings.Join
    (List.filter nonEmpty
       [ (if nonEmpty (FromAddress c)
          then houseNumberRange (FromAddress c) (ToAddress c)
          else "");
         PreDirection c; PreType c; StreetName c; SuffixType c;
         SuffixDirection c; PreQualifier c; SuffixQualifier c ])
    " ".

(** The URL that [GeocodeAddress] requests. *)
Definition geocodeURL (c : CensusProvider) (address : string) : string :=
  census_BaseURL c +:+ "/locations/onelineaddress?" +:+
  url_Values_Encode
    [ ("address", [address]); ("format", ["json"]);
      ("benchmark", ["2020"]); ("vintage", ["Current_Current"]) ].

(** The URL that [ReverseGeocode] requests. *)
Definition reverseURL (c : CensusProvider) (lat lon : float) : string :=
  census_BaseURL c +:+ "/locations/reversegeocoding?" +:+
  url_Values_Encode
    [ ("x", [fmt_f lon]); ("y", [fmt_f lat]); ("format", ["json"]);
      ("benchmark", ["2020"]); ("vintage", ["Current_Current"]) ].

(** The error of an empty geocoding result. *)
Definition noResults (address : string) : error :=
  errorString ("no geocoding results found for address: " +:+ address).

(** The key the store is asked for, as the contract words it: the prefix,
    a colon and the key, or the bare key when the prefix is empty. *)
Definition storeKey (pfx key : string) : string :=
  match pfx with
  | EmptyString => key
  | _ => pfx +:+ ":" +:+ key
  end.

(** A server with no route: the cache tests make no request. *)
Definition offline : Fixture :=
  {| fx_routes := [];
     fx_points := ∅; fx_stations := ∅; fx_observations := ∅;
     fx_forecasts := ∅; fx_geocodes := ∅; fx_reverses := ∅ |}.

(** [time.Minute], in nanoseconds. *)
Definition time_Minute : Duration := 60000000000.

(** [x] brought into the interval from [lo] to [hi]. *)
Definition clamp (lo hi x : float) : float :=
  if (x <? lo)%float then lo else if (hi <? x)%float then hi else x.

(** [lo <= x <= hi]; false when [x] is not a number. *)
Definition inRange (lo hi x : float) : bool :=
  (lo <=? x)%float && (x <=? hi)%float.

(** An address as [calculateConfidence] compares it: trimmed, in lower
    case. *)
Definition normalized (s : string) : string :=
  strings.ToLower (strings.TrimSpace s).

(** The words of an address. *)
Definition words (s : string) : list string :=
  strings.Fields (normalized s).

(** The words of the original that occur in the matched address, each
    counted as often as the original has it. *)
Definition commonWords (originalWords matchedWords : list string) : nat :=
  length (List.filter (fun w => bool_decide (w ∈ matchedWords)) originalWords).

(** The word-overlap ratio, as a [float64] division of the two counts. *)
Definition ratio (common total : nat) : float :=
  (float64_of_int (Z.of_nat common) / float64_of_int (Z.of_nat total))%float.

End vocabulary.

(* ===================================================================== *)
(** * Package providers: alerts, the provider interfaces, the manager     *)
(* ===================================================================== *)

(** ** Alerts of the National Weather Service *)

Record NWSAlertProperties : Type := {
  alert_ID : string;
  Event : string;
  Headline : string;
  alert_Description : string;
  Severity : string;
  Urgency : string;
  Category : string;
  Onset : string;
  Expires : string;
  AreaDesc : string;
}.

Record NWSAlert : Type := {
  alert_Properties : NWSAlertProperties;
}.

Record NWSAlertsResponse : Type := {
  alert_Features : list NWSAlert;
}.

(** [json.Unmarshal(alertData, &alertsResp)]: the decoder of the alerts,
    beside the decoders of the [Runtime]. *)
Class AlertsRuntime (RT : Runtime) : Type := {
  json_Unmarshal_Alerts : list Byte.byte -> result NWSAlertsResponse;
}.

Section alerts.
Context {RT : Runtime} {ART : AlertsRuntime RT}.

(** [WeatherAlert]. *)
Record WeatherAlert : Type := {
  wa_ID : string;
  Title : string;
  wa_Description : string;
  wa_Severity : string; (* Minor, Moderate, Severe, Extreme *)
  wa_Urgency : string;  (* Immediate, Expected, Future *)
  wa_Category : string;
  wa_StartTime : time_Time;
  wa_EndTime : time_Time;
  Areas : list string;  (* Affected geographic areas *)
}.

Definition set_wa_StartTime (a : WeatherAlert) (t : time_Time) : WeatherAlert :=
  {| wa_ID := wa_ID a; Title := Title a; wa_Description := wa_Description a;
     wa_Severity := wa_Severity a; wa_Urgency := wa_Urgency a;
     wa_Category := wa_Category a; wa_StartTime := t;
     wa_EndTime := wa_EndTime a; Areas := Areas a |}.

Definition set_wa_EndTime (a : WeatherAlert) (t : time_Time) : WeatherAlert :=
  {| wa_ID := wa_ID a; Title := Title a; wa_Description := wa_Description a;
     wa_Severity := wa_Severity a; wa_Urgency := wa_Urgency a;
     wa_Category := wa_Category a; wa_StartTime := wa_StartTime a;
     wa_EndTime := t; Areas := Areas a |}.

Definition nws_SupportedRegions (n : NWSProvider) : list string :=
  ["US"]. (* NWS only covers United States *)

Definition nwsAlertToWeatherAlert (n : NWSProvider) (nwsAlert : NWSAlert)
    : result WeatherAlert :=
  let p := alert_Properties nwsAlert in
  let alert :=
    {| wa_ID := alert_ID p;
       Title := Event p;
       wa_Description := alert_Description p;
       wa_Severity := strings.ToLower (Severity p);
       wa_Urgency := strings.ToLower (Urgency p);
       wa_Category := strings.ToLower (Category p);
       wa_StartTime := time_Zero;
       wa_EndTime := time_Zero;
       Areas := [AreaDesc p] |} in
  (* Parse timestamps *)
  let alert :=
    if negb (String.eqb (Onset p) "") then
      match time_Parse_RFC3339 (Onset p) with
      | Ok startTime => set_wa_StartTime alert startTime
      | Err _ => alert
      end
    else alert in
  let alert :=
    if negb (String.eqb (Expires p) "") then
      match time_Parse_RFC3339 (Expires p) with
      | Ok endTime => set_wa_EndTime alert endTime
      | Err _ => alert
      end
    else alert in
  Ok alert.

(** The loop of [GetAlerts] over [alertsResp.Features]; an alert that does
    not convert is skipped ([continue]). *)
Fixpoint forAlerts (n : NWSProvider) (features : list NWSAlert)
    (alerts : list WeatherAlert) : list WeatherAlert :=
  match features with
  | [] => alerts
  | nwsAlert :: rest =>
      match nwsAlertToWeatherAlert n nwsAlert with
      | Err _ => forAlerts n rest alerts
      | Ok alert => forAlerts n rest (alerts ++ [alert])
      end
  end.

Definition GetAlerts (n : NWSProvider) (ctx : context_Context)
    (lat lon : float) : M (list WeatherAlert) :=
  let alertsURL :=
    nws_BaseURL n +:+ "/alerts/active?point=" +:+ fmt_f lat +:+ "," +:+
    fmt_f lon in
  alertData <- wrapping "failed to get alerts"
                 (nws_makeRequest n ctx alertsURL) ;;
  alertsResp <- wrapping "failed to parse alerts response"
                  (lift (json_Unmarshal_Alerts alertData)) ;;
  ret (forAlerts n (alert_Features alertsResp) []).

Definition census_SupportedRegions (c : CensusProvider) : list string :=
  ["US"]. (* US Census only covers United States *)

(** ** The provider interfaces

    An interface value is the record of its methods. *)

Record WeatherProvider : Type := {
  wp_GetName : string;
  wp_GetCurrentWeather : context_Context -> float -> float -> M Forecast;
  wp_GetForecast :
    context_Context -> float -> float -> Z -> M (list Forecast);
  wp_GetAlerts : context_Context -> float -> float -> M (list WeatherAlert);
  wp_SupportedRegions : list string;
}.

Record GeocodeProvider : Type := {
  gp_GetName : string;
  gp_GeocodeAddress : context_Context -> string -> M (list Place);
  gp_ReverseGeocode : context_Context -> float -> float -> M Place;
  gp_SupportedRegions : list string;
}.

(** [*NWSProvider] as a [WeatherProvider], [*CensusProvider] as a
    [GeocodeProvider]. *)
Definition NWSProvider_WeatherProvider (n : NWSProvider) : WeatherProvider :=
  {| wp_GetName := nws_GetName n;
     wp_GetCurrentWeather := GetCurrentWeather n;
     wp_GetForecast := GetForecast n;
     wp_GetAlerts := GetAlerts n;
     wp_SupportedRegions := nws_SupportedRegions n |}.

Definition CensusProvider_GeocodeProvider (c : CensusProvider)
    : GeocodeProvider :=
  {| gp_GetName := census_GetName c;
     gp_GeocodeAddress := GeocodeAddress c;
     gp_ReverseGeocode := ReverseGeocode c;
     gp_SupportedRegions := census_SupportedRegions c |}.

(** ** The provider manager *)

Record ProviderManager : Type := {
  weatherProviders : list WeatherProvider;
  geocodeProviders : list GeocodeProvider;
}.

Definition NewProviderManager : ProviderManager :=
  {| weatherProviders := []; geocodeProviders := [] |}.

(** The methods with a pointer receiver that change the manager return the
    manager as they leave it. *)
Definition RegisterWeatherProvider (pm : ProviderManager)
    (provider : WeatherProvider) : ProviderManager :=
  {| weatherProviders := weatherProviders pm ++ [provider];
     geocodeProviders := geocodeProviders pm |}.

Definition RegisterGeocodeProvider (pm : ProviderManager)
    (provider : GeocodeProvider) : ProviderManager :=
  {| weatherProviders := weatherProviders pm;
     geocodeProviders := geocodeProviders pm ++ [provider] |}.

Definition GetWeatherProviders (pm : ProviderManager) : list WeatherProvider :=
  weatherProviders pm.

Definition GetGeocodeProviders (pm : ProviderManager) : list GeocodeProvider :=
  geocodeProviders pm.

(** [for _, provider := range providers { if provider.GetName() == name
    { return provider } }; return nil] *)
Fixpoint forWeatherProviders (providers : list WeatherProvider)
    (name : string) : option WeatherProvider :=
  match providers with
  | [] => None
  | provider :: rest =>
      if String.eqb (wp_GetName provider) name then Some provider
      else forWeatherProviders rest name
  end.

Definition GetWeatherProviderByName (pm : ProviderManager) (name : string)
    : option WeatherProvider :=
  forWeatherProviders (weatherProviders pm) name.

Fixpoint forGeocodeProviders (providers : list GeocodeProvider)
    (name : string) : option GeocodeProvider :=
  match providers with
  | [] => None
  | provider :: rest =>
      if String.eqb (gp_GetName provider) name then Some provider
      else forGeocodeProviders rest name
  end.

Definition GetGeocodeProviderByName (pm : ProviderManager) (name : string)
    : option GeocodeProvider :=
  forGeocodeProviders (geocodeProviders pm) name.

End alerts.

(* ===================================================================== *)
(** * Package models: validation of cities and places                     *)
(* ===================================================================== *)

Section validation.
Context {RT : Runtime}.

(** [models.City]; the name [City] is a field of the Census address
    components. *)
Record models_City : Type := {
  city_ID : Z;
  city_Name : string;
  city_Country : string;
  city_CountryCode : string; (* ISO 3166-1 alpha-2 *)
  city_Region : string;
  city_Latitude : float;
  city_Longitude : float;
  Elevation : float;
  Population : Z;
  Timezone : string;
  GeonameID : Z;
  IsCapital : bool;
  IsActive : bool;
  city_CreatedAt : time_Time;
  city_UpdatedAt : time_Time;
}.


Definition set_CountryCode (p : Place) (code : string) : Place :=
  {| place_ID := place_ID p; DisplayName := DisplayName p;
     AddressLine1 := AddressLine1 p; AddressLine2 := AddressLine2 p;
     place_City := place_City p; Region := Region p;
     PostalCode := PostalCode p; Country := Country p; CountryCode := code;
     Latitude := Latitude p; Longitude := Longitude p;
     PlaceType := PlaceType p; Confidence := Confidence p;
     Source := Source p; SourcePlaceID := SourcePlaceID p;
     BoundingBox := BoundingBox p; place_CreatedAt := place_CreatedAt p;
     place_UpdatedAt := place_UpdatedAt p |}.

(** [len(s)] of a string, as an [int]. *)
Definition len (s : string) : Z := Z.of_nat (String.length s).


(** [Place.Validate], in the same way. *)
Definition Place_Validate (p : Place) : option error * Place :=
  if String.eqb (DisplayName p) "" then
    (Some (errorString "display_name is required"), p)
  else if len (DisplayName p) >? 500 then
    (Some (errorString "display_name must be 500 characters or less"), p)
  else if (Latitude p <? -90)%float || (90 <? Latitude p)%float then
    (Some (errorString "latitude must be between -90 and 90"), p)
  else if (Longitude p <? -180)%float || (180 <? Longitude p)%float then
    (Some (errorString "longitude must be between -180 and 180"), p)
  else if (Confidence p <? 0)%float || (1 <? Confidence p)%float then
    (Some (errorString "confidence must be between 0 and 1"), p)
  else if negb (String.eqb (CountryCode p) "")
          && negb (len (CountryCode p) =? 2) then
    (Some (errorString
             "country_code must be 2 characters (ISO 3166-1 alpha-2)"), p)
  else
    let p :=
      if negb (String.eqb (CountryCode p) "") then
        set_CountryCode p (strings.ToUpper (CountryCode p))
      else p in
    if String.eqb (Source p) "" then
      (Some (errorString "source is required"), p)
    else (None, p).

(** [TableName] of the four models. *)
Definition Forecast_TableName (f : Forecast) : string := "forecasts".
Definition City_TableName (c : models_City) : string := "cities".
Definition Place_TableName (p : Place) : string := "places".

End validation.

Arguments GetAlerts {RT ART} & n ctx lat lon.

(** ** Fixtures of the alert and manager tests *)

(** The decoder of the alerts of a test server: the table of the bodies it
    serves. *)
Definition fixtureAlerts (fx : Fixture)
    (table : gmap string NWSAlertsResponse)
    : AlertsRuntime (fixtureRuntime fx) :=
  {| json_Unmarshal_Alerts := decodeWith table |}.

(** ** Vocabulary of the further properties *)

Section vocabulary_providers.
Context {RT : Runtime} {ART : AlertsRuntime RT}.

(** The URLs that the weather adapter requests first. *)
Definition pointsURL (n : NWSProvider) (lat lon : float) : string :=
  nws_BaseURL n +:+ "/points/" +:+ fmt_f lat +:+ "," +:+ fmt_f lon.

Definition alertsURL (n : NWSProvider) (lat lon : float) : string :=
  nws_BaseURL n +:+ "/alerts/active?point=" +:+ fmt_f lat +:+ "," +:+
  fmt_f lon.

(** The request as [makeRequest] of the weather adapter sends it. *)
Definition nws_outgoing (n : NWSProvider) (req : Request) : Request :=
  Header_Set (Header_Set req "User-Agent" (UserAgent n))
    "Accept" "application/json".

(** The request as [makeRequest] of the geocoding adapter sends it. *)
Definition census_outgoing (req : Request) : Request :=
  Header_Set (Header_Set req "User-Agent" "weather-api/1.0")
    "Accept" "application/json".

(** The message of a response that is not [200 OK]. *)
Definition statusMessage (resp : Response) : string :=
  "API request failed with status " +:+ fmt_d (StatusCode resp).

(** The time of an alert: the parsed timestamp, and the zero time for a
    timestamp that is empty or does not parse. *)
Definition alertTime (timestamp : string) : time_Time :=
  if String.eqb timestamp "" then time_Zero
  else
    match time_Parse_RFC3339 timestamp with
    | Ok t => t
    | Err _ => time_Zero
    end.

(** [alert] is the alert made of the feature [nwsAlert]. *)
Definition alertOf (nwsAlert : NWSAlert) (alert : WeatherAlert) : Prop :=
  let p := alert_Properties nwsAlert in
  wa_ID alert = alert_ID p
  /\ Title alert = Event p
  /\ wa_Description alert = alert_Description p
  /\ wa_Severity alert = strings.ToLower (Severity p)
  /\ wa_Urgency alert = strings.ToLower (Urgency p)
  /\ wa_Category alert = strings.ToLower (Category p)
  /\ wa_StartTime alert = alertTime (Onset p)
  /\ wa_EndTime alert = alertTime (Expires p)
  /\ Areas alert = [AreaDesc p].

End vocabulary_providers.

(** The server of the alerts test and the table of its decoder. *)
Definition stormAlert (onset expires : string) : NWSAlert :=
  {| alert_Properties :=
       {| alert_ID := "test-alert-1";
          Event := "Severe Thunderstorm Warning";
          Headline := "Severe Thunderstorm Warning in effect";
          alert_Description := "Severe thunderstorms are expected";
          Severity := "Severe";
          Urgency := "Immediate";
          Category := "Met";
          Onset := onset;
          Expires := expires;
          AreaDesc := "Test County" |} |}.

Definition alertsServer : Fixture :=
  {| fx_routes := [ ("/alerts/active", respond "alerts") ];
     fx_points := ∅; fx_stations := ∅; fx_observations := ∅;
     fx_forecasts := ∅; fx_geocodes := ∅; fx_reverses := ∅ |}.

Definition alertsTable (features : list NWSAlert)
    : gmap string NWSAlertsResponse :=
  {[ "alerts" := {| alert_Features := features |} ]}.

(** The comparisons of [Validate] read on a value that may be a NaN: a NaN
    is below nothing and above nothing. *)
Definition notBelow (lo x : float) : bool := is_nan x || (lo <=? x)%float.

Definition notAbove (hi x : float) : bool := is_nan x || (x <=? hi)%float.

Definition below (hi x : float) : bool := is_nan x || (x <? hi)%float.

Section vocabulary_models.
Context {RT : Runtime}.

(** What [Forecast.Validate] asks of a forecast. *)
Definition acceptable (f : Forecast) : Prop :=
  0 < CityID f
  /\ SourceProvider f <> ""
  /\ time_IsZero (ForecastTime f) = false
  /\ time_IsZero (ValidTime f) = false
  /\ notBelow (-273.15) (Temperature f) = true
  /\ notBelow 0 (Humidity f) = true /\ notAbove 100 (Humidity f) = true
  /\ notBelow 0 (Pressure f) = true
  /\ notBelow 0 (WindSpeed f) = true
  /\ notBelow 0 (WindDirection f) = true
  /\ below 360 (WindDirection f) = true
  /\ notBelow 0 (CloudCover f) = true /\ notAbove 100 (CloudCover f) = true
  /\ notBelow 0 (Precipitation f) = true
  /\ notBelow 0 (UVIndex f) = true.

(** The error of [Forecast.Validate] for a forecast without a city. *)
Definition noCity : error := errorString "city_id must be positive".

(** The checks of [Place.Validate] on the name and the coordinates. *)
Definition nameAndCoordinates (p : Place) : option error :=
  if String.eqb (DisplayName p) "" then
    Some (errorString "display_name is required")
  else if len (DisplayName p) >? 500 then
    Some (errorString "display_name must be 500 characters or less")
  else if (Latitude p <? -90)%float || (90 <? Latitude p)%float then
    Some (errorString "latitude must be between -90 and 90")
  else if (Longitude p <? -180)%float || (180 <? Longitude p)%float then
    Some (errorString "longitude must be between -180 and 180")
  else None.

(** [place] is the place made of the match [m] of the address
    [address]. *)
Definition placeOf (c : CensusProvider) (address : string)
    (m : CensusAddressMatch) (place : Place) : Prop :=
  DisplayName place = MatchedAddress m
  /\ AddressLine1 place = buildAddressLine1 c (AddressComponents m)
  /\ place_City place = City (AddressComponents m)
  /\ Region place = State (AddressComponents m)
  /\ PostalCode place = Zip (AddressComponents m)
  /\ Country place = "United States"
  /\ CountryCode place = "US"
  /\ Latitude place = Y (Coordinates m)
  /\ Longitude place = X (Coordinates m)
  /\ PlaceType place = "address"
  /\ Confidence place = calculateConfidence c address (MatchedAddress m)
  /\ Source place = "Census"
  /\ SourcePlaceID place = TigerLineId (TigerLine m).

End vocabulary_models.

Section vocabulary_weather.
Context {RT : Runtime}.

(** The URL of the stations of a grid point, and that of the latest
    observation of a station. *)
Definition stationsURL (n : NWSProvider) (point : NWSPointResponse) : string :=
  nws_BaseURL n +:+ "/gridpoints/" +:+ GridID (point_Properties point) +:+
  "/" +:+ fmt_d (GridX (point_Properties point)) +:+ "," +:+
  fmt_d (GridY (point_Properties point)) +:+ "/stations".

Definition observationURL (n : NWSProvider) (stationID : string) : string :=
  nws_BaseURL n +:+ "/stations/" +:+ stationID +:+ "/observations/latest".

(** The last stage of [GetCurrentWeather]: the latest observation of one
    station, as a forecast. *)
Definition currentObservation (n : NWSProvider) (ctx : context_Context)
    (lat lon : float) (stationID : string) : M Forecast :=
  obsData <- wrapping "failed to get current observation"
               (nws_makeRequest n ctx (observationURL n stationID)) ;;
  obsResp <- wrapping "failed to parse observation response"
               (lift (json_Unmarshal_Observation obsData)) ;;
  observationToForecast n obsResp lat lon.

End vocabulary_weather.




(** Two periods with the same start time, temperature, wind and detailed
    forecast. *)
Definition sameReadings (p1 p2 : NWSForecastPeriod) : Prop :=
  StartTime p1 = StartTime p2
  /\ period_Temperature p1 = period_Temperature p2
  /\ TemperatureUnit p1 = TemperatureUnit p2
  /\ period_WindSpeed p1 = period_WindSpeed p2
  /\ period_WindDirection p1 = period_WindDirection p2
  /\ DetailedForecast p1 = DetailedForecast p2.

(** The period of tonight under the name and the end of another night. *)
Definition tonightRenamed : NWSForecastPeriod :=
  {| Number := 7; Name := "Overnight";
     StartTime := StartTime tonight;
     EndTime := "2024-01-16T07:30:00-05:00";
     IsDaytime := false;
     period_Temperature := period_Temperature tonight;
     TemperatureUnit := TemperatureUnit tonight;
     period_WindSpeed := period_WindSpeed tonight;
     period_WindDirection := period_WindDirection tonight;
     Icon := "https://api.weather.gov/icons/land/night/skc";
     ShortForecast := "Mostly Clear";
     DetailedForecast := DetailedForecast tonight |}.

(* ===================================================================== *)
(** * Properties                                                          *)
(* ===================================================================== *)

(** ** Running code in the monad *)

Section monad_facts.
Context {RT : Runtime}.

Lemma bind_inv {A B} (m : M A) (k : A -> M B) w r w' :
  bind m k w = (r, w') ->
  (exists a w1, m w = (Ok a, w1) /\ k a w1 = (r, w'))
  \/ (exists e, m w = (Err e, w') /\ r = Err e).
Proof.
  unfold bind. destruct (m w) as [[a | e] w1]; intros H.
  - left. eauto.
  - right. inversion H; subst. eauto.
Qed.

Lemma bind_Ok {A B} (m : M A) (k : A -> M B) w a w1 :
  m w = (Ok a, w1) -> bind m k w = k a w1.
Proof. unfold bind. now intros ->. Qed.

Lemma bind_Err {A B} (m : M A) (k : A -> M B) w e w1 :
  m w = (Err e, w1) -> bind m k w = (Err e, w1).
Proof. unfold bind. now intros ->. Qed.

Lemma wrapping_inv {A} prefix (m : M A) w r w' :
  wrapping prefix m w = (r, w') ->
  (exists a, m w = (Ok a, w') /\ r = Ok a)
  \/ (exists e, m w = (Err e, w') /\ r = Err (Errorf_w prefix e)).
Proof.
  unfold wrapping. destruct (m w) as [[a | e] w1]; intros H;
    inversion H; subst; eauto.
Qed.

Lemma wrapping_Ok {A} prefix (m : M A) w a w1 :
  m w = (Ok a, w1) -> wrapping prefix m w = (Ok a, w1).
Proof. unfold wrapping. now intros ->. Qed.

Lemma wrapping_Err {A} prefix (m : M A) w e w1 :
  m w = (Err e, w1) -> wrapping prefix m w = (Err (Errorf_w prefix e), w1).
Proof. unfold wrapping. now intros ->. Qed.

Lemma step_inv {A} (f : World -> A * World) w r w' :
  step f w = (r, w') -> r = Ok (fst (f w)) /\ w' = snd (f w).
Proof. unfold step. destruct (f w). intros H; inversion H; auto. Qed.

Lemma lift_inv {A} (x : result A) w r w' :
  lift x w = (r, w') -> r = x /\ w' = w.
Proof. unfold lift. intros H; inversion H; auto. Qed.

End monad_facts.

(** Inversion of a successful run: each [H : (x <- m ;; k) w = (Ok b, w')]
    is replaced by the successful runs of [m] and of [k]. *)
Ltac run_ok :=
  repeat
    match goal with
    | H : bind _ _ _ = (Ok _, _) |- _ =>
        let a := fresh "a" in
        let w := fresh "w" in
        let Hm := fresh "Hm" in
        apply bind_inv in H as [(a & w & Hm & H) | (? & _ & ?)];
        [cbv beta in H | discriminate]
    | H : wrapping _ _ _ = (Ok _, _) |- _ =>
        apply wrapping_inv in H as [(? & H & ?) | (? & _ & ?)];
        [| discriminate]
    | H : lift _ _ = (_, _) |- _ => apply lift_inv in H as [? ?]
    | H : Ok _ = Ok _ |- _ => inversion H; subst; clear H
    end.

(** ** Conversion of a forecast period *)

Section period_facts.
Context {RT : Runtime}.

Lemma Fields_empty : strings.Fields "" = [].
Proof. reflexivity. Qed.

Lemma periodToForecast_inv n period lat lon w f w' :
  periodToForecast n period lat lon w = (Ok f, w') ->
  exists startTime endTime,
    time_Parse_RFC3339 (StartTime period) = Ok startTime
    /\ time_Parse_RFC3339 (EndTime period) = Ok endTime
    /\ ValidTime f = startTime
    /\ SourceProvider f = "NWS"
    /\ Description f = DetailedForecast period
    /\ Temperature f =
         (if String.eqb (TemperatureUnit period) "F"
          then ((float64_of_int (period_Temperature period) - 32) * 5 / 9)%float
          else float64_of_int (period_Temperature period))
    /\ WindSpeed f = windSpeedOf (period_WindSpeed period)
    /\ WindDirection f = parseWindDirection n (period_WindDirection period)
    /\ Humidity f = 0%float /\ CloudCover f = 0%float
    /\ Pressure f = 0%float /\ Visibility f = 0%float.
Proof.
  unfold periodToForecast, bind, wrapping, lift, step, ret.
  destruct (time_Parse_RFC3339 (StartTime period)) as [startTime | e1];
    [| discriminate].
  destruct (time_Parse_RFC3339 (EndTime period)) as [endTime | e2];
    [| discriminate].
  destruct (time_Now w) as [t1 w1].
  destruct (time_Now w1) as [t2 w2].
  destruct (time_Now w2) as [t3 w3].
  intros H. inversion H; subst; clear H.
  exists startTime, endTime. unfold windSpeedOf.
  destruct (String.eqb (TemperatureUnit period) "F");
    destruct (String.eqb (period_WindSpeed period) "") eqn:Hws;
    destruct (strings.Fields (period_WindSpeed period))
      as [| first [| second rest]] eqn:HF;
    try destruct (strconv.Atoi first);
    try (apply String.eqb_eq in Hws; rewrite Hws in HF; discriminate HF);
    repeat split; reflexivity.
Qed.

Lemma periodToForecast_Ok_parsable n period lat lon w f w' :
  periodToForecast n period lat lon w = (Ok f, w') -> parsable period = true.
Proof.
  intros H. apply periodToForecast_inv in H as (s & e & Hs & He & _).
  unfold parsable. now rewrite Hs, He.
Qed.

Lemma periodToForecast_Err n period lat lon w e w' :
  periodToForecast n period lat lon w = (Err e, w') ->
  parsable period = false /\ w' = w.
Proof.
  unfold periodToForecast, bind, wrapping, lift, step, ret, parsable.
  destruct (time_Parse_RFC3339 (StartTime period)) as [startTime | e1].
  - destruct (time_Parse_RFC3339 (EndTime period)) as [endTime | e2].
    + destruct (time_Now w) as [t1 w1].
      destruct (time_Now w1) as [t2 w2].
      destruct (time_Now w2) as [t3 w3]. discriminate.
    + intros H; inversion H; auto.
  - intros H; inversion H; auto.
Qed.


End period_facts.

(** ** The forecast operation *)

Lemma wrap_small z : - 2 ^ 63 <= z < 2 ^ 63 -> wrap z = z.
Proof. intros H. unfold wrap. rewrite Z.mod_small; lia. Qed.

Lemma wrap_range z : - 2 ^ 63 <= wrap z < 2 ^ 63.
Proof.
  unfold wrap.
  pose proof (Z.mod_pos_bound (z + 2 ^ 63) (2 ^ 64) ltac:(lia)). lia.
Qed.

Section forecast_facts.
Context {RT : Runtime}.

Lemma maxPeriodsOf_le days periods :
  (Z.to_nat (maxPeriodsOf days periods) <= length periods)%nat.
Proof.
  unfold maxPeriodsOf.
  destruct (Z.gtb_spec (wrap (days * 2)) (Z.of_nat (length periods))); lia.
Qed.

Lemma maxPeriodsOf_no_overflow days periods :
  - 2 ^ 62 <= days < 2 ^ 62 ->
  Z.to_nat (maxPeriodsOf days periods)
  = Z.to_nat (Z.min (days * 2) (Z.of_nat (length periods))).
Proof.
  intros H. unfold maxPeriodsOf. rewrite wrap_small by lia.
  destruct (Z.gtb_spec (days * 2) (Z.of_nat (length periods))); lia.
Qed.

(** The loop runs to its end: it converts the [remaining] periods from
    index [i] on in order, keeps the conversions that succeed and never
    indexes out of range. *)
Lemma forPeriods_run n lat lon periods remaining :
  forall i acc w,
    (i + remaining <= length periods)%nat ->
    exists fs w',
      forPeriods n lat lon periods remaining i acc w = (Ok (acc ++ fs), w')
      /\ Forall2 (convertedFrom n lat lon)
           (List.filter parsable (take remaining (drop i periods))) fs.
Proof.
  induction remaining as [| r IH]; intros i acc w Hlen.
  - exists [], w. simpl. rewrite app_nil_r. split; [reflexivity | constructor].
  - destruct (lookup_lt_is_Some_2 periods i ltac:(lia)) as [p Hp].
    rewrite (drop_S _ _ _ Hp). cbn [take forPeriods List.filter].
    rewrite Hp.
    destruct (periodToForecast n p lat lon w) as [[f | e] w1] eqn:Hrun.
    + destruct (IH (S i) (acc ++ [f]) w1 ltac:(lia)) as (fs & w' & Hfs & Hall).
      exists (f :: fs), w'. split.
      * rewrite Hfs. now rewrite <- app_assoc.
      * rewrite (periodToForecast_Ok_parsable _ _ _ _ _ _ _ Hrun).
        constructor; [| exact Hall]. now exists w, w1.
    + destruct (periodToForecast_Err _ _ _ _ _ _ _ Hrun) as [Hno ->].
      rewrite Hno. exact (IH (S i) acc w ltac:(lia)).
Qed.

(** [GetForecast] once its three upstream stages have succeeded. *)
Lemma GetForecast_stages n ctx lat lon days w point w1 data w2 resp :
  getGridPoint n ctx lat lon w = (Ok point, w1) ->
  nws_makeRequest n ctx (Forecast_URL (point_Properties point)) w1
  = (Ok data, w2) ->
  json_Unmarshal_Forecast data = Ok resp ->
  GetForecast n ctx lat lon days w
  = forPeriods n lat lon (Periods (forecast_Properties resp))
      (Z.to_nat (maxPeriodsOf days (Periods (forecast_Properties resp))))
      0 [] w2.
Proof.
  intros Hpoint Hdata Hresp. unfold GetForecast.
  rewrite (bind_Ok _ _ _ _ _ (wrapping_Ok _ _ _ _ _ Hpoint)).
  rewrite (bind_Ok _ _ _ _ _ (wrapping_Ok _ _ _ _ _ Hdata)).
  unfold bind at 1, wrapping, lift. rewrite Hresp. reflexivity.
Qed.

Lemma GetForecast_cases n ctx lat lon days w r w' :
  GetForecast n ctx lat lon days w = (r, w') ->
  (exists e, r = Err e /\ forecastFailure n ctx lat lon w e w')
  \/ (exists point w1 data w2 resp,
        getGridPoint n ctx lat lon w = (Ok point, w1)
        /\ nws_makeRequest n ctx (Forecast_URL (point_Properties point)) w1
           = (Ok data, w2)
        /\ json_Unmarshal_Forecast data = Ok resp
        /\ forPeriods n lat lon (Periods (forecast_Properties resp))
             (Z.to_nat (maxPeriodsOf days (Periods (forecast_Properties resp))))
             0 [] w2 = (r, w')).
Proof.
  intros H.
  destruct (getGridPoint n ctx lat lon w) as [[point | e0] w1] eqn:Hpoint.
  2:{ left. unfold GetForecast in H.
      rewrite (bind_Err _ _ _ _ _ (wrapping_Err _ _ _ _ _ Hpoint)) in H.
      inversion H; subst. eexists; split; [reflexivity |].
      eapply gridPointFailed; eauto. }
  destruct (nws_makeRequest n ctx (Forecast_URL (point_Properties point)) w1)
    as [[data | e0] w2] eqn:Hdata.
  2:{ left. unfold GetForecast in H.
      rewrite (bind_Ok _ _ _ _ _ (wrapping_Ok _ _ _ _ _ Hpoint)) in H.
      rewrite (bind_Err _ _ _ _ _ (wrapping_Err _ _ _ _ _ Hdata)) in H.
      inversion H; subst. eexists; split; [reflexivity |].
      eapply forecastFetchFailed; eauto. }
  destruct (json_Unmarshal_Forecast data) as [resp | e0] eqn:Hresp.
  - right. rewrite (GetForecast_stages _ _ _ _ _ _ _ _ _ _ _ Hpoint Hdata Hresp) in H.
    exists point, w1, data, w2, resp. auto.
  - left. unfold GetForecast in H.
    rewrite (bind_Ok _ _ _ _ _ (wrapping_Ok _ _ _ _ _ Hpoint)) in H.
    rewrite (bind_Ok _ _ _ _ _ (wrapping_Ok _ _ _ _ _ Hdata)) in H.
    unfold bind at 1, wrapping, lift in H. rewrite Hresp in H.
    inversion H; subst. eexists; split; [reflexivity |].
    eapply forecastDecodeFailed; eauto.
Qed.

End forecast_facts.

Section forecast_results.
Context {RT : Runtime}.

Lemma filter_all {A} (p : A -> bool) (l : list A) :
  forallb p l = true -> List.filter p l = l.
Proof.
  induction l as [| x l IH]; simpl; [reflexivity |].
  intros H. apply andb_prop in H as [Hx Hl]. rewrite Hx. f_equal. auto.
Qed.

Lemma filter_none {A} (p : A -> bool) (l : list A) :
  forallb (fun x => negb (p x)) l = true -> List.filter p l = [].
Proof.
  induction l as [| x l IH]; simpl; [reflexivity |].
  intros H. apply andb_prop in H as [Hx Hl].
  apply negb_true_iff in Hx. rewrite Hx. auto.
Qed.

(** C3.  Once the grid point, the forecast body and its decoding
    are there, and for a day count [days] whose double fits an [int]
    ([-2^62 <= days < 2^62]), [GetForecast] examines the first
    [max 0 (min (days * 2) n)] of the [n] periods and returns, in order, one
    [Forecast] for each examined period whose start and end time parse; a
    period that does not parse is left out and the others are unaffected.
    With [days = 1] and two periods that parse it returns two forecasts. *)
Theorem C3_forecast_period_cap n ctx lat lon days w point w1 data w2 resp :
  getGridPoint n ctx lat lon w = (Ok point, w1) ->
  nws_makeRequest n ctx (Forecast_URL (point_Properties point)) w1
  = (Ok data, w2) ->
  json_Unmarshal_Forecast data = Ok resp ->
  - 2 ^ 62 <= days < 2 ^ 62 ->
  let periods := Periods (forecast_Properties resp) in
  let examined :=
    take (Z.to_nat (Z.min (days * 2) (Z.of_nat (length periods)))) periods in
  Z.of_nat (length examined)
  = Z.max 0 (Z.min (days * 2) (Z.of_nat (length periods)))
  /\ exists forecasts w3,
       GetForecast n ctx lat lon days w = (Ok forecasts, w3)
       /\ Forall2 (convertedFrom n lat lon)
            (List.filter parsable examined) forecasts
       /\ (days = 1 -> length periods = 2%nat ->
           forallb parsable periods = true -> length forecasts = 2%nat).
Proof.
  intros Hpoint Hdata Hresp Hdays periods examined. split.
  - unfold examined. rewrite length_take. lia.
  - rewrite (GetForecast_stages _ _ _ _ _ _ _ _ _ _ _ Hpoint Hdata Hresp).
    fold periods. rewrite (maxPeriodsOf_no_overflow _ _ Hdays).
    destruct (forPeriods_run n lat lon periods
                (Z.to_nat (Z.min (days * 2) (Z.of_nat (length periods))))
                0%nat [] w2) as (fs & w3 & Hrun & Hall).
    { simpl. lia. }
    exists fs, w3. rewrite drop_0 in Hall. fold examined in Hall.
    split; [exact Hrun | split; [exact Hall |]].
    intros -> Hlen Hparse.
    apply Forall2_length in Hall. rewrite <- Hall.
    assert (E : Z.to_nat (Z.min (1 * 2) (Z.of_nat (length periods))) = 2%nat)
      by (rewrite Hlen; reflexivity).
    unfold examined. rewrite E, take_ge by lia.
    rewrite (filter_all _ _ Hparse). exact Hlen.
Qed.

(** A failed [GetForecast] failed in one of its three upstream stages; the
    conversion loop itself never fails. *)
Lemma GetForecast_Err_stage n ctx lat lon days w e w' :
  GetForecast n ctx lat lon days w = (Err e, w') ->
  forecastFailure n ctx lat lon w e w'.
Proof.
  intros H. apply GetForecast_cases in H
    as [(e' & He & Hf) | (point & w1 & data & w2 & resp & _ & _ & _ & Hloop)].
  - now inversion He; subst.
  - destruct (forPeriods_run n lat lon (Periods (forecast_Properties resp))
                (Z.to_nat (maxPeriodsOf days (Periods (forecast_Properties resp))))
                0%nat [] w2) as (fs & w3 & Hrun & _).
    { pose proof (maxPeriodsOf_le days (Periods (forecast_Properties resp))).
      simpl. lia. }
    rewrite Hrun in Hloop. discriminate.
Qed.

(** With its three stages done, [GetForecast] returns the empty list and no
    error when the day count is zero or negative (and its double fits an
    [int]), when there is no period, and when no examined period parses. *)
Lemma GetForecast_empty n ctx lat lon days w point w1 data w2 resp :
  getGridPoint n ctx lat lon w = (Ok point, w1) ->
  nws_makeRequest n ctx (Forecast_URL (point_Properties point)) w1
  = (Ok data, w2) ->
  json_Unmarshal_Forecast data = Ok resp ->
  let periods := Periods (forecast_Properties resp) in
  - 2 ^ 62 <= days <= 0
  \/ periods = []
  \/ forallb (fun p => negb (parsable p))
       (take (Z.to_nat (maxPeriodsOf days periods)) periods) = true ->
  GetForecast n ctx lat lon days w = (Ok [], w2).
Proof.
  intros Hpoint Hdata Hresp periods Hcase.
  rewrite (GetForecast_stages _ _ _ _ _ _ _ _ _ _ _ Hpoint Hdata Hresp).
  fold periods.
  assert (Hnone : forallb (fun p => negb (parsable p))
            (take (Z.to_nat (maxPeriodsOf days periods)) periods) = true).
  { destruct Hcase as [Hd | [Hp | Hn]]; [| | exact Hn].
    - rewrite maxPeriodsOf_no_overflow by lia.
      replace (Z.to_nat _) with 0%nat by lia. reflexivity.
    - rewrite Hp. now rewrite take_nil. }
  clear Hcase.
  assert (Hgen : forall remaining i w,
             (i + remaining <= length periods)%nat ->
             forallb (fun p => negb (parsable p))
               (take remaining (drop i periods)) = true ->
             forPeriods n lat lon periods remaining i [] w = (Ok [], w)).
  { induction remaining as [| r IH]; intros i w0 Hlen Hall; [reflexivity |].
    destruct (lookup_lt_is_Some_2 periods i ltac:(lia)) as [p Hp].
    rewrite (drop_S _ _ _ Hp) in Hall. cbn [take forallb] in Hall.
    apply andb_prop in Hall as [Hp' Hall]. apply negb_true_iff in Hp'.
    cbn [forPeriods]. rewrite Hp.
    destruct (periodToForecast n p lat lon w0) as [[f | e] w3] eqn:Hrun.
    - rewrite (periodToForecast_Ok_parsable _ _ _ _ _ _ _ Hrun) in Hp'.
      discriminate.
    - destruct (periodToForecast_Err _ _ _ _ _ _ _ Hrun) as [_ ->].
      apply IH; [lia | exact Hall]. }
  apply Hgen.
  - pose proof (maxPeriodsOf_le days periods). simpl. lia.
  - now rewrite drop_0.
Qed.

End forecast_results.

(** Outside that range the count of examined periods is not
    [min (days * 2) n], at either end of the day counts.  For
    [days = -1] the loop runs zero times, where [min (days * 2) n] is [-2];
    for [days = 2^62] the product [days * 2] wraps to [-2^63], no period is
    examined and the result is empty, where [min (days * 2) n] is [2] and
    both periods parse. *)
Lemma C3_day_counts_out_of_range :
  Z.of_nat (Z.to_nat (maxPeriodsOf (-1) [today; tonight])) = 0
  /\ Z.min (-1 * 2) (Z.of_nat (length [today; tonight])) = -2
  /\ run twoPeriods
       (GetForecast testNWS tt 39.0458%float (-76.6413)%float (-1)) = Ok []
  /\ forallb (parsable (RT := fixtureRuntime twoPeriods)) [today; tonight]
     = true
  /\ Z.min (2 ^ 62 * 2) (Z.of_nat (length [today; tonight])) = 2
  /\ run twoPeriods
       (GetForecast testNWS tt 39.0458%float (-76.6413)%float (2 ^ 62))
     = Ok [].
Proof. repeat split; vm_compute; reflexivity. Qed.

Lemma C3_forecast_period_cap_witness :
  exists forecasts w3,
    GetForecast (RT := fixtureRuntime twoPeriods) testNWS tt
      39.0458%float (-76.6413)%float 1 newWorld = (Ok forecasts, w3)
    /\ length forecasts = 2%nat.
Proof.
  destruct (C3_forecast_period_cap (RT := fixtureRuntime twoPeriods)
              testNWS tt 39.0458%float (-76.6413)%float 1 newWorld
              testPoint newWorld (body "forecast") newWorld
              {| forecast_Properties := {| Periods := [today; tonight] |} |})
    as [_ (forecasts & w3 & Hrun & _ & Hlen)].
  - vm_compute. reflexivity.
  - vm_compute. reflexivity.
  - vm_compute. reflexivity.
  - lia.
  - exists forecasts, w3. split; [exact Hrun |].
    apply Hlen; vm_compute; reflexivity.
Defined.

(** C10.  A negative day count with forecasts in the result: for
    [-2^62 - 1] the product [days * 2] wraps to [2^63 - 2]: the loop runs
    over both periods and [GetForecast] returns two forecasts, not the
    empty list. *)
Lemma C10_negative_days_overflow :
  -4611686018427387905 < 0
  /\ wrap (-4611686018427387905 * 2) = 9223372036854775806
  /\ resultOf length
       (run twoPeriods
          (GetForecast testNWS tt 39.0458%float (-76.6413)%float
             (-4611686018427387905))) = Some 2%nat.
Proof. repeat split; vm_compute; reflexivity. Qed.

(** ** Wind direction *)


Lemma toLower_toUpper_char c :
  strings.toLowerChar (strings.toUpperChar c) = strings.toLowerChar c.
Proof. destruct c as [[] [] [] [] [] [] [] []]; reflexivity. Qed.


Lemma ToLower_ToUpper s :
  strings.ToLower (strings.ToUpper s) = strings.ToLower s.
Proof.
  induction s as [| c s IH]; simpl; [reflexivity |].
  unfold strings.ToUpper, strings.ToLower in *. simpl.
  now rewrite toLower_toUpper_char, IH.
Qed.




Lemma directions_Some key deg :
  directions !! key = Some deg ->
  exists i, compassPoints !! i = Some key /\ deg = compassDegrees i.
Proof.
  intros H. unfold directions in H.
  apply elem_of_list_to_map_2 in H.
  repeat (apply elem_of_cons in H as [H | H];
          [inversion H; subst;
           first [ exists 0%nat; split; vm_compute; reflexivity
                 | exists 1%nat; split; vm_compute; reflexivity
                 | exists 2%nat; split; vm_compute; reflexivity
                 | exists 3%nat; split; vm_compute; reflexivity
                 | exists 4%nat; split; vm_compute; reflexivity
                 | exists 5%nat; split; vm_compute; reflexivity
                 | exists 6%nat; split; vm_compute; reflexivity
                 | exists 7%nat; split; vm_compute; reflexivity
                 | exists 8%nat; split; vm_compute; reflexivity
                 | exists 9%nat; split; vm_compute; reflexivity
                 | exists 10%nat; split; vm_compute; reflexivity
                 | exists 11%nat; split; vm_compute; reflexivity
                 | exists 12%nat; split; vm_compute; reflexivity
                 | exists 13%nat; split; vm_compute; reflexivity
                 | exists 14%nat; split; vm_compute; reflexivity
                 | exists 15%nat; split; vm_compute; reflexivity ] |]).
  now apply elem_of_nil in H.
Qed.

Lemma compassDegrees_range i name :
  compassPoints !! i = Some name ->
  (0 <=? compassDegrees i)%float = true
  /\ (compassDegrees i <? 360)%float = true.
Proof.
  intros H.
  do 16 (destruct i as [| i]; [split; vm_compute; reflexivity |]).
  discriminate H.
Qed.

Section direction_facts.
Context {RT : Runtime}.



Lemma parseWindDirection_range n direction :
  (0 <=? parseWindDirection n direction)%float = true
  /\ (parseWindDirection n direction <? 360)%float = true.
Proof.
  unfold parseWindDirection.
  destruct (directions !! strings.ToUpper direction) as [deg |] eqn:E.
  - apply directions_Some in E as (i & Hi & ->).
    eapply compassDegrees_range; eauto.
  - split; vm_compute; reflexivity.
Qed.

End direction_facts.

Section wind_results.
Context {RT : Runtime}.


End wind_results.

(** The documented degrees of the compass table. *)
Lemma compassDegrees_documented :
  map compassDegrees (seq 0 16)
  = [ 0; 22.5; 45; 67.5; 90; 112.5; 135; 157.5;
      180; 202.5; 225; 247.5; 270; 292.5; 315; 337.5 ]%float.
Proof. vm_compute. reflexivity. Qed.



(** ** Conversion of an observation *)

Section observation_facts.
Context {RT : Runtime}.

Lemma observationToForecast_inv n obs lat lon w f w' :
  observationToForecast n obs lat lon w = (Ok f, w') ->
  let p := obs_Properties obs in
  Temperature f = reading_or_zero (fun v => v) (obs_Temperature p)
  /\ Humidity f = reading_or_zero (fun v => v) (RelativeHumidity p)
  /\ Pressure f = reading_or_zero (fun v => v / 100)%float (BarometricPressure p)
  /\ WindSpeed f = reading_or_zero (fun v => v) (obs_WindSpeed p)
  /\ WindDirection f = reading_or_zero (fun v => v) (obs_WindDirection p)
  /\ Visibility f = reading_or_zero (fun v => v / 1000)%float (obs_Visibility p)
  /\ CloudCover f = 0%float
  /\ Description f = TextDescription p.
Proof.
  intros H p.
  unfold observationToForecast, bind, wrapping, lift, step, ret in H.
  unfold reading_or_zero.
  assert (exists ts cr up w3,
            (Ok f, w')
            = (Ok (let forecast :=
                 {| ID := 0; CityID := 0; SourceProvider := nws_GetName n;
                    ForecastTime := ts; ValidTime := ts;
                    Temperature := 0; FeelsLike := 0; Humidity := 0;
                    Pressure := 0; WindSpeed := 0; WindDirection := 0;
                    Visibility := 0; CloudCover := 0; Precipitation := 0;
                    WeatherCode := ""; Description := TextDescription p;
                    UVIndex := 0; CreatedAt := cr; UpdatedAt := up |} in
               let forecast :=
                 match Value (obs_Temperature p) with
                 | Some v => set_Temperature forecast v | None => forecast end in
               let forecast :=
                 match Value (RelativeHumidity p) with
                 | Some v => set_Humidity forecast v | None => forecast end in
               let forecast :=
                 match Value (BarometricPressure p) with
                 | Some v => set_Pressure forecast (v / 100)%float
                 | None => forecast end in
               let forecast :=
                 match Value (obs_WindSpeed p) with
                 | Some v => set_WindSpeed forecast v | None => forecast end in
               let forecast :=
                 match Value (obs_WindDirection p) with
                 | Some v => set_WindDirection forecast v
                 | None => forecast end in
               match Value (obs_Visibility p) with
               | Some v => set_Visibility forecast (v / 1000)%float
               | None => forecast end), w3)) as (ts & cr & up & w3 & E).
  { fold p in H.
    destruct (negb (String.eqb (Timestamp p) "")).
    - destruct (time_Parse_RFC3339 (Timestamp p)) as [ts | e]; [| discriminate].
      destruct (time_Now w) as [t2 w2]. destruct (time_Now w2) as [t3 w3].
      exists ts, t2, t3, w3. now rewrite <- H.
    - destruct (time_Now w) as [t1 w1]. destruct (time_Now w1) as [t2 w2].
      destruct (time_Now w2) as [t3 w3].
      exists t1, t2, t3, w3. now rewrite <- H. }
  inversion E; subst; clear E H.
  destruct (Value (obs_Temperature p)), (Value (RelativeHumidity p)),
    (Value (BarometricPressure p)), (Value (obs_WindSpeed p)),
    (Value (obs_WindDirection p)), (Value (obs_Visibility p));
    repeat split; reflexivity.
Qed.

(** The conversion fails on the timestamp only. *)
Lemma observationToForecast_Err n obs lat lon w e w' :
  observationToForecast n obs lat lon w = (Err e, w') ->
  Timestamp (obs_Properties obs) <> ""
  /\ exists e0, time_Parse_RFC3339 (Timestamp (obs_Properties obs)) = Err e0.
Proof.
  unfold observationToForecast, bind, wrapping, lift, step, ret.
  destruct (String.eqb (Timestamp (obs_Properties obs)) "") eqn:Hts; simpl.
  - destruct (time_Now w) as [t1 w1]. destruct (time_Now w1) as [t2 w2].
    destruct (time_Now w2) as [t3 w3]. discriminate.
  - apply String.eqb_neq in Hts.
    destruct (time_Parse_RFC3339 (Timestamp (obs_Properties obs))) as [ts | e0].
    + destruct (time_Now w) as [t2 w2]. destruct (time_Now w2) as [t3 w3].
      discriminate.
    + intros _. split; [exact Hts | eauto].
Qed.

Lemma observationToForecast_total n obs lat lon w :
  Timestamp (obs_Properties obs) = ""
  \/ is_Ok (time_Parse_RFC3339 (Timestamp (obs_Properties obs))) = true ->
  exists f w', observationToForecast n obs lat lon w = (Ok f, w').
Proof.
  intros Hts.
  destruct (observationToForecast n obs lat lon w) as [[f | e] w'] eqn:Hrun;
    [eauto |].
  apply observationToForecast_Err in Hrun as [Hne [e0 He0]].
  destruct Hts as [Hts | Hts]; [contradiction |].
  rewrite He0 in Hts. discriminate.
Qed.

(** C4.  In the mapping of an observation an absent reading never causes an
    error (the mapping fails on an unparsable timestamp only) and gives the
    zero value of the [Forecast]; a present pressure [v] gives [v / 100], a
    present visibility [v] gives [v / 1000], and a present temperature,
    humidity, wind speed or wind direction is stored unchanged.
    101325 Pa is 1013.25 hPa and 16000 m is 16 km, exactly. *)
Theorem C4_observation_mapping n obs lat lon w :
  let p := obs_Properties obs in
  (forall e w',
     observationToForecast n obs lat lon w = (Err e, w') ->
     Timestamp p <> ""
     /\ exists e0, time_Parse_RFC3339 (Timestamp p) = Err e0)
  /\ (Timestamp p = "" \/ is_Ok (time_Parse_RFC3339 (Timestamp p)) = true ->
      exists f w', observationToForecast n obs lat lon w = (Ok f, w'))
  /\ (forall f w',
        observationToForecast n obs lat lon w = (Ok f, w') ->
        Temperature f
        = match Value (obs_Temperature p) with Some v => v | None => 0 end
        /\ Humidity f
           = match Value (RelativeHumidity p) with Some v => v | None => 0 end
        /\ Pressure f
           = match Value (BarometricPressure p) with
             | Some v => v / 100 | None => 0 end
        /\ WindSpeed f
           = match Value (obs_WindSpeed p) with Some v => v | None => 0 end
        /\ WindDirection f
           = match Value (obs_WindDirection p) with
             | Some v => v | None => 0 end
        /\ Visibility f
           = match Value (obs_Visibility p) with
             | Some v => v / 1000 | None => 0 end)%float
  /\ (101325 / 100 = 1013.25)%float
  /\ (16000 / 1000 = 16)%float.
Proof.
  intros p. split; [| split; [| split; [| split]]].
  - intros e w'. apply observationToForecast_Err.
  - apply observationToForecast_total.
  - intros f w' Hrun.
    apply observationToForecast_inv in Hrun
      as (Ht & Hh & Hp & Hs & Hd & Hv & _).
    repeat split; assumption.
  - reflexivity.
  - reflexivity.
Qed.

End observation_facts.

(** The observation of the current-weather test, and an observation
    without readings, through the mapping. *)
Lemma observation_test_values :
  resultOf (fun f => (Temperature f, Humidity f, Pressure f, WindSpeed f,
                      WindDirection f, Visibility f))
    (run northWind
       (observationToForecast testNWS (testObservation (Some 180%float))
          39.0458%float (-76.6413)%float))
  = Some (20.5, 65, 1013.25, 5.2, 180, 16)%float
  /\ resultOf (fun f => (Temperature f, Humidity f, Pressure f, WindSpeed f,
                         WindDirection f, Visibility f))
       (run northWind
          (observationToForecast testNWS emptyObservation
             39.0458%float (-76.6413)%float))
     = Some (0, 0, 0, 0, 0, 0)%float.
Proof. split; vm_compute; reflexivity. Qed.

(** ** The invariant of the data model *)

Section invariant.
Context {RT : Runtime}.

Lemma GetCurrentWeather_inv n ctx lat lon w f w' :
  GetCurrentWeather n ctx lat lon w = (Ok f, w') ->
  exists obsData obs w1,
    json_Unmarshal_Observation obsData = Ok obs
    /\ observationToForecast n obs lat lon w1 = (Ok f, w').
Proof.
  unfold GetCurrentWeather. intros H. run_ok.
  match goal with
  | H : context [Features ?r] |- _ =>
      destruct (Features r) as [| first rest]; [discriminate |]
  end.
  run_ok.
  match goal with
  | Hobs : Ok ?obs = json_Unmarshal_Observation ?data |- _ =>
      exists data, obs; eauto
  end.
Qed.

Lemma period_forecast_invariant n lat lon period f :
  convertedFrom n lat lon period f ->
  Humidity f = 0%float /\ CloudCover f = 0%float
  /\ (0 <=? WindDirection f)%float = true
  /\ (WindDirection f <? 360)%float = true
  /\ data_invariant f = (-273.15 <=? Temperature f)%float.
Proof.
  intros (w & w' & Hrun).
  apply periodToForecast_inv in Hrun
    as (_ & _ & _ & _ & _ & _ & _ & _ & _ & Hdir & Hhum & Hcloud & _).
  destruct (parseWindDirection_range n (period_WindDirection period))
    as [Hlo Hhi].
  rewrite <- Hdir in Hlo, Hhi.
  unfold data_invariant. rewrite Hhum, Hcloud, Hlo, Hhi.
  repeat split. change (0 <=? 0)%float with true.
  change (0 <=? 100)%float with true. simpl. now rewrite !andb_true_r.
Qed.

(** C1.  The adapter does not check ranges.  What holds of every
    [Forecast] it returns: one from [GetForecast] has humidity 0, cloud
    cover 0 and a wind direction within [[0, 360)], so it satisfies the
    invariant exactly when its temperature is at or above -273.15; one from
    [GetCurrentWeather] has cloud cover 0, and its temperature, humidity
    and wind direction are the readings of the decoded observation (0 for
    an absent one), whatever their values. *)
Theorem C1_adapter_ranges n ctx lat lon w :
  (forall days forecasts w',
     GetForecast n ctx lat lon days w = (Ok forecasts, w') ->
     Forall (fun f =>
               Humidity f = 0%float /\ CloudCover f = 0%float
               /\ (0 <=? WindDirection f)%float = true
               /\ (WindDirection f <? 360)%float = true
               /\ data_invariant f = (-273.15 <=? Temperature f)%float)
       forecasts)
  /\ (forall f w',
        GetCurrentWeather n ctx lat lon w = (Ok f, w') ->
        CloudCover f = 0%float
        /\ exists obsData obs,
             json_Unmarshal_Observation obsData = Ok obs
             /\ (Temperature f
                 = match Value (obs_Temperature (obs_Properties obs)) with
                   | Some v => v | None => 0 end
                 /\ Humidity f
                    = match Value (RelativeHumidity (obs_Properties obs)) with
                      | Some v => v | None => 0 end
                 /\ WindDirection f
                    = match Value (obs_WindDirection (obs_Properties obs)) with
                      | Some v => v | None => 0 end)%float).
Proof.
  split.
  - intros days forecasts w' H.
    apply GetForecast_cases in H
      as [(e & He & _) | (point & w1 & data & w2 & resp & _ & _ & _ & Hloop)];
      [discriminate |].
    destruct (forPeriods_run n lat lon (Periods (forecast_Properties resp))
                (Z.to_nat (maxPeriodsOf days (Periods (forecast_Properties resp))))
                0%nat [] w2) as (fs & w3 & Hrun & Hall).
    { pose proof (maxPeriodsOf_le days (Periods (forecast_Properties resp))).
      simpl. lia. }
    rewrite Hrun in Hloop. inversion Hloop; subst. simpl.
    clear Hrun Hloop. induction Hall as [| p f ps fs Hpf _ IH]; constructor.
    + eapply period_forecast_invariant; eauto.
    + exact IH.
  - intros f w' H.
    apply GetCurrentWeather_inv in H as (obsData & obs & w1 & Hobs & Hrun).
    apply observationToForecast_inv in Hrun
      as (Ht & Hh & _ & _ & Hd & _ & Hc & _).
    split; [exact Hc |]. exists obsData, obs. auto.
Qed.

End invariant.

(** The station reports a north wind as 360 degrees: [GetCurrentWeather]
    accepts the observation and returns a [Forecast] with wind direction
    360, outside [[0, 360)]. *)
Lemma C1_north_wind_360 :
  resultOf WindDirection
    (run northWind
       (GetCurrentWeather testNWS tt 39.0458%float (-76.6413)%float))
  = Some 360%float
  /\ resultOf data_invariant
       (run northWind
          (GetCurrentWeather testNWS tt 39.0458%float (-76.6413)%float))
     = Some false.
Proof. split; vm_compute; reflexivity. Qed.

(** ** The address line *)

Lemma nonEmpty_houseNumberRange from to :
  nonEmpty from = true -> nonEmpty (houseNumberRange from to) = true.
Proof.
  unfold houseNumberRange. destruct from as [| c from]; [discriminate |].
  intros _. destruct (nonEmpty to && negb (String.eqb to (String c from)));
    reflexivity.
Qed.

(** C6.  The address line is the space-join of the non-empty
    components in the order house-number range, pre-direction, pre-type,
    street name, suffix type, suffix direction, pre-qualifier,
    suffix-qualifier, where the house-number range is there only for a
    non-empty from-address (["from-to"] when the to-address is non-empty and
    differs from it, else ["from"]).  It is the specified line whenever
    the from-address is non-empty or the to-address is empty. *)
Theorem C6_address_line c components0 :
  buildAddressLine1 c components0 = addressLine components0
  /\ (FromAddress components0 <> "" \/ ToAddress components0 = "" ->
      buildAddressLine1 c components0 = specifiedAddressLine components0)
  /\ buildAddressLine1 c (components "100" "199" "Oak" "Ave")
     = "100-199 Oak Ave"
  /\ buildAddressLine1 c (components "" "" "Broadway" "") = "Broadway".
Proof.
  assert (Hline : buildAddressLine1 c components0 = addressLine components0).
  { unfold buildAddressLine1, addressLine, appendIf.
    destruct (nonEmpty (FromAddress components0)) eqn:Hfrom.
    - cbn [List.filter].
      rewrite (nonEmpty_houseNumberRange _ (ToAddress components0) Hfrom).
      unfold houseNumberRange.
      destruct (nonEmpty (ToAddress components0)
                && negb (String.eqb (ToAddress components0)
                           (FromAddress components0)));
        destruct (nonEmpty (PreDirection components0)),
          (nonEmpty (PreType components0)),
          (nonEmpty (StreetName components0)),
          (nonEmpty (SuffixType components0)),
          (nonEmpty (SuffixDirection components0)),
          (nonEmpty (PreQualifier components0)),
          (nonEmpty (SuffixQualifier components0)); reflexivity.
    - cbn [List.filter nonEmpty String.eqb negb].
      destruct (nonEmpty (PreDirection components0)),
        (nonEmpty (PreType components0)),
        (nonEmpty (StreetName components0)),
        (nonEmpty (SuffixType components0)),
        (nonEmpty (SuffixDirection components0)),
        (nonEmpty (PreQualifier components0)),
        (nonEmpty (SuffixQualifier components0)); reflexivity. }
  split; [exact Hline |]. split; [| split; reflexivity].
  intros Hcase. rewrite Hline. unfold addressLine, specifiedAddressLine.
  destruct (nonEmpty (FromAddress components0)) eqn:Hfrom; [reflexivity |].
  apply negb_false_iff, String.eqb_eq in Hfrom.
  destruct Hcase as [Hne | Hto]; [contradiction |].
  unfold houseNumberRange. now rewrite Hfrom, Hto.
Qed.

(** With an empty from-address and the to-address ["199"] the code leaves
    the house number out, where the specified line has the range ["-199"]. *)
Lemma C6_range_without_from :
  buildAddressLine1 testCensus (components "" "199" "Oak" "Ave") = "Oak Ave"
  /\ specifiedAddressLine (components "" "199" "Oak" "Ave") = "-199 Oak Ave".
Proof. split; reflexivity. Qed.

(** The cases of [TestCensusProvider_buildAddressLine1]. *)
Lemma buildAddressLine1_tests :
  buildAddressLine1 testCensus
    {| Zip := ""; StreetName := "Main"; PreType := ""; City := "";
       PreDirection := "N"; SuffixDirection := "SW"; FromAddress := "123";
       State := ""; SuffixType := "St"; ToAddress := "";
       SuffixQualifier := ""; PreQualifier := "" |} = "123 N Main St SW"
  /\ buildAddressLine1 testCensus
       {| Zip := ""; StreetName := "First"; PreType := ""; City := "";
          PreDirection := ""; SuffixDirection := ""; FromAddress := "500";
          State := ""; SuffixType := "St"; ToAddress := "";
          SuffixQualifier := "Ext"; PreQualifier := "Old" |}
     = "500 First St Old Ext".
Proof. split; reflexivity. Qed.

(** ** Geocoding *)

Section geocode_facts.
Context {RT : Runtime}.

Lemma addressMatchToPlace_total c m address w :
  exists place w', addressMatchToPlace c m address w = (Ok place, w').
Proof.
  unfold addressMatchToPlace, bind, step, ret.
  destruct (time_Now w) as [t1 w1]. destruct (time_Now w1) as [t2 w2]. eauto.
Qed.

(** The loop keeps one place for each match: no match is ever skipped. *)
Lemma forMatches_run c address matches :
  forall places w,
    exists more w',
      forMatches c address matches places w = (Ok (places ++ more), w')
      /\ length more = length matches.
Proof.
  induction matches as [| m rest IH]; intros places w.
  - exists [], w. simpl. now rewrite app_nil_r.
  - destruct (addressMatchToPlace_total c m address w) as (place & w1 & Hm).
    destruct (IH (places ++ [place]) w1) as (more & w' & Hrun & Hlen).
    exists (place :: more), w'. cbn [forMatches]. rewrite Hm, Hrun.
    split; [now rewrite <- app_assoc | simpl; now rewrite Hlen].
Qed.

Lemma GeocodeAddress_cases c ctx address w r w' :
  GeocodeAddress c ctx address w = (r, w') ->
  (exists e0,
     census_makeRequest c ctx (geocodeURL c address) w = (Err e0, w')
     /\ r = Err (Errorf_w "geocoding request failed" e0))
  \/ (exists data e0,
        census_makeRequest c ctx (geocodeURL c address) w = (Ok data, w')
        /\ json_Unmarshal_Geocode data = Err e0
        /\ r = Err (Errorf_w "failed to parse geocoding response" e0))
  \/ (exists data w1 resp places,
        census_makeRequest c ctx (geocodeURL c address) w = (Ok data, w1)
        /\ json_Unmarshal_Geocode data = Ok resp
        /\ forMatches c address (AddressMatches (geocode_Result resp)) [] w1
           = (Ok places, w')
        /\ length places = length (AddressMatches (geocode_Result resp))
        /\ r = match places with
               | [] => Err (noResults address)
               | _ => Ok places
               end).
Proof.
  unfold GeocodeAddress. cbv zeta. fold (geocodeURL c address). intros H.
  apply bind_inv in H as [(data & w1 & Hreq & H) | (e & Hreq & ->)].
  2:{ apply wrapping_inv in Hreq as [(a & _ & Ha) | (e0 & Hreq & He)];
        [discriminate |].
      inversion He; subst e. left. eauto. }
  apply wrapping_inv in Hreq as [(a & Hreq & Ha) | (e0 & _ & He)];
    [| discriminate].
  inversion Ha; subst a; clear Ha. cbv beta in H.
  apply bind_inv in H as [(resp & w2 & Hresp & H) | (e & Hresp & ->)].
  2:{ apply wrapping_inv in Hresp as [(a & _ & Ha) | (e0 & Hresp & He)];
        [discriminate |].
      inversion He; subst e.
      apply lift_inv in Hresp as [Hresp ->].
      right; left. exists data, e0. auto. }
  apply wrapping_inv in Hresp as [(a & Hresp & Ha) | (e0 & _ & He)];
    [| discriminate].
  inversion Ha; subst a; clear Ha.
  apply lift_inv in Hresp as [Hresp ->]. cbv beta in H.
  destruct (forMatches_run c address (AddressMatches (geocode_Result resp))
              [] w1) as (places & w2 & Hrun & Hlen).
  simpl in Hrun. rewrite (bind_Ok _ _ _ _ _ Hrun) in H.
  right; right. exists data, w1, resp, places.
  destruct places as [| p ps]; simpl in H; inversion H; subst; auto.
Qed.

(** C7.  [GeocodeAddress] never returns an empty list of places: when no
    usable match remains (every match converts, so that is when the decoded
    response has no match) it fails with the "no results" error.  That
    error is an [errorString], where a transport or a decode failure is a
    [wrapError]; neither the errors nor their messages can be equal. *)
Theorem C7_no_results_is_an_error c ctx address w :
  (forall places w',
     GeocodeAddress c ctx address w = (Ok places, w') -> places <> [])
  /\ (forall data w1 resp,
        census_makeRequest c ctx (geocodeURL c address) w = (Ok data, w1) ->
        json_Unmarshal_Geocode data = Ok resp ->
        AddressMatches (geocode_Result resp) = [] ->
        GeocodeAddress c ctx address w = (Err (noResults address), w1))
  /\ (forall e w',
        GeocodeAddress c ctx address w = (Err e, w') ->
        (e = noResults address
         /\ exists data w1 resp,
              census_makeRequest c ctx (geocodeURL c address) w = (Ok data, w1)
              /\ json_Unmarshal_Geocode data = Ok resp
              /\ AddressMatches (geocode_Result resp) = [])
        \/ (exists e0,
              e = Errorf_w "geocoding request failed" e0
              /\ census_makeRequest c ctx (geocodeURL c address) w
                 = (Err e0, w'))
        \/ (exists data e0,
              e = Errorf_w "failed to parse geocoding response" e0
              /\ census_makeRequest c ctx (geocodeURL c address) w
                 = (Ok data, w')
              /\ json_Unmarshal_Geocode data = Err e0))
  /\ (forall e0,
        Unwrap (noResults address) = None
        /\ Unwrap (Errorf_w "geocoding request failed" e0) = Some e0
        /\ Unwrap (Errorf_w "failed to parse geocoding response" e0) = Some e0
        /\ Error (noResults address)
           <> Error (Errorf_w "geocoding request failed" e0)
        /\ Error (noResults address)
           <> Error (Errorf_w "failed to parse geocoding response" e0)).
Proof.
  split; [| split; [| split]].
  - intros places w' H.
    apply GeocodeAddress_cases in H
      as [(e0 & _ & Hr) | [(data & e0 & _ & _ & Hr)
                          | (data & w1 & resp & ps & _ & _ & _ & _ & Hr)]];
      try discriminate.
    destruct ps; inversion Hr; subst. discriminate.
  - intros data w1 resp Hreq Hresp Hnone.
    destruct (GeocodeAddress c ctx address w) as [r w'] eqn:H.
    apply GeocodeAddress_cases in H
      as [(e0 & Hreq' & _) | [(data' & e0 & Hreq' & Hresp' & _)
                             | (data' & w1' & resp' & ps & Hreq' & Hresp'
                                & Hrun & Hlen & Hr)]];
      rewrite Hreq in Hreq'; inversion Hreq'; subst.
    + rewrite Hresp in Hresp'. discriminate.
    + rewrite Hresp in Hresp'. inversion Hresp'; subst.
      rewrite Hnone in Hlen, Hrun. destruct ps; [| discriminate].
      simpl in Hrun. inversion Hrun; subst. reflexivity.
  - intros e w' H.
    apply GeocodeAddress_cases in H
      as [(e0 & Hreq & Hr) | [(data & e0 & Hreq & Hresp & Hr)
                             | (data & w1 & resp & ps & Hreq & Hresp
                                & Hrun & Hlen & Hr)]].
    + inversion Hr; subst. right; left. eauto.
    + inversion Hr; subst. right; right. eauto.
    + destruct ps; inversion Hr; subst. left. split; [reflexivity |].
      exists data, w1, resp. repeat split; try assumption.
      destruct (AddressMatches (geocode_Result resp)); [reflexivity |].
      discriminate.
  - intros e0. repeat split; simpl; discriminate.
Qed.


Lemma reverseMatchToPlace_total c m lat lon w :
  exists place w', reverseMatchToPlace c m lat lon w = (Ok place, w').
Proof.
  unfold reverseMatchToPlace, bind, step, ret.
  destruct (time_Now w) as [t1 w1]. destruct (time_Now w1) as [t2 w2]. eauto.
Qed.

Lemma ReverseGeocode_stages c ctx lat lon w data w1 resp :
  census_makeRequest c ctx (reverseURL c lat lon) w = (Ok data, w1) ->
  json_Unmarshal_Reverse data = Ok resp ->
  ReverseGeocode c ctx lat lon w
  = match rev_AddressMatches (reverse_Result resp) with
    | [] =>
        (Err (errorString
                ("no reverse geocoding results found for coordinates: " +:+
                 fmt_f lat +:+ ", " +:+ fmt_f lon)), w1)
    | m :: _ => reverseMatchToPlace c m lat lon w1
    end.
Proof.
  intros Hreq Hresp. unfold ReverseGeocode. cbv zeta.
  fold (reverseURL c lat lon).
  rewrite (bind_Ok _ _ _ _ _ (wrapping_Ok _ _ _ _ _ Hreq)).
  unfold bind at 1, wrapping, lift. rewrite Hresp.
  destruct (rev_AddressMatches (reverse_Result resp)); reflexivity.
Qed.


End geocode_facts.

(** The geocoding tests: one match gives one place; no match is the "no
    results" error; the reverse lookup takes the first of two matches and
    gives it confidence 0.9. *)
Lemma geocode_tests :
  resultOf (map AddressLine1)
    (run oneMatch (GeocodeAddress testCensus tt "123 Main St, Anytown, ST"))
  = Some ["123 Main St"]
  /\ run noMatch (GeocodeAddress testCensus tt "NonExistent Address")
     = Err (noResults "NonExistent Address")
  /\ resultOf (fun p => (DisplayName p, Confidence p))
       (run oneMatch
          (ReverseGeocode testCensus tt 39.0458%float (-76.6413)%float))
     = Some ("456 Oak Ave, Somewhere, ST, 54321", 0.9%float)
  /\ is_Ok (run noMatch
              (ReverseGeocode testCensus tt 0%float 0%float)) = false.
Proof. repeat split; vm_compute; reflexivity. Qed.

(** ** The request cache *)

Section cache_facts.
Context {RT : Runtime}.

Lemma prefixKey_storeKey (st : KVStore) pfx key :
  prefixKey {| store := st; prefix := pfx |} key = storeKey pfx key.
Proof. unfold prefixKey, storeKey. now destruct pfx. Qed.

(** C9.  Each keyed method of the cache made by [NewRequestCache] is the
    same call as the store's method at the key [storeKey pfx key]: from
    every state of the world it gives the store's values, the store's error
    (nil or not) and the store's next state.  [Clear] and [Close] are the
    store's [Clear] and [Close]. *)
Theorem C9_request_cache_forwards (st : KVStore) (pfx : string)
    (ctx : context_Context) (key : string) (value : list Byte.byte)
    (ttl : Duration) (w : World) :
  cache_Get (NewRequestCache st pfx) ctx key w
  = kv_Get st ctx (storeKey pfx key) w
  /\ cache_Set (NewRequestCache st pfx) ctx key value ttl w
     = kv_Set st ctx (storeKey pfx key) value ttl w
  /\ cache_Delete (NewRequestCache st pfx) ctx key w
     = kv_Delete st ctx (storeKey pfx key) w
  /\ cache_Exists (NewRequestCache st pfx) ctx key w
     = kv_Exists st ctx (storeKey pfx key) w
  /\ cache_SetNX (NewRequestCache st pfx) ctx key value ttl w
     = kv_SetNX st ctx (storeKey pfx key) value ttl w
  /\ cache_GetTTL (NewRequestCache st pfx) ctx key w
     = kv_GetTTL st ctx (storeKey pfx key) w
  /\ cache_Clear (NewRequestCache st pfx) ctx w = kv_Clear st ctx w
  /\ cache_Close (NewRequestCache st pfx) w = kv_Close st w.
Proof.
  cbn [NewRequestCache cache_Get cache_Set cache_Delete cache_Exists
       cache_SetNX cache_GetTTL cache_Clear cache_Close].
  unfold RequestCache_Get, RequestCache_Set, RequestCache_Delete,
    RequestCache_Exists, RequestCache_SetNX, RequestCache_GetTTL,
    RequestCache_Clear, RequestCache_Close.
  cbn [store]. rewrite prefixKey_storeKey. repeat split.
Qed.

End cache_facts.

(** The cache tests on the mock store.  "key prefixing": a value set under
    [forecast:123] through a cache of prefix [weather] is in the store's
    data under [weather:forecast:123], and the cache reads it back.  "empty
    prefix": the key is stored as it is. *)
Lemma key_prefixing_tests :
  (let cache := NewRequestCache (MockKVStore offline) "weather" in
   let '(err, w) := cache_Set cache tt "forecast:123" (body "test data")
                      time_Minute newWorld in
   (err, fw_data w !! "weather:forecast:123", fw_data w !! "forecast:123",
    fst (cache_Get cache tt "forecast:123" w)))
  = (None, Some (body "test data"), None, (body "test data", None))
  /\ (let cache := NewRequestCache (MockKVStore offline) "" in
      let '(err, w) := cache_Set cache tt "test:key" (body "test value")
                         time_Minute newWorld in
      (err, fw_data w !! "test:key"))
     = (None, Some (body "test value")).
Proof. split; vm_compute; reflexivity. Qed.

(** "error handling & propogation": when the store fails, every method of
    the cache returns the store's error. *)
Lemma error_propagation_tests :
  let cache := NewRequestCache (MockKVStore offline) "test" in
  let w := SetError true "mock error" newWorld in
  let failure := Some (errors_New "mock error") in
  snd (fst (cache_Get cache tt "test" w)) = failure
  /\ fst (cache_Set cache tt "test" (body "data") time_Minute w) = failure
  /\ fst (cache_Delete cache tt "test" w) = failure
  /\ snd (fst (cache_Exists cache tt "test" w)) = failure
  /\ snd (fst (cache_SetNX cache tt "test" (body "data") time_Minute w))
     = failure
  /\ snd (fst (cache_GetTTL cache tt "test" w)) = failure
  /\ fst (cache_Clear cache tt w) = failure
  /\ fst (cache_Close cache w) = failure.
Proof. repeat split. Qed.

(** ** Conversions and comparisons of floats *)

Lemma float64_of_int_spec z :
  0 <= z < 2 ^ 63 ->
  Prim2SF (float64_of_int z) = binary_normalize prec emax z 0 false.
Proof.
  intros Hz. unfold float64_of_int.
  assert (E : Uint63.to_Z (Uint63.of_Z z) = z).
  { rewrite Uint63.of_Z_spec. apply Z.mod_small. exact Hz. }
  rewrite <- E at 1 2. rewrite <- of_uint63_spec, SF2Prim_Prim2SF.
  reflexivity.
Qed.

Lemma Zdigits2_bounds p :
  2 ^ (Zpos (digits2_pos p) - 1) <= Zpos p < 2 ^ Zpos (digits2_pos p).
Proof.
  induction p as [p IH | p IH |]; cbn [digits2_pos].
  - rewrite Pos2Z.inj_succ, Z.pow_succ_r by lia.
    replace (Z.succ (Zpos (digits2_pos p)) - 1)
      with (Z.succ (Zpos (digits2_pos p) - 1)) by lia.
    rewrite Z.pow_succ_r by lia. lia.
  - rewrite Pos2Z.inj_succ, Z.pow_succ_r by lia.
    replace (Z.succ (Zpos (digits2_pos p)) - 1)
      with (Z.succ (Zpos (digits2_pos p) - 1)) by lia.
    rewrite Z.pow_succ_r by lia. lia.
  - simpl. lia.
Qed.

(** The number of digits is monotone, so adding one adds a digit at most. *)
Lemma Zdigits2_succ p :
  Zpos (digits2_pos p) <= Zpos (digits2_pos (p + 1))
  <= Zpos (digits2_pos p) + 1.
Proof.
  pose proof (Zdigits2_bounds p) as [L U].
  pose proof (Zdigits2_bounds (p + 1)) as [L' U'].
  rewrite Pos2Z.inj_add in L', U'.
  split.
  - apply Z.nlt_ge. intros Hlt.
    assert (2 ^ Zpos (digits2_pos (p + 1))
            <= 2 ^ (Zpos (digits2_pos p) - 1))
      by (apply Z.pow_le_mono_r; lia).
    lia.
  - apply Z.nlt_ge. intros Hlt.
    assert (2 ^ (Zpos (digits2_pos p) + 1)
            <= 2 ^ (Zpos (digits2_pos (p + 1)) - 1))
      by (apply Z.pow_le_mono_r; lia).
    rewrite Z.pow_add_r, Z.pow_1_r in H by lia. lia.
Qed.

Lemma digits2_pos_iter_xO p k :
  Zpos (digits2_pos (Pos.iter xO p k)) = Zpos (digits2_pos p) + Zpos k.
Proof.
  induction k as [| k IH] using Pos.peano_ind.
  - simpl. lia.
  - rewrite Pos.iter_succ. cbn [digits2_pos]. lia.
Qed.

Lemma shr_1_digits r :
  0 <= shr_m r ->
  0 <= shr_m (shr_1 r)
  /\ Zdigits2 (shr_m (shr_1 r)) = Z.max 0 (Zdigits2 (shr_m r) - 1).
Proof.
  destruct r as [m r s]. destruct m as [| [p | p |] | p]; simpl; lia.
Qed.

Lemma iter_shr_1_digits p :
  forall r,
    0 <= shr_m r ->
    0 <= shr_m (SpecFloat.iter_pos shr_1 p r)
    /\ Zdigits2 (shr_m (SpecFloat.iter_pos shr_1 p r))
       = Z.max 0 (Zdigits2 (shr_m r) - Zpos p).
Proof.
  induction p as [p IH | p IH |]; intros r Hr; cbn [SpecFloat.iter_pos].
  - destruct (shr_1_digits r Hr) as [H1 E1].
    destruct (IH _ H1) as [H2 E2]. destruct (IH _ H2) as [H3 E3].
    split; [exact H3 |]. rewrite E3, E2, E1. lia.
  - destruct (IH _ Hr) as [H2 E2]. destruct (IH _ H2) as [H3 E3].
    split; [exact H3 |]. rewrite E3, E2. lia.
  - apply shr_1_digits, Hr.
Qed.

Lemma shr_record_of_loc_m m l : shr_m (shr_record_of_loc m l) = m.
Proof. destruct l as [| []]; reflexivity. Qed.

(** A shift keeps a mantissa that is not negative so, and removes as many
    digits as it shifts by. *)
Lemma shr_digits r e n :
  0 <= shr_m r ->
  0 <= shr_m (fst (shr r e n))
  /\ Zdigits2 (shr_m (fst (shr r e n)))
     = Z.max 0 (Zdigits2 (shr_m r) - Z.max 0 n)
  /\ snd (shr r e n) = e + Z.max 0 n.
Proof.
  intros Hr. destruct n as [| p | p]; cbn [shr fst snd].
  - repeat split; try lia; destruct (shr_m r); simpl; lia.
  - destruct (iter_shr_1_digits p r Hr) as [H E].
    repeat split; try lia; rewrite E; lia.
  - repeat split; try lia; destruct (shr_m r); simpl; lia.
Qed.

Lemma round_nearest_even_cases m l :
  round_nearest_even m l = m \/ round_nearest_even m l = m + 1.
Proof.
  destruct l as [| []]; simpl; auto. destruct (Z.even m); auto.
Qed.

Lemma Zdigits2_pos_iff m : 0 <= m -> (0 < Zdigits2 m <-> 0 < m).
Proof. destruct m; simpl; lia. Qed.

(** Rounding a mantissa that is not negative never gives a NaN. *)
Lemma binary_round_aux_not_nan sx m e l :
  0 <= m -> binary_round_aux prec emax sx m e l <> S754_nan.
Proof.
  intros Hm. unfold binary_round_aux, shr_fexp.
  pose proof (shr_digits (shr_record_of_loc m l) e
                (fexp prec emax (Zdigits2 m + e) - e)) as H1.
  rewrite shr_record_of_loc_m in H1. specialize (H1 Hm).
  destruct (shr (shr_record_of_loc m l) e _) as [mrs1 e1].
  cbn [fst snd] in H1. destruct H1 as (H1 & _ & _).
  set (m1 := round_nearest_even (shr_m mrs1) (loc_of_shr_record mrs1)).
  assert (Hm1 : 0 <= m1).
  { destruct (round_nearest_even_cases (shr_m mrs1) (loc_of_shr_record mrs1))
      as [E | E]; unfold m1; rewrite E; lia. }
  pose proof (shr_digits (shr_record_of_loc m1 loc_Exact) e1
                (fexp prec emax (Zdigits2 m1 + e1) - e1)) as H2.
  rewrite shr_record_of_loc_m in H2. specialize (H2 Hm1).
  destruct (shr (shr_record_of_loc m1 loc_Exact) e1 _) as [mrs2 e2].
  cbn [fst snd] in H2. destruct H2 as (H2 & _ & _).
  destruct (shr_m mrs2) as [| p | p]; [discriminate | | lia].
  destruct (e2 <=? emax - prec); discriminate.
Qed.

(** Rounding a positive mantissa in the normal range gives a finite
    number that is not zero. *)
Lemma binary_round_aux_finite sx m e l :
  0 < m ->
  -1021 <= Zdigits2 m + e ->
  e + Z.max 0 (Zdigits2 m - 53) <= 970 ->
  exists m' e', binary_round_aux prec emax sx m e l = S754_finite sx m' e'.
Proof.
  intros Hm Hlo Hhi. unfold binary_round_aux, shr_fexp.
  assert (Hfexp : forall d, -1021 <= d -> fexp prec emax d = d - 53).
  { intros d Hd. unfold fexp, emin, prec, emax. lia. }
  pose proof (shr_digits (shr_record_of_loc m l) e
                (fexp prec emax (Zdigits2 m + e) - e)) as H1.
  destruct (shr (shr_record_of_loc m l) e _) as [mrs1 e1].
  rewrite shr_record_of_loc_m, Hfexp in H1 by exact Hlo.
  specialize (H1 ltac:(lia)).
  cbn [fst snd] in H1. destruct H1 as (H1 & D1 & E1).
  assert (P1 : 0 < shr_m mrs1).
  { apply Zdigits2_pos_iff; [exact H1 |]. rewrite D1.
    assert (0 < Zdigits2 m) by (apply Zdigits2_pos_iff; lia). lia. }
  set (m1 := round_nearest_even (shr_m mrs1) (loc_of_shr_record mrs1)).
  assert (Hm1 : 0 < m1
                /\ Zdigits2 (shr_m mrs1) <= Zdigits2 m1
                   <= Zdigits2 (shr_m mrs1) + 1).
  { destruct (round_nearest_even_cases (shr_m mrs1) (loc_of_shr_record mrs1))
      as [E | E]; unfold m1; rewrite E.
    - lia.
    - destruct (shr_m mrs1) as [| p | p]; try lia.
      split; [lia |]. change (Zpos p + 1) with (Zpos (p + 1)).
      apply Zdigits2_succ. }
  destruct Hm1 as (Hm1 & Dm1).
  pose proof (shr_digits (shr_record_of_loc m1 loc_Exact) e1
                (fexp prec emax (Zdigits2 m1 + e1) - e1)) as H2.
  destruct (shr (shr_record_of_loc m1 loc_Exact) e1 _) as [mrs2 e2].
  rewrite shr_record_of_loc_m, Hfexp in H2 by lia.
  specialize (H2 ltac:(lia)).
  cbn [fst snd] in H2. destruct H2 as (H2 & D2 & E2).
  assert (P2 : 0 < shr_m mrs2).
  { apply Zdigits2_pos_iff; [exact H2 |]. rewrite D2.
    assert (0 < Zdigits2 m1) by (apply Zdigits2_pos_iff; lia). lia. }
  destruct (shr_m mrs2) as [| p | p]; try lia.
  assert (Hle : (e2 <=? emax - prec) = true).
  { apply Z.leb_le. unfold emax, prec. lia. }
  rewrite Hle. eauto.
Qed.

(** An integer from 1 to [2^63 - 1] converts to a finite positive number. *)
Lemma binary_normalize_pos p :
  Zpos p < 2 ^ 63 ->
  exists m e,
    binary_normalize prec emax (Zpos p) 0 false = S754_finite false m e.
Proof.
  intros Hp. cbn [binary_normalize]. unfold binary_round.
  pose proof (Zdigits2_bounds p) as [L U].
  assert (Hd : Zpos (digits2_pos p) <= 63).
  { apply Z.nlt_ge. intros Hlt.
    assert (2 ^ 63 <= 2 ^ (Zpos (digits2_pos p) - 1))
      by (apply Z.pow_le_mono_r; lia).
    lia. }
  assert (Hfexp : fexp prec emax (Zpos (digits2_pos p) + 0)
                  = Zpos (digits2_pos p) - 53).
  { unfold fexp, emin, prec, emax. lia. }
  rewrite Hfexp. unfold shl_align.
  destruct (Zpos (digits2_pos p) - 53 - 0) as [| k | k] eqn:Hk.
  - apply binary_round_aux_finite; cbn [Zdigits2]; lia.
  - apply binary_round_aux_finite; cbn [Zdigits2]; lia.
  - apply binary_round_aux_finite; cbn [Zdigits2];
      rewrite ?digits2_pos_iter_xO; lia.
Qed.

Lemma float64_of_int_pos z :
  0 < z < 2 ^ 63 ->
  exists m e, Prim2SF (float64_of_int z) = S754_finite false m e.
Proof.
  intros Hz. rewrite float64_of_int_spec by lia.
  destruct z as [| p | p]; try lia. apply binary_normalize_pos. lia.
Qed.

Lemma float64_of_int_0 : float64_of_int 0 = 0%float.
Proof. reflexivity. Qed.

(** The quotient of two finite positive numbers is not a NaN. *)
Lemma SFdiv_finite_not_nan mx ex my ey :
  SFdiv prec emax (S754_finite false mx ex) (S754_finite false my ey)
  <> S754_nan.
Proof.
  cbn [SFdiv xorb]. unfold SFdiv_core_binary.
  set (s := _ - _ - _).
  set (m' := match s with Z0 => Zpos mx | Zpos _ => Z.shiftl (Zpos mx) s
             | Zneg _ => 0 end).
  assert (Hm' : 0 <= m').
  { unfold m'. destruct s; try lia. apply Z.shiftl_nonneg. lia. }
  destruct (Z.div_eucl m' (Zpos my)) as [q r] eqn:E.
  assert (Hq : q = m' / Zpos my) by (unfold Z.div; now rewrite E).
  apply binary_round_aux_not_nan. rewrite Hq. apply Z.div_pos; lia.
Qed.

(** The ratio of a count to a positive count is a number. *)
Lemma ratio_not_nan c n :
  0 <= c < 2 ^ 63 -> 0 < n < 2 ^ 63 ->
  Prim2SF (float64_of_int c / float64_of_int n) <> S754_nan.
Proof.
  intros Hc Hn. rewrite div_spec.
  destruct (float64_of_int_pos n Hn) as (mn & en & ->).
  destruct (Z.eq_dec c 0) as [-> | Hc0].
  - rewrite float64_of_int_0. vm_compute. discriminate.
  - destruct (float64_of_int_pos c ltac:(lia)) as (mc & ec & ->).
    apply SFdiv_finite_not_nan.
Qed.


Lemma SFcompare_antisym x y :
  SFcompare y x = option_map CompOpp (SFcompare x y).
Proof.
  destruct x as [sx | sx | | sx mx ex], y as [sy | sy | | sy my ey];
    try destruct sx; try destruct sy; try reflexivity;
    cbn [SFcompare option_map]; f_equal;
    rewrite (Z.compare_antisym ex ey);
    destruct (ex ?= ey); cbn [CompOpp]; try reflexivity;
    rewrite (Pos.compare_cont_antisym mx my Eq); reflexivity.
Qed.

(** Away from NaN the order is total. *)
Lemma ltb_false_leb x y :
  Prim2SF x <> S754_nan -> Prim2SF y <> S754_nan ->
  (x <? y)%float = false -> (y <=? x)%float = true.
Proof.
  rewrite ltb_spec, leb_spec. unfold SFltb, SFleb.
  rewrite (SFcompare_antisym (Prim2SF x) (Prim2SF y)).
  intros Hx Hy.
  destruct (SFcompare (Prim2SF x) (Prim2SF y)) as [[| |] |] eqn:E;
    cbn [option_map CompOpp]; try reflexivity; try discriminate.
  destruct (Prim2SF x) as [| | |], (Prim2SF y) as [| | |];
    try congruence; try discriminate; destruct s, s0; discriminate.
Qed.

Lemma leb_095_1 x : (x <=? 0.95)%float = true -> (x <=? 1)%float = true.
Proof.
  rewrite !leb_spec. unfold SFleb.
  change (Prim2SF 0.95) with (S754_finite false 8556839292003942 (-53)).
  change (Prim2SF 1) with (S754_finite false 4503599627370496 (-52)).
  destruct (Prim2SF x) as [s | s | | s m e]; try destruct s;
    cbn [SFcompare]; try reflexivity; try discriminate.
  destruct (Z.compare_spec e (-53)) as [E1 | E1 | E1];
    destruct (Z.compare_spec e (-52)) as [E2 | E2 | E2];
    try reflexivity; try discriminate; lia.
Qed.

Lemma clamp_inRange x :
  Prim2SF x <> S754_nan -> inRange 0.1 0.95 (clamp 0.1 0.95 x) = true.
Proof.
  intros Hx. unfold clamp.
  destruct (x <? 0.1)%float eqn:E1; [reflexivity |].
  destruct (0.95 <? x)%float eqn:E2; [reflexivity |].
  unfold inRange. apply andb_true_intro. split.
  - apply ltb_false_leb; [exact Hx | discriminate | exact E1].
  - apply ltb_false_leb; [discriminate | exact Hx | exact E2].
Qed.

(** ** Geocoding confidence *)

Lemma length_mapChars f s :
  String.length (strings.mapChars f s) = String.length s.
Proof. induction s as [| c s IH]; simpl; congruence. Qed.

Lemma length_TrimLeftSpace s :
  (String.length (strings.TrimLeftSpace s) <= String.length s)%nat.
Proof.
  induction s as [| c s IH]; simpl; [lia |].
  destruct (strings.isSpace c); simpl; lia.
Qed.

Lemma length_TrimRightSpace s :
  (String.length (strings.TrimRightSpace s) <= String.length s)%nat.
Proof.
  induction s as [| c s IH]; simpl; [lia |].
  destruct (strings.TrimRightSpace s) as [| c' t].
  - destruct (strings.isSpace c); simpl; lia.
  - simpl in *. lia.
Qed.

Lemma length_normalized s :
  (String.length (normalized s) <= String.length s)%nat.
Proof.
  unfold normalized, strings.ToLower, strings.TrimSpace.
  rewrite length_mapChars.
  pose proof (length_TrimRightSpace (strings.TrimLeftSpace s)).
  pose proof (length_TrimLeftSpace s). lia.
Qed.

(** Each field takes a character at least. *)
Lemma length_fieldsFrom s :
  forall word,
    (length (strings.fieldsFrom word s)
     <= String.length s + match word with Some _ => 1 | None => 0 end)%nat.
Proof.
  induction s as [| c s IH]; intros word; simpl.
  - destruct word; simpl; lia.
  - destruct (strings.isSpace c), word as [w |]; simpl.
    + specialize (IH None). simpl in IH. lia.
    + specialize (IH None). simpl in IH. lia.
    + specialize (IH (Some (w +:+ String c EmptyString))). simpl in IH. lia.
    + specialize (IH (Some (String c EmptyString))). simpl in IH. lia.
Qed.

Lemma length_words s : (length (words s) <= String.length s)%nat.
Proof.
  unfold words, strings.Fields.
  pose proof (length_fieldsFrom (normalized s) None).
  pose proof (length_normalized s). simpl in *. lia.
Qed.

Lemma matchWord_spec originalWord matchedWords commonWords0 :
  matchWord originalWord matchedWords commonWords0
  = if bool_decide (originalWord ∈ matchedWords)
    then wrap (commonWords0 + 1) else commonWords0.
Proof.
  induction matchedWords as [| w rest IH]; cbn [matchWord].
  - case_bool_decide as Hin; [| reflexivity].
    now apply not_elem_of_nil in Hin.
  - rewrite IH. destruct (String.eqb originalWord w) eqn:E.
    + apply String.eqb_eq in E. subst w.
      now rewrite bool_decide_eq_true_2 by apply list_elem_of_here.
    + apply String.eqb_neq in E.
      repeat case_bool_decide; try reflexivity; exfalso.
      * rewrite elem_of_cons in *. tauto.
      * rewrite elem_of_cons in *. tauto.
Qed.

Lemma commonWords_le originalWords matchedWords :
  (commonWords originalWords matchedWords <= length originalWords)%nat.
Proof.
  unfold commonWords.
  induction originalWords as [| w rest IH]; cbn [List.filter length]; [lia |].
  case_bool_decide; cbn [length]; lia.
Qed.

(** The counter of the loops does not overflow: it is the number of common
    words. *)
Lemma countCommon_spec matchedWords originalWords :
  forall commonWords0,
    0 <= commonWords0 ->
    commonWords0 + Z.of_nat (length originalWords) <= maxInt ->
    countCommon originalWords matchedWords commonWords0
    = commonWords0 + Z.of_nat (commonWords originalWords matchedWords).
Proof.
  unfold commonWords, maxInt.
  induction originalWords as [| w rest IH]; intros c0 H0 Hmax;
    cbn [countCommon List.filter length] in *.
  - lia.
  - rewrite matchWord_spec.
    case_bool_decide; cbn [length].
    + rewrite wrap_small by lia. rewrite IH by lia. lia.
    + rewrite IH by lia. lia.
Qed.


(** The shape of [calculateConfidence] on addresses that differ, for an
    original whose length is an [int]. *)
Lemma calculateConfidence_differ c original matched :
  Z.of_nat (String.length original) <= maxInt ->
  normalized original <> normalized matched ->
  calculateConfidence c original matched
  = match words original with
    | [] => 0.5%float
    | _ =>
        clamp 0.1 0.95
          (ratio (commonWords (words original) (words matched))
             (length (words original)))
    end.
Proof.
  intros Hlen Hne. unfold calculateConfidence.
  fold (normalized original) (normalized matched).
  apply String.eqb_neq in Hne. rewrite Hne.
  fold (words original) (words matched).
  pose proof (length_words original) as Hw.
  rewrite countCommon_spec by lia. rewrite Z.add_0_l.
  destruct (words original) as [| w ws] eqn:E; [reflexivity |].
  replace (Z.of_nat (length (w :: ws)) =? 0) with false
    by (symmetry; apply Z.eqb_neq; simpl; lia).
  reflexivity.
Qed.

Lemma ratio_number common total :
  (common <= total)%nat -> (0 < total)%nat ->
  Z.of_nat total <= maxInt ->
  Prim2SF (ratio common total) <> S754_nan.
Proof.
  unfold maxInt. intros Hle Hpos Hmax. apply ratio_not_nan; lia.
Qed.




(** The confidence tests of the provider: the same address in another case
    and with spaces around it, an address that shares two words of three,
    addresses that share none, an empty original. *)
Lemma confidence_tests :
  calculateConfidence testCensus "123 Main St" "  123 MAIN ST " = 1%float
  /\ calculateConfidence testCensus "123 Main St"
       "123 MAIN ST, ANYTOWN, ST, 12345" = (2 / 3)%float
  /\ calculateConfidence testCensus "1 Elm Road" "99 Oak Ave" = 0.1%float
  /\ calculateConfidence testCensus "" "99 Oak Ave" = 0.5%float
  /\ calculateConfidence testCensus "Oak Ave" "Oak Ave Somewhere"
     = 0.95%float.
Proof. repeat split; vm_compute; reflexivity. Qed.

(* ===================================================================== *)
(** * Further properties of the providers                                 *)
(* ===================================================================== *)

(** ** The provider manager *)

Section manager_facts.
Context {RT : Runtime} {ART : AlertsRuntime RT}.

Lemma forWeatherProviders_app providers more name :
  forWeatherProviders (providers ++ more) name
  = match forWeatherProviders providers name with
    | Some earlier => Some earlier
    | None => forWeatherProviders more name
    end.
Proof.
  induction providers as [| p rest IH]; cbn [forWeatherProviders app];
    [reflexivity |].
  destruct (String.eqb (wp_GetName p) name); [reflexivity | exact IH].
Qed.

Lemma forGeocodeProviders_app providers more name :
  forGeocodeProviders (providers ++ more) name
  = match forGeocodeProviders providers name with
    | Some earlier => Some earlier
    | None => forGeocodeProviders more name
    end.
Proof.
  induction providers as [| p rest IH]; cbn [forGeocodeProviders app];
    [reflexivity |].
  destruct (String.eqb (gp_GetName p) name); [reflexivity | exact IH].
Qed.

(** X1.  Registration and lookup by name.  After a provider is registered,
    a name that resolved before resolves to the same provider as before (an
    earlier registration is never replaced, also not by a provider of the
    same name); a name that did not resolve resolves to the new provider if
    it is its name, and stays unresolved otherwise.  Registering a weather
    provider leaves the geocoding lookups as they are, and conversely. *)
Theorem X1_register_then_lookup (pm : ProviderManager)
    (wp : WeatherProvider) (gp : GeocodeProvider) (name : string) :
  GetWeatherProviderByName (RegisterWeatherProvider pm wp) name
  = match GetWeatherProviderByName pm name with
    | Some earlier => Some earlier
    | None => if String.eqb (wp_GetName wp) name then Some wp else None
    end
  /\ GetGeocodeProviderByName (RegisterGeocodeProvider pm gp) name
     = match GetGeocodeProviderByName pm name with
       | Some earlier => Some earlier
       | None => if String.eqb (gp_GetName gp) name then Some gp else None
       end
  /\ GetGeocodeProviderByName (RegisterWeatherProvider pm wp) name
     = GetGeocodeProviderByName pm name
  /\ GetWeatherProviderByName (RegisterGeocodeProvider pm gp) name
     = GetWeatherProviderByName pm name.
Proof.
  unfold GetWeatherProviderByName, GetGeocodeProviderByName,
    RegisterWeatherProvider, RegisterGeocodeProvider.
  cbn [weatherProviders geocodeProviders].
  rewrite forWeatherProviders_app, forGeocodeProviders_app.
  repeat split.
Qed.

Lemma forWeatherProviders_first providers name :
  match forWeatherProviders providers name with
  | Some found =>
      exists before after,
        providers = before ++ found :: after
        /\ wp_GetName found = name
        /\ Forall (fun p => wp_GetName p <> name) before
  | None => Forall (fun p => wp_GetName p <> name) providers
  end.
Proof.
  induction providers as [| p rest IH]; cbn [forWeatherProviders].
  - constructor.
  - destruct (String.eqb (wp_GetName p) name) eqn:E.
    + apply String.eqb_eq in E. exists [], rest. repeat split; auto.
    + apply String.eqb_neq in E.
      destruct (forWeatherProviders rest name) as [found |].
      * destruct IH as (before & after & -> & Hname & Hbefore).
        exists (p :: before), after. repeat split; auto.
      * constructor; assumption.
Qed.

Lemma forGeocodeProviders_first providers name :
  match forGeocodeProviders providers name with
  | Some found =>
      exists before after,
        providers = before ++ found :: after
        /\ gp_GetName found = name
        /\ Forall (fun p => gp_GetName p <> name) before
  | None => Forall (fun p => gp_GetName p <> name) providers
  end.
Proof.
  induction providers as [| p rest IH]; cbn [forGeocodeProviders].
  - constructor.
  - destruct (String.eqb (gp_GetName p) name) eqn:E.
    + apply String.eqb_eq in E. exists [], rest. repeat split; auto.
    + apply String.eqb_neq in E.
      destruct (forGeocodeProviders rest name) as [found |].
      * destruct IH as (before & after & -> & Hname & Hbefore).
        exists (p :: before), after. repeat split; auto.
      * constructor; assumption.
Qed.

(** X2.  A lookup by name returns the first provider, in the order of
    registration, whose [GetName] is the name asked for; it returns nil
    exactly when no registered provider has that name. *)
Theorem X2_lookup_first_of_that_name (pm : ProviderManager) (name : string) :
  match GetWeatherProviderByName pm name with
  | Some found =>
      exists before after,
        GetWeatherProviders pm = before ++ found :: after
        /\ wp_GetName found = name
        /\ Forall (fun p => wp_GetName p <> name) before
  | None => Forall (fun p => wp_GetName p <> name) (GetWeatherProviders pm)
  end
  /\ match GetGeocodeProviderByName pm name with
     | Some found =>
         exists before after,
           GetGeocodeProviders pm = before ++ found :: after
           /\ gp_GetName found = name
           /\ Forall (fun p => gp_GetName p <> name) before
     | None => Forall (fun p => gp_GetName p <> name) (GetGeocodeProviders pm)
     end.
Proof.
  split.
  - apply forWeatherProviders_first.
  - apply forGeocodeProviders_first.
Qed.

End manager_facts.

(** A manager with the two adapters of the repository: each is found under
    its name, and no provider under another name. *)
Lemma manager_example (fx : Fixture) (table : gmap string NWSAlertsResponse) :
  let pm :=
    RegisterGeocodeProvider (RT := fixtureRuntime fx)
      (RegisterWeatherProvider NewProviderManager
         (NWSProvider_WeatherProvider (ART := fixtureAlerts fx table) testNWS))
      (CensusProvider_GeocodeProvider testCensus) in
  option_map wp_GetName (GetWeatherProviderByName pm "NWS") = Some "NWS"
  /\ option_map gp_GetName (GetGeocodeProviderByName pm "Census")
     = Some "Census"
  /\ option_map wp_GetName (GetWeatherProviderByName pm "Met.no") = None
  /\ option_map wp_SupportedRegions (GetWeatherProviderByName pm "NWS")
     = Some ["US"].
Proof. repeat split. Qed.


(** ** Alerts *)

Section alert_facts.
Context {RT : Runtime} {ART : AlertsRuntime RT}.

(** The conversion of an alert has no error path. *)
Lemma nwsAlertToWeatherAlert_alertOf n nwsAlert :
  exists alert,
    nwsAlertToWeatherAlert n nwsAlert = Ok alert /\ alertOf nwsAlert alert.
Proof.
  unfold nwsAlertToWeatherAlert, alertOf, alertTime.
  eexists. split; [reflexivity |].
  destruct (String.eqb (Onset (alert_Properties nwsAlert)) "");
    destruct (String.eqb (Expires (alert_Properties nwsAlert)) "");
    cbn [negb];
    try destruct (time_Parse_RFC3339 (Onset (alert_Properties nwsAlert)));
    try destruct (time_Parse_RFC3339 (Expires (alert_Properties nwsAlert)));
    repeat split.
Qed.

Lemma forAlerts_run n features :
  forall alerts,
    exists more,
      forAlerts n features alerts = alerts ++ more
      /\ Forall2 alertOf features more.
Proof.
  induction features as [| a rest IH]; intros alerts; cbn [forAlerts].
  - exists []. split; [now rewrite app_nil_r | constructor].
  - destruct (nwsAlertToWeatherAlert_alertOf n a) as (alert & -> & Ha).
    destruct (IH (alerts ++ [alert])) as (more & -> & Hmore).
    exists (alert :: more). split; [now rewrite <- app_assoc |].
    now constructor.
Qed.

Lemma GetAlerts_cases n ctx lat lon w r w' :
  GetAlerts n ctx lat lon w = (r, w') ->
  (exists e0,
     nws_makeRequest n ctx (alertsURL n lat lon) w = (Err e0, w')
     /\ r = Err (Errorf_w "failed to get alerts" e0))
  \/ (exists data e0,
        nws_makeRequest n ctx (alertsURL n lat lon) w = (Ok data, w')
        /\ json_Unmarshal_Alerts data = Err e0
        /\ r = Err (Errorf_w "failed to parse alerts response" e0))
  \/ (exists data resp alerts,
        nws_makeRequest n ctx (alertsURL n lat lon) w = (Ok data, w')
        /\ json_Unmarshal_Alerts data = Ok resp
        /\ Forall2 alertOf (alert_Features resp) alerts
        /\ r = Ok alerts).
Proof.
  unfold GetAlerts. cbv zeta. fold (alertsURL n lat lon). intros H.
  apply bind_inv in H as [(data & w1 & Hreq & H) | (e & Hreq & ->)].
  2:{ apply wrapping_inv in Hreq as [(a & _ & Ha) | (e0 & Hreq & He)];
        [discriminate |].
      inversion He; subst e. left. eauto. }
  apply wrapping_inv in Hreq as [(a & Hreq & Ha) | (e0 & _ & He)];
    [| discriminate].
  inversion Ha; subst a; clear Ha. cbv beta in H.
  apply bind_inv in H as [(resp & w2 & Hresp & H) | (e & Hresp & ->)].
  2:{ apply wrapping_inv in Hresp as [(a & _ & Ha) | (e0 & Hresp & He)];
        [discriminate |].
      inversion He; subst e. apply lift_inv in Hresp as [Hresp ->].
      right; left. exists data, e0. auto. }
  apply wrapping_inv in Hresp as [(a & Hresp & Ha) | (e0 & _ & He)];
    [| discriminate].
  inversion Ha; subst a; clear Ha.
  apply lift_inv in Hresp as [Hresp ->]. cbv beta in H.
  unfold ret in H. inversion H; subst.
  destruct (forAlerts_run n (alert_Features resp) []) as (more & -> & Hall).
  right; right. exists data, resp, more. auto.
Qed.

(** X3.  [GetAlerts] keeps every alert of the decoded response: a
    successful call returns one alert for each feature, in the order of the
    response, with the identifier, event, description and area of the
    feature, its severity, urgency and category in lower case, and as start
    and end time the parsed onset and expiry, or the zero time for one that
    is empty or does not parse (the alert is kept all the same).  The call
    succeeds whenever the request succeeds and its body decodes, and a
    failed call failed in the request or in the decoding. *)
Theorem X3_alerts_are_all_kept n ctx lat lon w :
  (forall data w1 resp,
     nws_makeRequest n ctx (alertsURL n lat lon) w = (Ok data, w1) ->
     json_Unmarshal_Alerts data = Ok resp ->
     exists alerts,
       GetAlerts n ctx lat lon w = (Ok alerts, w1)
       /\ Forall2 alertOf (alert_Features resp) alerts)
  /\ (forall alerts w',
        GetAlerts n ctx lat lon w = (Ok alerts, w') ->
        exists data resp,
          nws_makeRequest n ctx (alertsURL n lat lon) w = (Ok data, w')
          /\ json_Unmarshal_Alerts data = Ok resp
          /\ Forall2 alertOf (alert_Features resp) alerts)
  /\ (forall e w',
        GetAlerts n ctx lat lon w = (Err e, w') ->
        (exists e0,
           nws_makeRequest n ctx (alertsURL n lat lon) w = (Err e0, w')
           /\ e = Errorf_w "failed to get alerts" e0)
        \/ (exists data e0,
              nws_makeRequest n ctx (alertsURL n lat lon) w = (Ok data, w')
              /\ json_Unmarshal_Alerts data = Err e0
              /\ e = Errorf_w "failed to parse alerts response" e0)).
Proof.
  split; [| split].
  - intros data w1 resp Hreq Hresp.
    destruct (GetAlerts n ctx lat lon w) as [r w'] eqn:H.
    apply GetAlerts_cases in H
      as [(e0 & Hreq' & _) | [(data' & e0 & Hreq' & Hresp' & _)
                             | (data' & resp' & alerts & Hreq' & Hresp'
                                & Hall & ->)]];
      rewrite Hreq in Hreq'; inversion Hreq'; subst.
    + rewrite Hresp in Hresp'. discriminate.
    + rewrite Hresp in Hresp'. inversion Hresp'; subst. eauto.
  - intros alerts w' H.
    apply GetAlerts_cases in H
      as [(e0 & _ & Hr) | [(data & e0 & _ & _ & Hr)
                          | (data & resp & alerts' & Hreq & Hresp
                             & Hall & Hr)]];
      try discriminate.
    inversion Hr; subst. eauto.
  - intros e w' H.
    apply GetAlerts_cases in H
      as [(e0 & Hreq & Hr) | [(data & e0 & Hreq & Hresp & Hr)
                             | (data & resp & alerts' & _ & _ & _ & Hr)]].
    + inversion Hr; subst. left. eauto.
    + inversion Hr; subst. right. eauto.
    + discriminate.
Qed.

End alert_facts.

(** The alerts test: one alert, its severity and urgency in lower case;
    and the same alert with an onset that is no timestamp, which is
    returned with the zero start time. *)
Lemma alerts_tests :
  resultOf (map (fun a => (wa_ID a, Title a, wa_Severity a, wa_Urgency a,
                           wa_StartTime a, Areas a)))
    (run alertsServer
       (GetAlerts
          (ART := fixtureAlerts alertsServer
                    (alertsTable [stormAlert "2024-01-15T12:00:00Z"
                                    "2024-01-15T14:00:00Z"]))
          testNWS tt 39.0458%float (-76.6413)%float))
  = Some [("test-alert-1", "Severe Thunderstorm Warning", "severe",
           "immediate", 20240115120000, ["Test County"])]
  /\ resultOf (map (fun a => (wa_ID a, wa_StartTime a, wa_EndTime a)))
       (run alertsServer
          (GetAlerts
             (ART := fixtureAlerts alertsServer
                       (alertsTable [stormAlert "soon" ""]))
             testNWS tt 39.0458%float (-76.6413)%float))
     = Some [("test-alert-1", 0, 0)].
Proof. split; vm_compute; reflexivity. Qed.

(** ** Responses that are not [200 OK] *)

Section status_facts.
Context {RT : Runtime} {ART : AlertsRuntime RT}.

Lemma nws_makeRequest_status n ctx url w req resp w1 :
  http_NewRequestWithContext ctx "GET" url = Ok req ->
  http_Do ctx (nws_outgoing n req) w = (Ok resp, w1) ->
  StatusCode resp <> StatusOK ->
  nws_makeRequest n ctx url w = (Err (errorString (statusMessage resp)), w1).
Proof.
  intros Hreq Hdo Hstatus. unfold nws_makeRequest.
  unfold bind at 1, wrapping at 1, lift. rewrite Hreq. cbv zeta.
  fold (nws_outgoing n req).
  unfold bind at 1, wrapping at 1. rewrite Hdo.
  apply Z.eqb_neq in Hstatus. rewrite Hstatus. reflexivity.
Qed.

Lemma census_makeRequest_status c ctx url w req resp w1 :
  http_NewRequestWithContext ctx "GET" url = Ok req ->
  http_Do ctx (census_outgoing req) w = (Ok resp, w1) ->
  StatusCode resp <> StatusOK ->
  census_makeRequest c ctx url w
  = (Err (errorString (statusMessage resp)), w1).
Proof.
  intros Hreq Hdo Hstatus. unfold census_makeRequest.
  unfold bind at 1, wrapping at 1, lift. rewrite Hreq. cbv zeta.
  fold (census_outgoing req).
  unfold bind at 1, wrapping at 1. rewrite Hdo.
  apply Z.eqb_neq in Hstatus. rewrite Hstatus. reflexivity.
Qed.

Lemma getGridPoint_status n ctx lat lon w req resp w1 :
  http_NewRequestWithContext ctx "GET" (pointsURL n lat lon) = Ok req ->
  http_Do ctx (nws_outgoing n req) w = (Ok resp, w1) ->
  StatusCode resp <> StatusOK ->
  getGridPoint n ctx lat lon w
  = (Err (errorString (statusMessage resp)), w1).
Proof.
  intros Hreq Hdo Hstatus. unfold getGridPoint. cbv zeta.
  fold (pointsURL n lat lon).
  now rewrite (bind_Err _ _ _ _ _
                 (nws_makeRequest_status _ _ _ _ _ _ _ Hreq Hdo Hstatus)).
Qed.

(** X4.  When the server answers the request for the grid point with a
    status other than 200, [GetCurrentWeather] and [GetForecast] (for every
    day count) fail, make no further request, and report
    "failed to get grid point: API request failed with status N", the body
    of the response playing no part.  When it so answers the request for
    the alerts, [GetAlerts] fails with
    "failed to get alerts: API request failed with status N". *)
Theorem X4_weather_status_errors n ctx lat lon w req resp w1 :
  StatusCode resp <> StatusOK ->
  http_Do ctx (nws_outgoing n req) w = (Ok resp, w1) ->
  (http_NewRequestWithContext ctx "GET" (pointsURL n lat lon) = Ok req ->
   (exists e,
      GetCurrentWeather n ctx lat lon w = (Err e, w1)
      /\ Error e = "failed to get grid point: " +:+ statusMessage resp)
   /\ (forall days,
         exists e,
           GetForecast n ctx lat lon days w = (Err e, w1)
           /\ Error e = "failed to get grid point: " +:+ statusMessage resp))
  /\ (http_NewRequestWithContext ctx "GET" (alertsURL n lat lon) = Ok req ->
      exists e,
        GetAlerts n ctx lat lon w = (Err e, w1)
        /\ Error e = "failed to get alerts: " +:+ statusMessage resp).
Proof.
  intros Hstatus Hdo. split.
  - intros Hreq.
    pose proof (getGridPoint_status n ctx lat lon w req resp w1
                  Hreq Hdo Hstatus) as Hpoint.
    split; [| intros days]; eexists; split;
      try (unfold GetCurrentWeather, GetForecast;
           rewrite (bind_Err _ _ _ _ _ (wrapping_Err _ _ _ _ _ Hpoint));
           reflexivity);
      reflexivity.
  - intros Hreq.
    pose proof (nws_makeRequest_status n ctx _ w req resp w1
                  Hreq Hdo Hstatus) as Hfail.
    eexists. split.
    + unfold GetAlerts. cbv zeta. fold (alertsURL n lat lon).
      rewrite (bind_Err _ _ _ _ _ (wrapping_Err _ _ _ _ _ Hfail)).
      reflexivity.
    + reflexivity.
Qed.

(** X5.  When the server answers with a status other than 200,
    [GeocodeAddress] fails with
    "geocoding request failed: API request failed with status N" and
    [ReverseGeocode] with
    "reverse geocoding request failed: API request failed with status N". *)
Theorem X5_geocoding_status_errors c ctx address lat lon w req resp w1 :
  StatusCode resp <> StatusOK ->
  http_Do ctx (census_outgoing req) w = (Ok resp, w1) ->
  (http_NewRequestWithContext ctx "GET" (geocodeURL c address) = Ok req ->
   exists e,
     GeocodeAddress c ctx address w = (Err e, w1)
     /\ Error e = "geocoding request failed: " +:+ statusMessage resp)
  /\ (http_NewRequestWithContext ctx "GET" (reverseURL c lat lon) = Ok req ->
      exists e,
        ReverseGeocode c ctx lat lon w = (Err e, w1)
        /\ Error e
           = "reverse geocoding request failed: " +:+ statusMessage resp).
Proof.
  intros Hstatus Hdo. split; intros Hreq;
    pose proof (census_makeRequest_status c ctx _ w req resp w1
                  Hreq Hdo Hstatus) as Hfail;
    eexists; split.
  - unfold GeocodeAddress. cbv zeta. fold (geocodeURL c address).
    rewrite (bind_Err _ _ _ _ _ (wrapping_Err _ _ _ _ _ Hfail)).
    reflexivity.
  - reflexivity.
  - unfold ReverseGeocode. cbv zeta. fold (reverseURL c lat lon).
    rewrite (bind_Err _ _ _ _ _ (wrapping_Err _ _ _ _ _ Hfail)).
    reflexivity.
  - reflexivity.
Qed.

End status_facts.


(** ** Validation of forecasts *)

Lemma SFcompare_refl x : x <> S754_nan -> SFcompare x x = Some Eq.
Proof.
  destruct x as [s | s | | s m e]; try destruct s; intros H;
    try reflexivity; try contradiction;
    cbn [SFcompare]; rewrite Z.compare_refl, Pos.compare_cont_refl;
    reflexivity.
Qed.

Lemma is_nan_spec x : is_nan x = true <-> Prim2SF x = S754_nan.
Proof.
  unfold is_nan. rewrite FloatAxioms.eqb_spec. unfold SFeqb. split.
  - intros H. destruct (Prim2SF x) as [s | s | | s m e] eqn:E;
      [| | reflexivity |];
      rewrite SFcompare_refl in H by discriminate; discriminate.
  - intros ->. reflexivity.
Qed.

Lemma is_nan_false x : is_nan x = false <-> Prim2SF x <> S754_nan.
Proof.
  rewrite <- is_nan_spec. destruct (is_nan x); split; congruence.
Qed.

Lemma SFcompare_nan_l y : SFcompare S754_nan y = None.
Proof. destruct y; reflexivity. Qed.

Lemma SFcompare_nan_r x : SFcompare x S754_nan = None.
Proof. destruct x; reflexivity. Qed.

Lemma SFcompare_number x y :
  x <> S754_nan -> y <> S754_nan -> exists c, SFcompare x y = Some c.
Proof.
  destruct x as [sx | sx | | sx mx ex], y as [sy | sy | | sy my ey];
    intros Hx Hy; try contradiction; cbn [SFcompare]; eauto.
Qed.

(** The three comparisons of [Validate] against a bound that is a
    number. *)
Lemma ltb_false_notBelow lo x :
  Prim2SF lo <> S754_nan -> (x <? lo)%float = false <-> notBelow lo x = true.
Proof.
  intros Hlo. unfold notBelow.
  destruct (is_nan x) eqn:Hnan.
  - apply is_nan_spec in Hnan. rewrite ltb_spec, Hnan. unfold SFltb.
    rewrite SFcompare_nan_l. tauto.
  - apply is_nan_false in Hnan. cbn [orb].
    rewrite ltb_spec, leb_spec. unfold SFltb, SFleb.
    rewrite (SFcompare_antisym (Prim2SF x) (Prim2SF lo)).
    destruct (SFcompare_number _ _ Hnan Hlo) as ([| |] & ->);
      cbn [option_map CompOpp]; split; congruence.
Qed.

Lemma gtb_false_notAbove hi x :
  Prim2SF hi <> S754_nan -> (hi <? x)%float = false <-> notAbove hi x = true.
Proof.
  intros Hhi. unfold notAbove.
  destruct (is_nan x) eqn:Hnan.
  - apply is_nan_spec in Hnan. rewrite ltb_spec, Hnan. unfold SFltb.
    rewrite SFcompare_nan_r. tauto.
  - apply is_nan_false in Hnan. cbn [orb].
    rewrite ltb_spec, leb_spec. unfold SFltb, SFleb.
    rewrite (SFcompare_antisym (Prim2SF x) (Prim2SF hi)).
    destruct (SFcompare_number _ _ Hnan Hhi) as ([| |] & ->);
      cbn [option_map CompOpp]; split; congruence.
Qed.

Lemma leb_false_below hi x :
  Prim2SF hi <> S754_nan -> (hi <=? x)%float = false <-> below hi x = true.
Proof.
  intros Hhi. unfold below.
  destruct (is_nan x) eqn:Hnan.
  - apply is_nan_spec in Hnan. rewrite leb_spec, Hnan. unfold SFleb.
    rewrite SFcompare_nan_r. tauto.
  - apply is_nan_false in Hnan. cbn [orb].
    rewrite ltb_spec, leb_spec. unfold SFltb, SFleb.
    rewrite (SFcompare_antisym (Prim2SF x) (Prim2SF hi)).
    destruct (SFcompare_number _ _ Hnan Hhi) as ([| |] & ->);
      cbn [option_map CompOpp]; split; congruence.
Qed.

Section forecast_validation.
Context {RT : Runtime}.

Lemma periodToForecast_CityID n period lat lon w f w' :
  periodToForecast n period lat lon w = (Ok f, w') -> CityID f = 0.
Proof.
  unfold periodToForecast, bind, wrapping, lift, step, ret.
  destruct (time_Parse_RFC3339 (StartTime period)); [| discriminate].
  destruct (time_Parse_RFC3339 (EndTime period)); [| discriminate].
  destruct (time_Now w) as [t1 w1].
  destruct (time_Now w1) as [t2 w2].
  destruct (time_Now w2) as [t3 w3].
  intros H. inversion H; subst; clear H.
  destruct (String.eqb (TemperatureUnit period) "F");
    destruct (String.eqb (period_WindSpeed period) "");
    destruct (strings.Fields (period_WindSpeed period)) as [| ? [| ? ?]];
    try destruct (strconv.Atoi _); reflexivity.
Qed.

Lemma observationToForecast_CityID n obs lat lon w f w' :
  observationToForecast n obs lat lon w = (Ok f, w') -> CityID f = 0.
Proof.
  unfold observationToForecast. intros H.
  apply bind_inv in H as [(t & w1 & _ & H) | (e & _ & ?)]; [| discriminate].
  unfold bind, step, ret in H.
  destruct (time_Now w1) as [t1 w2]. destruct (time_Now w2) as [t2 w3].
  inversion H; subst; clear H.
  destruct (Value (obs_Temperature (obs_Properties obs)));
    destruct (Value (RelativeHumidity (obs_Properties obs)));
    destruct (Value (BarometricPressure (obs_Properties obs)));
    destruct (Value (obs_WindSpeed (obs_Properties obs)));
    destruct (Value (obs_WindDirection (obs_Properties obs)));
    destruct (Value (obs_Visibility (obs_Properties obs)));
    reflexivity.
Qed.

Lemma Forecast_Validate_noCity f :
  CityID f = 0 -> Forecast_Validate f = Some noCity.
Proof. intros H. unfold Forecast_Validate. now rewrite H. Qed.

(** X6.  The weather adapter never assigns a city: every forecast that
    [GetForecast] or [GetCurrentWeather] returns has city id 0, so
    [Forecast.Validate] rejects it with "city_id must be positive",
    whatever the upstream data are. *)
Theorem X6_adapter_forecasts_fail_validation n ctx lat lon w :
  (forall days forecasts w',
     GetForecast n ctx lat lon days w = (Ok forecasts, w') ->
     Forall (fun f => CityID f = 0 /\ Forecast_Validate f = Some noCity)
       forecasts)
  /\ (forall f w',
        GetCurrentWeather n ctx lat lon w = (Ok f, w') ->
        CityID f = 0 /\ Forecast_Validate f = Some noCity).
Proof.
  split.
  - intros days forecasts w' H.
    apply GetForecast_cases in H
      as [(e & He & _) | (point & w1 & data & w2 & resp & _ & _ & _ & Hloop)];
      [discriminate |].
    destruct (forPeriods_run n lat lon (Periods (forecast_Properties resp))
                (Z.to_nat
                   (maxPeriodsOf days (Periods (forecast_Properties resp))))
                0%nat [] w2) as (fs & w3 & Hrun & Hall).
    { pose proof (maxPeriodsOf_le days (Periods (forecast_Properties resp))).
      simpl. lia. }
    rewrite Hrun in Hloop. inversion Hloop; subst. simpl.
    clear Hrun Hloop. induction Hall as [| p f ps fs Hpf _ IH]; constructor.
    + destruct Hpf as (wa & wb & Hpf).
      apply periodToForecast_CityID in Hpf.
      split; [exact Hpf | now apply Forecast_Validate_noCity].
    + exact IH.
  - intros f w' H.
    apply GetCurrentWeather_inv in H as (obsData & obs & w1 & _ & Hrun).
    apply observationToForecast_CityID in Hrun.
    split; [exact Hrun | now apply Forecast_Validate_noCity].
Qed.

(** X7.  [Forecast.Validate] returns nil exactly for the forecasts that
    have a positive city id, a source, non-zero forecast and valid times,
    and whose numeric fields are each within their range or a NaN: the
    comparisons of the method never reject a NaN.  So a forecast is treated
    the same when its temperature is replaced by a NaN and by 0; and an
    accepted forecast without NaN fields satisfies the invariant of the
    data model. *)
Theorem X7_validate_accepts_ranges_and_nan (f : Forecast) :
  (Forecast_Validate f = None <-> acceptable f)
  /\ (forall x,
        is_nan x = true ->
        Forecast_Validate (set_Temperature f x)
        = Forecast_Validate (set_Temperature f 0))
  /\ (Forecast_Validate f = None ->
      is_nan (Temperature f) = false -> is_nan (Humidity f) = false ->
      is_nan (CloudCover f) = false -> is_nan (WindDirection f) = false ->
      data_invariant f = true).
Proof.
  assert (Hiff : Forecast_Validate f = None <-> acceptable f).
  { unfold Forecast_Validate, acceptable.
    rewrite <- !ltb_false_notBelow, <- !gtb_false_notAbove,
      <- !leb_false_below by discriminate.
    destruct (Z.leb_spec (CityID f) 0) as [Hc | Hc];
      [split; [discriminate | intros (H & _); lia] |].
    destruct (String.eqb_spec (SourceProvider f) "") as [Hs | Hs];
      [split; [discriminate | intros (_ & H & _); contradiction] |].
    destruct (time_IsZero (ForecastTime f));
      [split; [discriminate | intros (_ & _ & H & _); discriminate] |].
    destruct (time_IsZero (ValidTime f));
      [split; [discriminate | intros (_ & _ & _ & H & _); discriminate] |].
    destruct (Temperature f <? -273.15)%float;
      [split; [discriminate | intros (_ & _ & _ & _ & H & _); discriminate] |].
    destruct (Humidity f <? 0)%float;
      [split; [discriminate | intuition discriminate] |].
    destruct (100 <? Humidity f)%float;
      [split; [discriminate | intuition discriminate] |].
    destruct (Pressure f <? 0)%float;
      [split; [discriminate | intuition discriminate] |].
    destruct (WindSpeed f <? 0)%float;
      [split; [discriminate | intuition discriminate] |].
    destruct (WindDirection f <? 0)%float;
      [split; [discriminate | intuition discriminate] |].
    destruct (360 <=? WindDirection f)%float;
      [split; [discriminate | intuition discriminate] |].
    destruct (CloudCover f <? 0)%float;
      [split; [discriminate | intuition discriminate] |].
    destruct (100 <? CloudCover f)%float;
      [split; [discriminate | intuition discriminate] |].
    destruct (Precipitation f <? 0)%float;
      [split; [discriminate | intuition discriminate] |].
    destruct (UVIndex f <? 0)%float;
      [split; [discriminate | intuition discriminate] |].
    cbn [orb]. intuition. }
  split; [exact Hiff |]. split.
  - intros x Hx. unfold Forecast_Validate. cbn.
    apply is_nan_spec in Hx.
    assert (E : (x <? -273.15)%float = false).
    { rewrite ltb_spec, Hx. unfold SFltb. now rewrite SFcompare_nan_l. }
    rewrite E. reflexivity.
  - intros Hok Ht Hh Hc Hd. apply Hiff in Hok.
    destruct Hok as (_ & _ & _ & _ & H1 & H2 & H3 & _ & _ & H4 & H5 & H6
                     & H7 & _).
    unfold notBelow, notAbove, below in *.
    rewrite ?Ht, ?Hh, ?Hc, ?Hd in *. cbn [orb] in *.
    unfold data_invariant. now rewrite H1, H2, H3, H4, H5, H6, H7.
Qed.

End forecast_validation.


(** ** Validation of places and cities *)





Section place_validation.
Context {RT : Runtime}.

(** The place and the city with their country code in upper case. *)
Lemma set_CountryCode_same p : set_CountryCode p (CountryCode p) = p.
Proof. now destruct p. Qed.







End place_validation.


(** ** Geocoded places *)

Section geocoded_places.
Context {RT : Runtime}.

Lemma addressMatchToPlace_placeOf c m address w place w' :
  addressMatchToPlace c m address w = (Ok place, w') ->
  placeOf c address m place.
Proof.
  unfold addressMatchToPlace, bind, step, ret.
  destruct (time_Now w) as [t1 w1]. destruct (time_Now w1) as [t2 w2].
  intros H. inversion H; subst. repeat split.
Qed.

(** The loop keeps the place of each match, in the order of the matches. *)
Lemma forMatches_places c address matches :
  forall places w,
    exists more w',
      forMatches c address matches places w = (Ok (places ++ more), w')
      /\ Forall2 (placeOf c address) matches more.
Proof.
  induction matches as [| m rest IH]; intros places w.
  - exists [], w. simpl. rewrite app_nil_r. split; [reflexivity | constructor].
  - destruct (addressMatchToPlace_total c m address w) as (place & w1 & Hm).
    destruct (IH (places ++ [place]) w1) as (more & w' & Hrun & Hall).
    exists (place :: more), w'. cbn [forMatches]. rewrite Hm, Hrun.
    split; [now rewrite <- app_assoc |].
    constructor; [| exact Hall].
    now apply addressMatchToPlace_placeOf in Hm.
Qed.

Lemma GeocodeAddress_places c ctx address w places w' :
  GeocodeAddress c ctx address w = (Ok places, w') ->
  exists data w1 resp,
    census_makeRequest c ctx (geocodeURL c address) w = (Ok data, w1)
    /\ json_Unmarshal_Geocode data = Ok resp
    /\ Forall2 (placeOf c address) (AddressMatches (geocode_Result resp))
         places.
Proof.
  intros H.
  apply GeocodeAddress_cases in H
    as [(e0 & _ & Hr) | [(data & e0 & _ & _ & Hr)
                        | (data & w1 & resp & ps & Hreq & Hresp & Hrun & _
                           & Hr)]];
    try discriminate.
  destruct (forMatches_places c address (AddressMatches (geocode_Result resp))
              [] w1) as (more & w2 & Hrun' & Hall).
  rewrite Hrun in Hrun'. cbn [app] in Hrun'. inversion Hrun'; subst more.
  destruct ps; inversion Hr; subst. exists data, w1, resp. auto.
Qed.

Lemma ReverseGeocode_place c ctx lat lon w place w' :
  ReverseGeocode c ctx lat lon w = (Ok place, w') ->
  exists data w1 resp m rest,
    census_makeRequest c ctx (reverseURL c lat lon) w = (Ok data, w1)
    /\ json_Unmarshal_Reverse data = Ok resp
    /\ rev_AddressMatches (reverse_Result resp) = m :: rest
    /\ reverseMatchToPlace c m lat lon w1 = (Ok place, w').
Proof.
  intros H.
  destruct (census_makeRequest c ctx (reverseURL c lat lon) w)
    as [[data | e0] w1] eqn:Hreq.
  2:{ unfold ReverseGeocode in H. cbv zeta in H.
      fold (reverseURL c lat lon) in H.
      rewrite (bind_Err _ _ _ _ _ (wrapping_Err _ _ _ _ _ Hreq)) in H.
      discriminate. }
  destruct (json_Unmarshal_Reverse data) as [resp | e0] eqn:Hresp.
  2:{ unfold ReverseGeocode in H. cbv zeta in H.
      fold (reverseURL c lat lon) in H.
      rewrite (bind_Ok _ _ _ _ _ (wrapping_Ok _ _ _ _ _ Hreq)) in H.
      unfold bind at 1, wrapping, lift in H. rewrite Hresp in H.
      discriminate. }
  rewrite (ReverseGeocode_stages _ _ _ _ _ _ _ _ Hreq Hresp) in H.
  destruct (rev_AddressMatches (reverse_Result resp)) as [| m rest] eqn:Hm;
    [discriminate |].
  exists data, w1, resp, m, rest. auto.
Qed.

Lemma reverseMatchToPlace_fields c m lat lon w place w' :
  reverseMatchToPlace c m lat lon w = (Ok place, w') ->
  Latitude place = lat /\ Longitude place = lon
  /\ Confidence place = 0.9%float
  /\ CountryCode place = "US" /\ Source place = "Census".
Proof.
  unfold reverseMatchToPlace, bind, step, ret.
  destruct (time_Now w) as [t1 w1]. destruct (time_Now w1) as [t2 w2].
  intros H. inversion H; subst. repeat split.
Qed.

(** X9.  [GeocodeAddress] returns one place for each match of the decoded
    response, in the order of the response.  The latitude of a place is the
    [y] of the match and its longitude the [x]; its confidence is computed
    from the address asked for and the matched address.  [ReverseGeocode]
    gives its place the coordinates that were asked for, not those of the
    match. *)
Theorem X9_geocoded_places_and_coordinates c ctx w :
  (forall address places w',
     GeocodeAddress c ctx address w = (Ok places, w') ->
     exists data w1 resp,
       census_makeRequest c ctx (geocodeURL c address) w = (Ok data, w1)
       /\ json_Unmarshal_Geocode data = Ok resp
       /\ Forall2 (placeOf c address)
            (AddressMatches (geocode_Result resp)) places)
  /\ (forall lat lon place w',
        ReverseGeocode c ctx lat lon w = (Ok place, w') ->
        Latitude place = lat /\ Longitude place = lon).
Proof.
  split.
  - intros address places w'. apply GeocodeAddress_places.
  - intros lat lon place w' H.
    apply ReverseGeocode_place in H as (data & w1 & resp & m & rest & _ & _
                                        & _ & H).
    apply reverseMatchToPlace_fields in H as (Hlat & Hlon & _). auto.
Qed.

(** The range of the confidence, for an original whose length is an
    [int]. *)
Lemma calculateConfidence_same c original matched :
  normalized original = normalized matched ->
  calculateConfidence c original matched = 1%float.
Proof.
  intros E. unfold calculateConfidence.
  fold (normalized original) (normalized matched).
  apply String.eqb_eq in E. now rewrite E.
Qed.

Lemma calculateConfidence_differ_range c original matched :
  Z.of_nat (String.length original) <= maxInt ->
  normalized original <> normalized matched ->
  inRange 0.1 0.95 (calculateConfidence c original matched) = true.
Proof.
  intros Hlen Hne.
  pose proof (length_words original) as Hw.
  pose proof (commonWords_le (words original) (words matched)) as Hc.
  rewrite (calculateConfidence_differ c _ _ Hlen Hne).
  destruct (words original) as [| w ws] eqn:E; [reflexivity |].
  apply clamp_inRange, ratio_number; [exact Hc | simpl; lia | lia].
Qed.

Lemma calculateConfidence_inRange c original matched :
  Z.of_nat (String.length original) <= maxInt ->
  inRange 0.1 1 (calculateConfidence c original matched) = true.
Proof.
  intros Hlen.
  destruct (string_dec (normalized original) (normalized matched))
    as [E | Hne].
  - now rewrite (calculateConfidence_same c _ _ E).
  - pose proof (calculateConfidence_differ_range c _ _ Hlen Hne) as Hin.
    unfold inRange in *. apply andb_prop in Hin as [Hlo Hhi].
    apply andb_true_intro. split; [exact Hlo |]. now apply leb_095_1.
Qed.

(** A confidence in [[0.1, 1]] passes the check of [Place.Validate]. *)
Lemma inRange_passes x :
  inRange 0.1 1 x = true -> (x <? 0)%float || (1 <? x)%float = false.
Proof.
  unfold inRange. intros H. apply andb_prop in H as [Hlo Hhi].
  apply orb_false_intro.
  - rewrite leb_spec in Hlo. rewrite ltb_spec. unfold SFleb in Hlo.
    unfold SFltb.
    change (Prim2SF 0.1)
      with (S754_finite false 7205759403792794 (-56)) in Hlo.
    change (Prim2SF 0) with (S754_zero false).
    destruct (Prim2SF x) as [s | s | | s m e]; try destruct s;
      cbn [SFcompare] in *; try reflexivity; discriminate.
  - rewrite leb_spec in Hhi. rewrite ltb_spec.
    unfold SFleb in Hhi. unfold SFltb.
    rewrite (SFcompare_antisym (Prim2SF x) (Prim2SF 1)).
    destruct (SFcompare (Prim2SF x) (Prim2SF 1)) as [[| |] |];
      try discriminate; reflexivity.
Qed.

Lemma Place_Validate_US place :
  CountryCode place = "US" -> Source place = "Census" ->
  (Confidence place <? 0)%float || (1 <? Confidence place)%float = false ->
  Place_Validate place = (nameAndCoordinates place, place).
Proof.
  intros Hcode Hsource Hconf. unfold Place_Validate, nameAndCoordinates.
  destruct (String.eqb (DisplayName place) ""); [reflexivity |].
  destruct (len (DisplayName place) >? 500); [reflexivity |].
  destruct ((Latitude place <? -90)%float || (90 <? Latitude place)%float);
    [reflexivity |].
  destruct ((Longitude place <? -180)%float
            || (180 <? Longitude place)%float); [reflexivity |].
  assert (E : set_CountryCode place "US" = place)
    by (rewrite <- Hcode; apply set_CountryCode_same).
  rewrite Hconf, Hcode.
  change (negb (String.eqb "US" "") && negb (len "US" =? 2)) with false.
  change (negb (String.eqb "US" "")) with true.
  change (strings.ToUpper "US") with "US".
  cbv iota. rewrite E, Hsource. reflexivity.
Qed.

(** X10.  What [Place.Validate] can object to in a place of the geocoding
    adapter is its name or its coordinates only.  For every place that
    [ReverseGeocode] returns, and every place that [GeocodeAddress] returns
    for an address whose length is an [int], the checks of the confidence,
    of the country code and of the source pass, and the place is left as it
    is: the result of [Validate] is that of its first four checks. *)
Theorem X10_geocoded_places_pass_validation c ctx w :
  (forall lat lon place w',
     ReverseGeocode c ctx lat lon w = (Ok place, w') ->
     Place_Validate place = (nameAndCoordinates place, place))
  /\ (forall address places w',
        Z.of_nat (String.length address) <= maxInt ->
        GeocodeAddress c ctx address w = (Ok places, w') ->
        Forall (fun place =>
                  Place_Validate place = (nameAndCoordinates place, place))
          places).
Proof.
  split.
  - intros lat lon place w' H.
    apply ReverseGeocode_place in H as (data & w1 & resp & m & rest & _ & _
                                        & _ & H).
    apply reverseMatchToPlace_fields in H as (_ & _ & Hconf & Hcode & Hsrc).
    apply Place_Validate_US; [exact Hcode | exact Hsrc |].
    now rewrite Hconf.
  - intros address places w' Hlen H.
    apply GeocodeAddress_places in H as (data & w1 & resp & _ & _ & Hall).
    induction Hall as [| m place ms ps Hplace _ IH]; constructor;
      [| exact IH].
    destruct Hplace as (_ & _ & _ & _ & _ & _ & Hcode & _ & _ & _ & Hconf
                        & Hsrc & _).
    apply Place_Validate_US; [exact Hcode | exact Hsrc |].
    rewrite Hconf. apply inRange_passes.
    now apply calculateConfidence_inRange.
Qed.

End geocoded_places.

(** ** More on the confidence *)

Lemma float_neq (x y : float) : Prim2SF x <> Prim2SF y -> x <> y.
Proof. intros H E. apply H. now rewrite E. Qed.



Lemma isSpace_toUpperChar c :
  strings.isSpace (strings.toUpperChar c) = strings.isSpace c.
Proof. destruct c as [[] [] [] [] [] [] [] []]; reflexivity. Qed.

Lemma isSpace_toLowerChar c :
  strings.isSpace (strings.toLowerChar c) = strings.isSpace c.
Proof. destruct c as [[] [] [] [] [] [] [] []]; reflexivity. Qed.

Lemma toLowerChar_idem c :
  strings.toLowerChar (strings.toLowerChar c) = strings.toLowerChar c.
Proof. destruct c as [[] [] [] [] [] [] [] []]; reflexivity. Qed.

Lemma ToLower_idem s : strings.ToLower (strings.ToLower s) = strings.ToLower s.
Proof.
  unfold strings.ToLower.
  induction s as [| c s IH]; cbn [strings.mapChars]; [reflexivity |].
  now rewrite toLowerChar_idem, IH.
Qed.

(** Trimming commutes with a map of the characters that keeps the spaces
    spaces and the others others. *)
Lemma TrimLeftSpace_mapChars (f : ascii -> ascii) s :
  (forall c, strings.isSpace (f c) = strings.isSpace c) ->
  strings.TrimLeftSpace (strings.mapChars f s)
  = strings.mapChars f (strings.TrimLeftSpace s).
Proof.
  intros f_space.
  induction s as [| c s IH]; cbn [strings.mapChars strings.TrimLeftSpace];
    [reflexivity |].
  rewrite f_space. destruct (strings.isSpace c); [exact IH | reflexivity].
Qed.

Lemma TrimRightSpace_mapChars (f : ascii -> ascii) s :
  (forall c, strings.isSpace (f c) = strings.isSpace c) ->
  strings.TrimRightSpace (strings.mapChars f s)
  = strings.mapChars f (strings.TrimRightSpace s).
Proof.
  intros f_space.
  induction s as [| c s IH]; cbn [strings.mapChars strings.TrimRightSpace];
    [reflexivity |].
  rewrite IH, f_space.
  destruct (strings.TrimRightSpace s) as [| c' t];
    cbn [strings.mapChars]; [| reflexivity].
  destruct (strings.isSpace c); reflexivity.
Qed.

Lemma TrimSpace_mapChars (f : ascii -> ascii) s :
  (forall c, strings.isSpace (f c) = strings.isSpace c) ->
  strings.TrimSpace (strings.mapChars f s)
  = strings.mapChars f (strings.TrimSpace s).
Proof.
  intros f_space. unfold strings.TrimSpace.
  now rewrite TrimLeftSpace_mapChars, TrimRightSpace_mapChars.
Qed.

(** Trimming twice is trimming once. *)
Lemma TrimRightSpace_idem s :
  strings.TrimRightSpace (strings.TrimRightSpace s) = strings.TrimRightSpace s.
Proof.
  induction s as [| c s IH]; cbn [strings.TrimRightSpace]; [reflexivity |].
  destruct (strings.TrimRightSpace s) as [| c' t] eqn:E.
  - destruct (strings.isSpace c) eqn:Hc; cbn [strings.TrimRightSpace];
      [reflexivity | now rewrite Hc].
  - cbn [strings.TrimRightSpace].
    cbn [strings.TrimRightSpace] in IH. fold strings.TrimRightSpace in *.
    now rewrite IH.
Qed.

Lemma TrimRightSpace_head c s :
  strings.isSpace c = false ->
  exists t, strings.TrimRightSpace (String c s) = String c t.
Proof.
  intros Hc. cbn [strings.TrimRightSpace].
  destruct (strings.TrimRightSpace s); [rewrite Hc |]; eauto.
Qed.

Lemma TrimLeftSpace_head s :
  strings.TrimLeftSpace s = ""
  \/ exists c t, strings.TrimLeftSpace s = String c t
                 /\ strings.isSpace c = false.
Proof.
  induction s as [| c s IH]; cbn [strings.TrimLeftSpace]; [now left |].
  destruct (strings.isSpace c) eqn:Hc; [exact IH | right; eauto].
Qed.

Lemma TrimSpace_idem s :
  strings.TrimSpace (strings.TrimSpace s) = strings.TrimSpace s.
Proof.
  unfold strings.TrimSpace.
  destruct (TrimLeftSpace_head s) as [-> | (c & t & -> & Hc)];
    [reflexivity |].
  destruct (TrimRightSpace_head c t Hc) as (u & E). rewrite E.
  cbn [strings.TrimLeftSpace]. rewrite Hc, <- E.
  apply TrimRightSpace_idem.
Qed.

Lemma normalized_ToUpper s : normalized (strings.ToUpper s) = normalized s.
Proof.
  unfold normalized, strings.ToUpper.
  rewrite (TrimSpace_mapChars _ _ isSpace_toUpperChar).
  apply ToLower_ToUpper.
Qed.

Lemma normalized_ToLower s : normalized (strings.ToLower s) = normalized s.
Proof.
  unfold normalized. unfold strings.ToLower at 2.
  rewrite (TrimSpace_mapChars _ _ isSpace_toLowerChar).
  apply ToLower_idem.
Qed.

Lemma normalized_TrimSpace s : normalized (strings.TrimSpace s) = normalized s.
Proof. unfold normalized. now rewrite TrimSpace_idem. Qed.

Lemma calculateConfidence_normalized c o1 m1 o2 m2 :
  normalized o1 = normalized o2 -> normalized m1 = normalized m2 ->
  calculateConfidence c o1 m1 = calculateConfidence c o2 m2.
Proof.
  intros Ho Hm. unfold calculateConfidence.
  fold (normalized o1) (normalized m1) (normalized o2) (normalized m2).
  now rewrite Ho, Hm.
Qed.

(** X12.  The confidence does not depend on the case of the letters nor on
    the white space around either address: putting the original or the
    matched address in upper or in lower case, or trimming it, leaves the
    confidence as it is. *)
Theorem X12_confidence_ignores_case_and_margins
    (c : CensusProvider) (original matched : string) :
  calculateConfidence c (strings.ToUpper original) matched
  = calculateConfidence c original matched
  /\ calculateConfidence c (strings.ToLower original) matched
     = calculateConfidence c original matched
  /\ calculateConfidence c (strings.TrimSpace original) matched
     = calculateConfidence c original matched
  /\ calculateConfidence c original (strings.ToUpper matched)
     = calculateConfidence c original matched
  /\ calculateConfidence c original (strings.ToLower matched)
     = calculateConfidence c original matched
  /\ calculateConfidence c original (strings.TrimSpace matched)
     = calculateConfidence c original matched.
Proof.
  repeat split; apply calculateConfidence_normalized;
    auto using normalized_ToUpper, normalized_ToLower, normalized_TrimSpace.
Qed.


(** ** Current weather and forecasts *)

Section weather_facts.
Context {RT : Runtime}.

(** X13.  [GetCurrentWeather] reads the latest observation of the first
    station of the grid point and of no other: with the grid point and its
    stations decoded, the call is the request, the decoding and the
    conversion of that station's observation, whatever the further stations
    are; with no station it fails with "no observation stations found" and
    makes no further request. *)
Theorem X13_current_weather_first_station
    n ctx lat lon w point w1 stations w2 resp :
  getGridPoint n ctx lat lon w = (Ok point, w1) ->
  nws_makeRequest n ctx (stationsURL n point) w1 = (Ok stations, w2) ->
  json_Unmarshal_Stations stations = Ok resp ->
  (Features resp = [] ->
   GetCurrentWeather n ctx lat lon w
   = (Err (errorString "no observation stations found"), w2))
  /\ (forall first rest,
        Features resp = first :: rest ->
        GetCurrentWeather n ctx lat lon w
        = currentObservation n ctx lat lon
            (StationIdentifier (station_Properties first)) w2).
Proof.
  intros Hpoint Hstations Hresp.
  assert (E : GetCurrentWeather n ctx lat lon w
              = match Features resp with
                | [] =>
                    (Err (errorString "no observation stations found"), w2)
                | first :: _ =>
                    currentObservation n ctx lat lon
                      (StationIdentifier (station_Properties first)) w2
                end).
  { unfold GetCurrentWeather.
    rewrite (bind_Ok _ _ _ _ _ (wrapping_Ok _ _ _ _ _ Hpoint)). cbv zeta.
    fold (stationsURL n point).
    rewrite (bind_Ok _ _ _ _ _ (wrapping_Ok _ _ _ _ _ Hstations)).
    unfold bind at 1, wrapping at 1, lift at 1. rewrite Hresp.
    destruct (Features resp); reflexivity. }
  split.
  - intros Hnone. now rewrite E, Hnone.
  - intros first rest Hfirst. now rewrite E, Hfirst.
Qed.

Lemma length_filter_le {A} (p : A -> bool) (l : list A) :
  (length (List.filter p l) <= length l)%nat.
Proof.
  induction l as [| x l IH]; simpl; [lia |]. destruct (p x); simpl; lia.
Qed.

(** X14.  [GetForecast] for every day count, also one whose double does
    not fit an [int].  A failed call failed in the grid point, in the
    request of the forecast or in its decoding: the loop never fails and
    never indexes past the periods.  With these three stages done the call
    succeeds; its forecasts are, in order, the conversions of the parsable
    ones among the first periods of the response, so they are never more
    than the periods; and for a day count from [-2^62] to 0 there is
    none. *)
Theorem X14_forecast_for_every_day_count n ctx lat lon days w :
  (forall e w',
     GetForecast n ctx lat lon days w = (Err e, w') ->
     forecastFailure n ctx lat lon w e w')
  /\ (forall point w1 data w2 resp,
        getGridPoint n ctx lat lon w = (Ok point, w1) ->
        nws_makeRequest n ctx (Forecast_URL (point_Properties point)) w1
        = (Ok data, w2) ->
        json_Unmarshal_Forecast data = Ok resp ->
        exists forecasts w3 examined,
          GetForecast n ctx lat lon days w = (Ok forecasts, w3)
          /\ (examined <= length (Periods (forecast_Properties resp)))%nat
          /\ Forall2 (convertedFrom n lat lon)
               (List.filter parsable
                  (take examined (Periods (forecast_Properties resp))))
               forecasts
          /\ (length forecasts
              <= length (Periods (forecast_Properties resp)))%nat
          /\ (- 2 ^ 62 <= days <= 0 -> forecasts = [])).
Proof.
  split.
  - intros e w'. apply GetForecast_Err_stage.
  - intros point w1 data w2 resp Hpoint Hdata Hresp.
    set (periods := Periods (forecast_Properties resp)).
    pose proof (maxPeriodsOf_le days periods) as Hle.
    destruct (forPeriods_run n lat lon periods
                (Z.to_nat (maxPeriodsOf days periods)) 0%nat [] w2)
      as (fs & w3 & Hrun & Hall).
    { simpl. lia. }
    rewrite drop_0 in Hall. cbn [app] in Hrun.
    exists fs, w3, (Z.to_nat (maxPeriodsOf days periods)).
    rewrite (GetForecast_stages _ _ _ _ _ _ _ _ _ _ _ Hpoint Hdata Hresp).
    fold periods. split; [exact Hrun |]. split; [exact Hle |].
    split; [exact Hall |]. split.
    + apply Forall2_length in Hall. rewrite <- Hall.
      etransitivity; [apply length_filter_le |].
      rewrite length_take. lia.
    + intros Hdays.
      pose proof (GetForecast_empty n ctx lat lon days w point w1 data w2
                    resp Hpoint Hdata Hresp (or_introl Hdays)) as Hempty.
      rewrite (GetForecast_stages _ _ _ _ _ _ _ _ _ _ _ Hpoint Hdata Hresp)
        in Hempty.
      fold periods in Hempty. rewrite Hrun in Hempty.
      now inversion Hempty.
Qed.

End weather_facts.

(** ** Keys of the request cache *)

Lemma append_inj_l (s a b : string) : s +:+ a = s +:+ b -> a = b.
Proof.
  induction s as [| c s IH]; cbn [String.append]; intros H; [exact H |].
  inversion H. auto.
Qed.

Section key_facts.
Context {RT : Runtime}.

(** X15.  Under one prefix two keys are kept under the same key of the
    store only if they are the same key: the keys of a cache never collide
    with each other. *)
Theorem X15_prefixed_keys_do_not_collide (c : RequestCache)
    (key1 key2 : string) :
  prefixKey c key1 = prefixKey c key2 <-> key1 = key2.
Proof.
  split; [| now intros ->].
  unfold prefixKey. destruct (String.eqb (prefix c) ""); [auto |].
  intros H. apply append_inj_l in H. now apply append_inj_l in H.
Qed.

End key_facts.

Lemma storeKey_inj pfx key1 key2 :
  storeKey pfx key1 = storeKey pfx key2 -> key1 = key2.
Proof.
  unfold storeKey. destruct pfx as [| a pfx]; [auto |].
  intros H. apply append_inj_l in H. now apply append_inj_l in H.
Qed.

Section mock_facts.
Variable fx : Fixture.

Lemma mock_Get_no_expiry key w :
  fw_shouldError w = false -> fw_ttls w !! key = None ->
  mock_Get tt key w
  = (match fw_data w !! key with
     | Some value => (value, None)
     | None => ([], Some (errors_New "key not found"))
     end, w).
Proof.
  intros Hmode Httl. unfold mock_Get, expire. rewrite Hmode, Httl.
  destruct (fw_data w !! key); reflexivity.
Qed.

Lemma mock_Exists_no_expiry key w :
  fw_shouldError w = false -> fw_ttls w !! key = None ->
  mock_Exists tt key w
  = (match fw_data w !! key with
     | Some _ => (true, None)
     | None => (false, None)
     end, w).
Proof.
  intros Hmode Httl. unfold mock_Exists, expire. rewrite Hmode, Httl.
  destruct (fw_data w !! key); reflexivity.
Qed.

Lemma mock_SetNX_present key value ttl w present :
  fw_shouldError w = false -> fw_ttls w !! key = None ->
  fw_data w !! key = Some present ->
  mock_SetNX tt key value ttl w = ((false, None), w).
Proof.
  intros Hmode Httl Hdata. unfold mock_SetNX, expire.
  now rewrite Hmode, Httl, Hdata.
Qed.

Lemma mock_Set_no_expiry key value ttl w :
  fw_shouldError w = false -> ttl <= 0 ->
  mock_Set tt key value ttl w
  = (None, fw_store w (<[key := value]> (fw_data w)) (fw_ttls w)).
Proof.
  intros Hmode Hle. unfold mock_Set, put. rewrite Hmode.
  destruct (Z.gtb_spec ttl 0); [lia | reflexivity].
Qed.

(** X16.  The cache over the mock store, for a store that is not set to
    fail, a key that has no expiry and a time to live that sets none
    ([ttl <= 0]).  [Set] succeeds; the value is then read back by [Get],
    [Exists] is true, [SetNX] refuses to replace it and leaves the store as
    it is, and after [Delete] the key is not found.  What [Get] returns for
    any other key of the cache is what it returned before the [Set]. *)
Theorem X16_cache_round_trip (pfx key : string)
    (value other : list Byte.byte) (ttl : Duration) (w : FixtureWorld) :
  fw_shouldError w = false ->
  fw_ttls w !! storeKey pfx key = None ->
  ttl <= 0 ->
  let cache := NewRequestCache (MockKVStore fx) pfx in
  let w1 := snd (cache_Set cache tt key value ttl w) in
  fst (cache_Set cache tt key value ttl w) = None
  /\ cache_Get cache tt key w1 = ((value, None), w1)
  /\ cache_Exists cache tt key w1 = ((true, None), w1)
  /\ cache_SetNX cache tt key other ttl w1 = ((false, None), w1)
  /\ fst (cache_Get cache tt key (snd (cache_Delete cache tt key w1)))
     = ([], Some (errors_New "key not found"))
  /\ (forall key2,
        key2 <> key ->
        fst (cache_Get cache tt key2 w1) = fst (cache_Get cache tt key2 w)).
Proof.
  intros Hmode Httl Hle cache w1.
  assert (Hset : cache_Set cache tt key value ttl w
                 = (None,
                    fw_store w (<[storeKey pfx key := value]> (fw_data w))
                      (fw_ttls w))).
  { unfold cache. cbn [NewRequestCache cache_Set].
    unfold RequestCache_Set. cbn [store MockKVStore kv_Set].
    rewrite prefixKey_storeKey. now apply mock_Set_no_expiry. }
  unfold w1. rewrite Hset. cbn [fst snd]. clear w1 Hset.
  set (w1 := fw_store w (<[storeKey pfx key := value]> (fw_data w))
               (fw_ttls w)).
  assert (Hmode1 : fw_shouldError w1 = false) by exact Hmode.
  assert (Httl1 : fw_ttls w1 !! storeKey pfx key = None) by exact Httl.
  assert (Hdata1 : fw_data w1 !! storeKey pfx key = Some value)
    by (apply lookup_insert_eq).
  unfold cache.
  cbn [NewRequestCache cache_Get cache_Exists cache_SetNX cache_Delete].
  unfold RequestCache_Get, RequestCache_Exists, RequestCache_SetNX,
    RequestCache_Delete.
  cbn [store MockKVStore kv_Get kv_Exists kv_SetNX kv_Delete].
  rewrite !prefixKey_storeKey.
  split; [reflexivity |]. split; [| split; [| split; [| split]]].
  - now rewrite (mock_Get_no_expiry _ _ Hmode1 Httl1), Hdata1.
  - now rewrite (mock_Exists_no_expiry _ _ Hmode1 Httl1), Hdata1.
  - exact (mock_SetNX_present _ _ _ _ _ Hmode1 Httl1 Hdata1).
  - unfold mock_Delete. rewrite Hmode1. cbn [snd].
    rewrite mock_Get_no_expiry;
      [| exact Hmode | cbn [fw_ttls fw_store]; apply lookup_delete_eq].
    cbn [fst fw_data fw_store]. now rewrite lookup_delete_eq.
  - intros key2 Hne. rewrite prefixKey_storeKey.
    assert (Hk : storeKey pfx key <> storeKey pfx key2).
    { intros E. apply storeKey_inj in E. congruence. }
    assert (Hd : fw_data w1 !! storeKey pfx key2
                 = fw_data w !! storeKey pfx key2)
      by (apply lookup_insert_ne; exact Hk).
    unfold mock_Get, expire. rewrite Hmode1, Hmode.
    change (fw_ttls w1) with (fw_ttls w).
    change (fw_clock w1) with (fw_clock w).
    destruct (fw_ttls w !! storeKey pfx key2) as [expiry |].
    + destruct (expiry <? fw_clock w); [reflexivity |].
      change (fw_data (fw_tick w1)) with (fw_data w1).
      change (fw_data (fw_tick w)) with (fw_data w).
      rewrite Hd. destruct (fw_data w !! storeKey pfx key2); reflexivity.
    + rewrite Hd. destruct (fw_data w !! storeKey pfx key2); reflexivity.
Qed.

End mock_facts.

(** ** The address line read back *)











(** ** The properties on the test servers *)

Lemma X4_weather_status_errors_witness :
  exists e,
    run brokenServer
      (GetForecast testNWS tt 39.0458%float (-76.6413)%float 1) = Err e
    /\ Error e
       = "failed to get grid point: API request failed with status 500".
Proof.
  destruct (X4_weather_status_errors
              (RT := fixtureRuntime brokenServer)
              (ART := fixtureAlerts brokenServer ∅)
              testNWS tt 39.0458%float (-76.6413)%float newWorld
              {| Method := "GET";
                 URL := pointsURL testNWS 39.0458%float (-76.6413)%float;
                 Header := ∅ |}
              {| StatusCode := 500; Body := body "Internal Server Error" |}
              newWorld) as [Hpoint _].
  - vm_compute. discriminate.
  - vm_compute. reflexivity.
  - destruct Hpoint as [_ Hforecast]; [reflexivity |].
    destruct (Hforecast 1) as (e & Hrun & Hmsg).
    exists e. unfold run. rewrite Hrun. split; [reflexivity |].
    rewrite Hmsg. vm_compute. reflexivity.
Defined.

Lemma X5_geocoding_status_errors_witness :
  exists e,
    run brokenServer (GeocodeAddress testCensus tt "Test Address") = Err e
    /\ Error e
       = "geocoding request failed: API request failed with status 500".
Proof.
  destruct (X5_geocoding_status_errors
              (RT := fixtureRuntime brokenServer)
              testCensus tt "Test Address" 39.0458%float (-76.6413)%float
              newWorld
              {| Method := "GET";
                 URL := geocodeURL (RT := fixtureRuntime brokenServer)
                          testCensus "Test Address";
                 Header := ∅ |}
              {| StatusCode := 500; Body := body "Internal Server Error" |}
              newWorld) as [Hgeocode _].
  - vm_compute. discriminate.
  - vm_compute. reflexivity.
  - destruct Hgeocode as (e & Hrun & Hmsg); [reflexivity |].
    exists e. unfold run. rewrite Hrun. split; [reflexivity |].
    rewrite Hmsg. vm_compute. reflexivity.
Defined.

Lemma X13_current_weather_first_station_witness :
  GetCurrentWeather (RT := fixtureRuntime northWind) testNWS tt
    39.0458%float (-76.6413)%float newWorld
  = currentObservation (RT := fixtureRuntime northWind) testNWS tt
      39.0458%float (-76.6413)%float "KTOP" newWorld.
Proof.
  destruct (X13_current_weather_first_station
              (RT := fixtureRuntime northWind) testNWS tt
              39.0458%float (-76.6413)%float newWorld testPoint newWorld
              (body "stations") newWorld testStations) as [_ Hfirst].
  - vm_compute. reflexivity.
  - vm_compute. reflexivity.
  - vm_compute. reflexivity.
  - exact (Hfirst _ _ eq_refl).
Defined.

Lemma X16_cache_round_trip_witness :
  fst (cache_Get (NewRequestCache (MockKVStore offline) "weather") tt
         "forecast:123"
         (snd (cache_Set (NewRequestCache (MockKVStore offline) "weather")
                 tt "forecast:123" (body "test data") 0 newWorld)))
  = (body "test data", None).
Proof.
  pose proof (X16_cache_round_trip offline "weather" "forecast:123"
                (body "test data") [] 0 newWorld) as H.
  destruct H as (_ & Hget & _).
  - reflexivity.
  - vm_compute. reflexivity.
  - lia.
  - rewrite Hget. reflexivity.
Defined.

(** The error tests of the two adapters: a server that answers 500, and
    one whose body is no JSON. *)
Lemma error_tests :
  resultOf (fun _ : Forecast => tt)
    (run brokenServer
       (GetCurrentWeather testNWS tt 39.0458%float (-76.6413)%float)) = None
  /\ is_Ok (run brokenServer
              (GetAlerts (ART := fixtureAlerts brokenServer ∅) testNWS tt
                 39.0458%float (-76.6413)%float)) = false
  /\ is_Ok (run brokenServer
              (ReverseGeocode testCensus tt 39.0458%float (-76.6413)%float))
     = false.
Proof. repeat split; vm_compute; reflexivity. Qed.

(** The places of the geocoding tests pass the validation of the model. *)
Lemma geocoded_place_tests :
  resultOf (map (fun p => fst (Place_Validate p)))
    (run oneMatch (GeocodeAddress testCensus tt "123 Main St, Anytown, ST"))
  = Some [None]
  /\ resultOf (fun p => (Latitude p, Longitude p, fst (Place_Validate p)))
       (run oneMatch
          (ReverseGeocode testCensus tt 39.0458%float (-76.6413)%float))
     = Some (39.0458%float, (-76.6413)%float, None).
Proof. split; vm_compute; reflexivity. Qed.


(** ** What a conversion does not read *)

Section unused_fields.
Context {RT : Runtime}.

(** X18.  Of a forecast period the conversion reads the start time, the
    temperature and its unit, the two wind strings and the detailed
    forecast.  The end time must parse, and is not used beyond that; the
    number, the name, the day flag, the icon and the short forecast are
    never read: two periods that agree on what is read, and whose end
    times both parse, convert to the same result from the same state. *)
Theorem X18_period_fields_not_read n p1 p2 lat lon w :
  sameReadings p1 p2 ->
  is_Ok (time_Parse_RFC3339 (EndTime p1)) = true ->
  is_Ok (time_Parse_RFC3339 (EndTime p2)) = true ->
  periodToForecast n p1 lat lon w = periodToForecast n p2 lat lon w.
Proof.
  intros (Hstart & Htemp & Hunit & Hspeed & Hdir & Hdetail) Hend1 Hend2.
  unfold periodToForecast, bind, wrapping, lift.
  rewrite Hstart, Htemp, Hunit, Hspeed, Hdir, Hdetail.
  destruct (time_Parse_RFC3339 (StartTime p2)); [| reflexivity].
  destruct (time_Parse_RFC3339 (EndTime p1)); [| discriminate].
  destruct (time_Parse_RFC3339 (EndTime p2)); [| discriminate].
  reflexivity.
Qed.

End unused_fields.

Lemma X18_period_fields_not_read_witness :
  run twoPeriods
    (periodToForecast testNWS tonight 39.0458%float (-76.6413)%float)
  = run twoPeriods
      (periodToForecast testNWS tonightRenamed 39.0458%float
         (-76.6413)%float).
Proof.
  unfold run.
  rewrite (X18_period_fields_not_read (RT := fixtureRuntime twoPeriods)
             testNWS tonight tonightRenamed 39.0458%float (-76.6413)%float
             newWorld).
  - reflexivity.
  - repeat split.
  - reflexivity.
  - reflexivity.
Defined.

(** ** Clearing the store *)

Section clear_facts.
Variable fx : Fixture.

(** X19.  [Clear] is not scoped to the prefix of the cache.  On the mock
    store (not set to fail), after [Clear] through a cache of any prefix no
    key is left for any cache over the same store, whatever its prefix:
    [Exists] is false and [Get] finds nothing. *)
Theorem X19_clear_empties_every_prefix (pfx1 pfx2 key : string)
    (w : FixtureWorld) :
  fw_shouldError w = false ->
  let w1 := snd (cache_Clear (NewRequestCache (MockKVStore fx) pfx1) tt w) in
  fst (cache_Clear (NewRequestCache (MockKVStore fx) pfx1) tt w) = None
  /\ cache_Exists (NewRequestCache (MockKVStore fx) pfx2) tt key w1
     = ((false, None), w1)
  /\ cache_Get (NewRequestCache (MockKVStore fx) pfx2) tt key w1
     = (([], Some (errors_New "key not found")), w1).
Proof.
  intros Hmode w1.
  assert (Hclear : cache_Clear (NewRequestCache (MockKVStore fx) pfx1) tt w
                   = (None, fw_store w ∅ ∅)).
  { cbn [NewRequestCache cache_Clear]. unfold RequestCache_Clear.
    cbn [store MockKVStore kv_Clear]. unfold mock_Clear. now rewrite Hmode. }
  unfold w1. rewrite Hclear. cbn [fst snd]. clear w1.
  cbn [NewRequestCache cache_Exists cache_Get].
  unfold RequestCache_Exists, RequestCache_Get.
  cbn [store MockKVStore kv_Exists kv_Get].
  split; [reflexivity |].
  rewrite mock_Exists_no_expiry, mock_Get_no_expiry;
    try exact Hmode; try apply lookup_empty.
  cbn [fw_data fw_store]. rewrite lookup_empty. split; reflexivity.
Qed.

End clear_facts.

Lemma X19_clear_empties_every_prefix_witness :
  fst (fst (cache_Exists (NewRequestCache (MockKVStore offline) "places") tt
              "home"
              (snd (cache_Clear
                      (NewRequestCache (MockKVStore offline) "weather") tt
                      (snd (cache_Set
                              (NewRequestCache (MockKVStore offline) "places")
                              tt "home" (body "here") 0 newWorld))))))
  = false.
Proof.
  pose proof (X19_clear_empties_every_prefix offline "weather" "places"
                "home"
                (snd (cache_Set
                        (NewRequestCache (MockKVStore offline) "places")
                        tt "home" (body "here") 0 newWorld))) as H.
  destruct H as (_ & Hexists & _); [reflexivity |].
  now rewrite Hexists.
Defined.
